(** * Implied-volatility surface builder (vol_surface.py, data_download.py)

    A shallow embedding of the five pipeline stages of [vol_surface.py]:
    [load_trades], [filter_trades], [aggregate_curves] and
    [build_animation] (surface interpolation and frame sequencing), of
    [build_price_chart] and [run], and of [download_date_range] of
    [data_download.py].

    Conventions of the embedding.
    - A pandas [DataFrame] handed from one stage to the next is a list of
      rows, each row a record of its index label and of the columns the
      later stages read.  The frame returned by [pd.read_csv] is a finite
      map from column names to typed columns, because [load_trades] tests
      column presence.
    - A float64 cell is NaN or the rational number it holds ([num]).
      Comparisons are those of the numbers and are false on NaN.  The
      arithmetic of the program rounds to the nearest binary64 value
      ([Binary64]); an operation that overflows or divides by zero gives
      NaN, the model having no infinities.  Two reductions of pandas are
      kept without rounding: the sum of the sizes of a group and the mean
      of the two middle values of a median.
    - The order in which [ndarray.sum] adds the cells of an array is
      numpy's own; the reduction is a parameter of [aggregate_curves].
    - A datetime64[ns] cell is a number of nanoseconds since the epoch or
      NaT ([option Z]).
    - A Python exception is a value of [exn] carried by [result]. *)

From Stdlib Require Import ZArith QArith String Ascii List Lia Lqa Bool.
From Stdlib Require Import DecimalString Permutation.
From Stdlib Require Import Floats.
From stdpp Require Import base gmap strings sorting list.

Local Open Scope string_scope.
Local Open Scope Z_scope.

(** ** Exceptions *)

Inductive exn : Type :=
| KeyError (column : string)
| AttributeError
| ValueError (text : string)
| IndexError
| ZeroDivisionError
| TypeError.

Inductive result (A : Type) : Type :=
| Ok (a : A)
| Raise (e : exn).

Arguments Ok {A} a.
Arguments Raise {A} e.

Definition bind {A B : Type} (m : result A) (k : A -> result B) : result B :=
  match m with
  | Ok a => k a
  | Raise e => Raise e
  end.

Notation "'let!' x ':=' m 'in' k" := (bind m (fun x => k))
  (at level 10, x name, m at level 100, k at level 200).

(** Evaluate [f] on the elements in order; the first exception ends the run. *)
Fixpoint for_each {A B : Type} (f : A -> result B) (l : list A) : result (list B) :=
  match l with
  | [] => Ok []
  | a :: l' =>
      let! b := f a in
      let! bs := for_each f l' in
      Ok (b :: bs)
  end.

(** ** Numeric cells *)

Module Num.

(** A float64 cell: [Some q] is the number [q], [None] is NaN. *)
Definition num : Type := option Q.

Definition nan : num := None.
Definition of_Q (q : Q) : num := Some q.
Definition of_Z (z : Z) : num := Some (inject_Z z).

Definition Qltb (a b : Q) : bool := negb (Qle_bool b a).

(** [a <= b], [a < b], [a >= b], [a > b] on cells; false when either
    side is NaN. *)
Definition le (a b : num) : bool :=
  match a, b with
  | Some x, Some y => Qle_bool x y
  | _, _ => false
  end.

Definition lt (a b : num) : bool :=
  match a, b with
  | Some x, Some y => Qltb x y
  | _, _ => false
  end.

Definition ge (a b : num) : bool := le b a.
Definition gt (a b : num) : bool := lt b a.

(** [a == b] on cells; NaN equals nothing. *)
Definition eq (a b : num) : bool :=
  match a, b with
  | Some x, Some y => Qeq_bool x y
  | _, _ => false
  end.

Definition lift2 (f : Q -> Q -> Q) (a b : num) : num :=
  match a, b with
  | Some x, Some y => Some (f x y)
  | _, _ => None
  end.

(** Sum and quotient without rounding, for the two reductions that are
    kept exact. *)
Definition add : num -> num -> num := lift2 Qplus.

Definition div (a b : num) : num :=
  match a, b with
  | Some x, Some y => if Qeq_bool y 0 then None else Some (x / y)%Q
  | _, _ => None
  end.

(** The cell holds a number satisfying [P]. *)
Definition holds (P : Q -> Prop) (a : num) : Prop :=
  match a with
  | Some q => P q
  | None => False
  end.

End Num.

Import Num.

(** ** Binary64 arithmetic

    Rounding to the nearest binary64 value, ties to the even significand:
    53 bits of significand, subnormal values down to 2^-1074, overflow
    from 2^1024 on. *)
Module Binary64.

(** The integer nearest to [n / d], ties to even, for [0 <= n], [0 < d]. *)
Definition rne (n d : Z) : Z :=
  let q := n / d in
  match 2 * (n mod d) ?= d with
  | Lt => q
  | Gt => q + 1
  | Eq => if Z.even q then q else q + 1
  end.

(** The fraction [n / d / 2^e]. *)
Definition scale (n d e : Z) : Z * Z :=
  if 0 <=? e then (n, d * 2 ^ e) else (n * 2 ^ (- e), d).

(** The exponent [e] that puts [n / d / 2^e] in [2^52, 2^53), and -1074
    for a subnormal value. *)
Definition exponent (n d : Z) : Z :=
  let e0 := Z.log2 n - Z.log2 d - 52 in
  let '(n', d') := scale n d e0 in
  Z.max (-1074) (if n' <? d' * 2 ^ 52 then e0 - 1 else e0).

Definition round_pos (n d : Z) : num :=
  let e := exponent n d in
  let '(n', d') := scale n d e in
  let m := rne n' d' in
  if 0 <=? e then
    (if 2 ^ 1024 <=? m * 2 ^ e then nan else Some (inject_Z (m * 2 ^ e)))
  else Some (Qmake m (Z.to_pos (2 ^ (- e)))).

(** The binary64 value nearest to [q]; NaN where binary64 has an
    infinity. *)
Definition round (q : Q) : num :=
  match Qnum q with
  | 0 => Some 0%Q
  | Zpos n => round_pos (Zpos n) (Zpos (Qden q))
  | Zneg n => option_map Qopp (round_pos (Zpos n) (Zpos (Qden q)))
  end.

(** The value of a decimal literal of the source. *)
Definition lit (q : Q) : num := round q.

Definition lift2 (f : Q -> Q -> Q) (a b : num) : num :=
  match a, b with
  | Some x, Some y => round (f x y)
  | _, _ => None
  end.

Definition add : num -> num -> num := lift2 Qplus.
Definition sub : num -> num -> num := lift2 Qminus.
Definition mul : num -> num -> num := lift2 Qmult.

Definition div (a b : num) : num :=
  match a, b with
  | Some x, Some y => if Qeq_bool y 0 then None else round (x / y)
  | _, _ => None
  end.

(** The cells of an array added from the left, the order of
    [ndarray.sum] on an array of fewer than eight cells. *)
Definition sum (xs : list num) : num := fold_left add xs (of_Q 0).

(** The number a machine float holds; NaN for its NaN and infinities. *)
Definition value (f : float) : num :=
  match Prim2SF f with
  | S754_zero _ => Some 0%Q
  | S754_finite s m e =>
      let q := if 0 <=? e then inject_Z (Zpos m * 2 ^ e)
               else Qmake (Zpos m) (Z.to_pos (2 ^ (- e))) in
      Some (if s then Qopp q else q)
  | _ => None
  end.

(** Two cells hold the same number, or are both NaN. *)
Definition same (a b : num) : bool :=
  match a, b with
  | Some x, Some y => Qeq_bool x y
  | None, None => true
  | _, _ => false
  end.

(** A comparison of the four operations with those of the machine, on
    two floats built from the integer [i]. *)
Definition agrees (i : Z) : bool :=
  let n := (i * 7919 + 13) * (i * i + 1) in
  let d := i * 104729 + 7 in
  let of_int (z : Z) : float := PrimFloat.of_uint63 (Uint63.of_Z z) in
  let fx := PrimFloat.div (of_int n) (of_int d) in
  let fy := PrimFloat.div (of_int d) (of_int 1000003) in
  same (round (Qmake n (Z.to_pos d))) (value fx)
  && same (div (value fx) (value fy)) (value (PrimFloat.div fx fy))
  && same (mul (value fx) (value fy)) (value (PrimFloat.mul fx fy))
  && same (add (value fx) (value fy)) (value (PrimFloat.add fx fy))
  && same (sub (value fx) (value fy)) (value (PrimFloat.sub fx fy)).

End Binary64.

(** ** Timestamps *)

Module Time.

(** datetime64[ns]: nanoseconds since 1970-01-01T00:00, [None] is NaT. *)
Definition datetime : Type := option Z.

Definition ns_per_second : Z := 1000000000.
Definition ns_per_minute : Z := 60 * ns_per_second.
Definition ns_per_hour : Z := 60 * ns_per_minute.
Definition ns_per_day : Z := 24 * ns_per_hour.

(** [Series.dt.floor(freq)] for a fixed-width frequency of [freq]
    nanoseconds: round down to a multiple of [freq] counted from the
    epoch.  A zero width leaves the timestamps as they are. *)
Definition dt_floor (freq : Z) (t : datetime) : datetime :=
  match t with
  | Some ns => Some (if freq =? 0 then ns else freq * (ns / freq))
  | None => None
  end.

(** [Timestamp.normalize()]: midnight of the same day.  [NaT] has no
    such method. *)
Definition normalize (t : datetime) : result datetime :=
  match t with
  | Some ns => Ok (Some (ns_per_day * (ns / ns_per_day)))
  | None => Raise AttributeError
  end.

(** [Series.min()]: the least timestamp, NaT cells skipped; NaT when no
    cell holds a timestamp. *)
Fixpoint series_min (s : list datetime) : datetime :=
  match s with
  | [] => None
  | None :: s' => series_min s'
  | Some t :: s' =>
      match series_min s' with
      | Some m => Some (Z.min t m)
      | None => Some t
      end
  end.

(** [(a - b).dt.days]: whole days of the difference, rounded down; NaN
    when either side is NaT. *)
Definition days_between (a b : datetime) : option Z :=
  match a, b with
  | Some x, Some y => Some ((x - y) / ns_per_day)
  | _, _ => None
  end.

End Time.

Import Time.

(** ** Text *)

Fixpoint map_string (f : ascii -> ascii) (s : string) : string :=
  match s with
  | EmptyString => EmptyString
  | String c s' => String (f c) (map_string f s')
  end.

(** [cell == text] on a cell of an object column: false on a missing
    cell. *)
Definition text_is (text : string) (cell : option string) : bool :=
  match cell with
  | Some s => String.eqb s text
  | None => false
  end.

(** ** Calendar dates *)

Module Calendar.

Definition is_leap (y : Z) : bool :=
  ((y mod 4 =? 0) && negb (y mod 100 =? 0)) || (y mod 400 =? 0).

Definition days_in_month (y m : Z) : Z :=
  if m =? 2 then (if is_leap y then 29 else 28)
  else if (m =? 4) || (m =? 6) || (m =? 9) || (m =? 11) then 30
  else 31.

Definition valid_date (y m d : Z) : bool :=
  (1 <=? m) && (m <=? 12) && (1 <=? d) && (d <=? days_in_month y m).

(** Days from 1970-01-01 to the Gregorian date [y-m-d]. *)
Definition days_from_civil (y m d : Z) : Z :=
  let y' := if m <=? 2 then y - 1 else y in
  let era := y' / 400 in
  let yoe := y' - era * 400 in
  let mp := (m + 9) mod 12 in
  let doy := (153 * mp + 2) / 5 + d - 1 in
  let doe := yoe * 365 + yoe / 4 - yoe / 100 + doy in
  era * 146097 + doe - 719468.

Definition digit_of (c : ascii) : option Z :=
  let n := Z.of_nat (nat_of_ascii c) in
  if (48 <=? n) && (n <=? 57) then Some (n - 48) else None.

Definition two_digits (a b : ascii) : option Z :=
  match digit_of a, digit_of b with
  | Some x, Some y => Some (10 * x + y)
  | _, _ => None
  end.

(** The fields of a text of the shape [YYYY-MM-DD]: four digits, two
    digits and two digits between hyphens. *)
Definition fields_of (s : string) : option (Z * Z * Z) :=
  match s with
  | String y1 (String y2 (String y3 (String y4 (String "-"
      (String m1 (String m2 (String "-"
        (String d1 (String d2 EmptyString))))))))) =>
      match two_digits y1 y2, two_digits y3 y4, two_digits m1 m2, two_digits d1 d2 with
      | Some yh, Some yl, Some m, Some d => Some (100 * yh + yl, m, d)
      | _, _, _, _ => None
      end
  | _ => None
  end.

(** The text has the shape [YYYY-MM-DD]. *)
Definition iso_shaped (s : string) : bool :=
  match fields_of s with
  | Some _ => true
  | None => false
  end.

(** The bounds of a datetime64[ns] value; the least int64 stands for
    NaT. *)
Definition in_bounds (ns : Z) : bool :=
  (- 2 ^ 63 <? ns) && (ns <? 2 ^ 63).

(** [pd.to_datetime] on one text of the shape [YYYY-MM-DD]: midnight of
    that day, or [None] when the fields are no calendar date or the day
    is out of the bounds of datetime64[ns]. *)
Definition parse_date (s : string) : option Z :=
  match fields_of s with
  | Some (y, m, d) =>
      let ns := days_from_civil y m d * ns_per_day in
      if valid_date y m d && in_bounds ns then Some ns else None
  | None => None
  end.

End Calendar.

(** ** Stage 1: [load_trades] *)

(** A column of a frame, by dtype.  A missing cell of an object column is
    [None]. *)
Inductive Column : Type :=
| ObjectCol (cells : list (option string))
| Int64Col (cells : list Z)
| Float64Col (cells : list num)
| DatetimeCol (cells : list datetime).

(** A frame: its columns by name. *)
Abbreviation DataFrame := (gmap string Column).

(** [df[mask]] on one column. *)
Fixpoint select {A : Type} (mask : list bool) (cells : list A) : list A :=
  match mask, cells with
  | b :: mask', c :: cells' =>
      if b then c :: select mask' cells' else select mask' cells'
  | _, _ => []
  end.

Definition select_column (mask : list bool) (col : Column) : Column :=
  match col with
  | ObjectCol cells => ObjectCol (select mask cells)
  | Int64Col cells => Int64Col (select mask cells)
  | Float64Col cells => Float64Col (select mask cells)
  | DatetimeCol cells => DatetimeCol (select mask cells)
  end.

(** [df[mask]]: the same mask on every column. *)
Definition select_rows (mask : list bool) (df : DataFrame) : DataFrame :=
  select_column mask <$> df.

Definition column_length (col : Column) : nat :=
  match col with
  | ObjectCol cells => length cells
  | Int64Col cells => length cells
  | Float64Col cells => length cells
  | DatetimeCol cells => length cells
  end.

(** [df[name]]. *)
Definition getitem (df : DataFrame) (name : string) : result Column :=
  match df !! name with
  | Some col => Ok col
  | None => Raise (KeyError name)
  end.

(** [series == text]: false on a missing cell and on every cell of a
    column that is not text. *)
Definition eq_text (col : Column) (text : string) : list bool :=
  match col with
  | ObjectCol cells => map (text_is text) cells
  | Int64Col cells => map (fun _ => false) cells
  | Float64Col cells => map (fun _ => false) cells
  | DatetimeCol cells => map (fun _ => false) cells
  end.

(** [series.str.replace(old, new, regex=False)] for one-character [old]
    and [new]; the [.str] accessor raises on a column that is not text. *)
Definition str_replace (old new : ascii) (col : Column) : result (list (option string)) :=
  match col with
  | ObjectCol cells =>
      Ok (map (option_map (map_string (fun c => if Ascii.eqb c old then new else c))) cells)
  | _ => Raise AttributeError
  end.

(** [str.zfill(width)]: zeros on the left up to [width], after a leading
    sign. *)
Definition zfill (width : nat) (s : string) : string :=
  let pad := String.concat "" (repeat "0" (width - String.length s)) in
  match s with
  | String "-" rest => String "-" (pad ++ rest)
  | String "+" rest => String "+" (pad ++ rest)
  | _ => pad ++ s
  end.

Definition str_of_int (z : Z) : string := NilZero.string_of_int (Z.to_int z).

(** The columns [load_trades] coerces to numbers. *)
Definition numeric_columns : list string :=
  ["prtPrice"; "prtSize"; "uBid"; "uAsk"; "uPrc"; "okey_xx"; "prtIv"].

Section LoadTrades.

(** Text conversions of pandas whose tables are not part of the source:
    the timestamp parser and the number parser (both answer "not
    available" on text they do not read), the printers used by
    [astype(str)] on float and datetime columns, and the date parser on
    a column that holds a text of another shape than [YYYY-MM-DD], which
    reads the whole column to choose its format: it raises, or gives the
    reading of each text. *)
Variable to_datetime_text : string -> datetime.
Variable to_numeric_text : string -> num.
Variable str_of_float : Q -> string.
Variable str_of_datetime : Z -> string.
Variable to_datetime_other : list string -> result (string -> datetime).

(** [pd.to_datetime(texts, errors='coerce')]. *)
Definition to_datetime_coerce (texts : list (option string)) : list datetime :=
  map (fun c => match c with
                | Some s => to_datetime_text s
                | None => None
                end) texts.

(** [pd.to_datetime(texts)] with the default [errors='raise'].  On a
    column of texts of the shape [YYYY-MM-DD] the first text that is no
    date raises; a column with a text of another shape is left to
    pandas. *)
Definition to_datetime_raise (texts : list string) : result (list datetime) :=
  if forallb Calendar.iso_shaped texts then
    for_each (fun s => match Calendar.parse_date s with
                       | Some ns => Ok (Some ns)
                       | None => Raise (ValueError s)
                       end) texts
  else
    let! read := to_datetime_other texts in
    Ok (map read texts).

(** [pd.to_numeric(col, errors='coerce')]. *)
Definition to_numeric (col : Column) : Column :=
  match col with
  | ObjectCol cells =>
      Float64Col (map (fun c => match c with
                                | Some s => to_numeric_text s
                                | None => nan
                                end) cells)
  | Int64Col cells => Int64Col cells
  | Float64Col cells => Float64Col cells
  | DatetimeCol cells =>
      Int64Col (map (fun c => match c with
                              | Some ns => ns
                              | None => - 2 ^ 63
                              end) cells)
  end.

(** [col.astype(str)]. *)
Definition astype_str (col : Column) : list string :=
  match col with
  | ObjectCol cells => map (fun c => match c with Some s => s | None => "nan" end) cells
  | Int64Col cells => map str_of_int cells
  | Float64Col cells =>
      map (fun c => match c with Some q => str_of_float q | None => "nan" end) cells
  | DatetimeCol cells =>
      map (fun c => match c with Some ns => str_of_datetime ns | None => "NaT" end) cells
  end.

(** [df['timestamp'] - pd.Timedelta(hours=5)]. *)
Definition minus_hours (h : Z) (cells : list datetime) : list datetime :=
  map (option_map (fun ns => ns - h * ns_per_hour)) cells.

(** One pass of the loop over [numeric_columns]. *)
Definition coerce_column (df : DataFrame) (name : string) : DataFrame :=
  match df !! name with
  | Some col => <[name := to_numeric col]> df
  | None => df
  end.

(** The ticker restriction. *)
Definition restrict_ticker (df : DataFrame) : DataFrame :=
  match df !! "ticker_tk" with
  | Some tk => select_rows (eq_text tk "SPY") df
  | None => df
  end.

(** The text [yr + '-' + mn.zfill(2) + '-' + dy.zfill(2)], row by row. *)
Fixpoint date_texts (yr mn dy : list string) : list string :=
  match yr, mn, dy with
  | y :: yr', m :: mn', d :: dy' =>
      (y ++ "-" ++ zfill 2 m ++ "-" ++ zfill 2 d) :: date_texts yr' mn' dy'
  | _, _, _ => []
  end.

(** The frame after the timestamp and number coercions, before the
    ticker restriction. *)
Definition coerced (df : DataFrame) : result DataFrame :=
  let ts_col :=
    if bool_decide (is_Some (df !! "timestamp")) then "timestamp" else "prtTimestamp" in
  let! raw := getitem df ts_col in
  let! text := str_replace "D" "T" raw in
  let df := <["timestamp" := DatetimeCol (minus_hours 5 (to_datetime_coerce text))]> df in
  Ok (foldl coerce_column df numeric_columns).

(** [load_trades], from the frame that [pd.read_csv] returned. *)
Definition load_trades (df : DataFrame) : result DataFrame :=
  let! df := coerced df in
  let df := restrict_ticker df in
  let! yr := getitem df "okey_yr" in
  let! mn := getitem df "okey_mn" in
  let! dy := getitem df "okey_dy" in
  let! exp := to_datetime_raise
                (date_texts (astype_str yr) (astype_str mn) (astype_str dy)) in
  Ok (<["expiration" := DatetimeCol exp]> df).

End LoadTrades.

(** ** Stage 2: [filter_trades] *)

(** One row of the frame [load_trades] returns: its index label and the
    columns that the later stages read. *)
Record Trade : Type := mkTrade {
  index : Z;
  timestamp : datetime;
  expiration : datetime;
  okey_xx : num;
  okey_cp : option string;
  prtPrice : num;
  prtSize : num;
  prtIv : num;
  uPrc : num
}.

(** A row of the frame [filter_trades] returns: the trade and the four
    columns the function adds. *)
Record CleanTrade : Type := mkCleanTrade {
  trade : Trade;
  moneyness : num;
  is_otm : bool;
  bucket_time : datetime;
  days_to_exp : option Z
}.

(** The default [bucket_freq = '5min'], in nanoseconds. *)
Definition five_min : Z := 5 * ns_per_minute.

(** First mask of [filter_trades]. *)
Definition admitted (t : Trade) : bool :=
  ge (prtPrice t) (Binary64.lit 0.05) &&
  gt (prtSize t) (of_Q 0) &&
  gt (prtIv t) (Binary64.lit 0.02) &&
  lt (prtIv t) (of_Q 1.0) &&
  gt (uPrc t) (of_Q 0).

(** [df['okey_xx'] / df['uPrc']]. *)
Definition moneyness_of (t : Trade) : num := Binary64.div (okey_xx t) (uPrc t).

(** Second mask of [filter_trades]. *)
Definition near_the_money (t : Trade) : bool :=
  ge (moneyness_of t) (Binary64.lit 0.80) && le (moneyness_of t) (Binary64.lit 1.20).

Definition otm_flag (t : Trade) : bool :=
  (text_is "Put" (okey_cp t) && lt (okey_xx t) (uPrc t)) ||
  (text_is "Call" (okey_cp t) && gt (okey_xx t) (uPrc t)).

(** [df['bucket_time'].min().normalize()] over the rows that passed both
    masks; it raises when no such row has a timestamp. *)
Definition ref_date_of (bucket_freq : Z) (rows : list Trade) : result datetime :=
  normalize (series_min (map (fun t => dt_floor bucket_freq (timestamp t)) rows)).

(** The derived columns of one row, given the reference date. *)
Definition clean (bucket_freq : Z) (ref_date : datetime) (t : Trade) : CleanTrade :=
  {| trade := t;
     moneyness := moneyness_of t;
     is_otm := otm_flag t;
     bucket_time := dt_floor bucket_freq (timestamp t);
     days_to_exp := days_between (expiration t) ref_date |}.

(** [df['days_to_exp'] > 0]: false on NaN. *)
Definition positive_days (d : option Z) : bool :=
  match d with
  | Some n => 0 <? n
  | None => false
  end.

Definition filter_trades (df : list Trade) (bucket_freq : Z) : result (list CleanTrade) :=
  let df1 := List.filter admitted df in
  let df2 := List.filter near_the_money df1 in
  let! ref_date := ref_date_of bucket_freq df2 in
  let df3 := map (clean bucket_freq ref_date) df2 in
  Ok (List.filter (fun r => positive_days (days_to_exp r)) df3).

(** The reference date that a run of [filter_trades] on [df] uses. *)
Definition session_ref_date (df : list Trade) (bucket_freq : Z) : result datetime :=
  ref_date_of bucket_freq (List.filter near_the_money (List.filter admitted df)).

(** ** Stage 3: [aggregate_curves] *)

#[export] Instance Q_eq_dec : EqDecision Q.
Proof. solve_decision. Defined.

(** The five grouping columns of one row:
    [bucket_time], [expiration], [okey_xx], [okey_cp], [is_otm].
    [groupby] drops a row with a missing value in any key column, so a key
    holds no NaT, NaN or missing text.  The strike is kept in lowest terms,
    which makes two keys equal exactly when pandas compares them equal. *)
Abbreviation GroupKey := (Z * Z * Q * string * bool)%type.

Definition key_of (r : CleanTrade) : option GroupKey :=
  match bucket_time r, expiration (trade r), okey_xx (trade r), okey_cp (trade r) with
  | Some b, Some e, Some k, Some c => Some (b, e, Qred k, c, is_otm r)
  | _, _, _, _ => None
  end.

Definition lex (c1 c2 : comparison) : comparison :=
  match c1 with
  | Eq => c2
  | _ => c1
  end.

Definition key_compare (k1 k2 : GroupKey) : comparison :=
  let '(b1, e1, x1, c1, o1) := k1 in
  let '(b2, e2, x2, c2, o2) := k2 in
  lex (b1 ?= b2)
    (lex (e1 ?= e2)
       (lex (Qcompare x1 x2)
          (lex (String.compare c1 c2) (Bool.compare o1 o2)))).

(** Group keys come out of [groupby] in ascending order. *)
Definition key_le (k1 k2 : GroupKey) : Prop := key_compare k1 k2 <> Gt.

#[export] Instance key_le_dec (k1 k2 : GroupKey) : Decision (key_le k1 k2).
Proof. unfold key_le. apply _. Defined.

(** The distinct keys of the frame, sorted. *)
Definition group_keys (df : list CleanTrade) : list GroupKey :=
  merge_sort key_le (remove_dups (omap key_of df)).

(** The rows of one group, in frame order. *)
Definition group_rows (df : list CleanTrade) (k : GroupKey) : list CleanTrade :=
  List.filter (fun r => bool_decide (key_of r = Some k)) df.

(** [df.loc[labels, 'prtSize']]: for each label in turn, the sizes of all
    rows of the frame that carry it. *)
Definition loc_sizes (df : list CleanTrade) (labels : list Z) : list num :=
  flat_map
    (fun l => map (fun r => prtSize (trade r))
                  (List.filter (fun r => index (trade r) =? l) df))
    labels.

(** Elementwise product of two equally long arrays. *)
Fixpoint np_multiply (xs ws : list num) : list num :=
  match xs, ws with
  | x :: xs', w :: ws' => Binary64.mul x w :: np_multiply xs' ws'
  | _, _ => []
  end.

(** The groupby reduction ['sum']: NaN cells are skipped. *)
Definition group_sum (xs : list num) : num :=
  Some (fold_right Qplus 0%Q (omap id xs)).

(** The groupby reduction ['first']: the first cell that is not missing. *)
Definition group_first {A : Type} (xs : list (option A)) : option A :=
  head (omap id xs).

Module Curve.

(** One row of the frame [aggregate_curves] returns, under the column
    names the function assigns. *)
Record point : Type := mkPoint {
  bucket_time : Z;
  expiration : Z;
  strike : Q;
  cp : string;
  is_otm : bool;
  iv : num;
  volume : num;
  days_to_exp : option Z;
  underlying : num;
  moneyness : num
}.

Definition key (p : point) : GroupKey :=
  (bucket_time p, expiration p, strike p, cp p, is_otm p).

End Curve.

(** [agg['days_to_exp'] <= 60]: false on NaN. *)
Definition within_days (limit : Z) (d : option Z) : bool :=
  match d with
  | Some n => n <=? limit
  | None => false
  end.

(** Lines 75-77: the three masks applied to [agg]. *)
Definition curve_filter (min_volume : Z) (agg : list Curve.point) : list Curve.point :=
  let agg1 := List.filter (fun p => ge (Curve.volume p) (of_Z min_volume)) agg in
  let agg2 := List.filter (fun p => ge (Curve.iv p) (Binary64.lit 0.05) &&
                                    le (Curve.iv p) (Binary64.lit 0.35)) agg1 in
  List.filter (fun p => within_days 60 (Curve.days_to_exp p)) agg2.

Section AggregateCurves.

(** [ndarray.sum()] on an array of float64. *)
Variable np_sum : list num -> num.

(** [np.average(x, weights=w)]: raises when the two arrays differ in
    length and when the weights sum to zero, else gives the sum of the
    products over the sum of the weights. *)
Definition np_average (xs ws : list num) : result num :=
  if negb (length xs =? length ws)%nat then Raise TypeError
  else
    let scl := np_sum ws in
    if Num.eq scl (of_Q 0) then Raise ZeroDivisionError
    else Ok (Binary64.div (np_sum (np_multiply xs ws)) scl).

(** The [agg] row of one group.  The weights of line 65 are read from
    the whole frame by the index labels of the group. *)
Definition aggregate_group (df : list CleanTrade) (k : GroupKey) : result Curve.point :=
  let rows := group_rows df k in
  let '(b, e, x, c, o) := k in
  let! w := np_average (map (fun r => prtIv (trade r)) rows)
                       (loc_sizes df (map (fun r => index (trade r)) rows)) in
  Ok {| Curve.bucket_time := b;
        Curve.expiration := e;
        Curve.strike := x;
        Curve.cp := c;
        Curve.is_otm := o;
        Curve.iv := w;
        Curve.volume := group_sum (map (fun r => prtSize (trade r)) rows);
        Curve.days_to_exp := group_first (map days_to_exp rows);
        Curve.underlying := group_first (map (fun r => uPrc (trade r)) rows);
        Curve.moneyness := group_first (map moneyness rows) |}.

(** Lines 64-73: the frame [agg] before the three post-aggregation masks. *)
Definition groupby_agg (df : list CleanTrade) : result (list Curve.point) :=
  for_each (aggregate_group df) (group_keys df).

Definition aggregate_curves (df : list CleanTrade) (min_volume : Z) : result (list Curve.point) :=
  let! agg := groupby_agg df in
  Ok (curve_filter min_volume agg).

End AggregateCurves.

(** The default [min_volume = 2]. *)
Definition default_min_volume : Z := 2.

(** ** Stages 4 and 5: [build_animation] *)

(** [sorted(series.unique())] on a column of timestamps. *)
Definition sorted_unique (s : list Z) : list Z :=
  merge_sort Z.le (remove_dups s).

#[export] Instance Qle_dec (x y : Q) : Decision (x <= y)%Q.
Proof.
  destruct (Qle_bool x y) eqn:E.
  - left. now apply Qle_bool_iff.
  - right. intros H. apply Qle_bool_iff in H. congruence.
Defined.

(** [Series.median()]: NaN cells are skipped; the middle value of the
    sorted cells, or the mean of the two middle values; NaN on no cell. *)
Definition median (s : list num) : num :=
  let v := merge_sort Qle (omap id s) in
  let n := length v in
  match n with
  | O => nan
  | _ =>
      if Nat.odd n then v !! (n / 2)%nat
      else Num.div (Num.add (v !! (n / 2 - 1)%nat) (v !! (n / 2)%nat)) (of_Q 2)
  end.

(** [np.linspace(start, stop, num)] for [num] of two or more: with
    [delta = stop - start] and [step = delta / (num - 1)], the [i]-th
    point is [i * step + start], or [(i / (num - 1)) * delta + start] when
    the step is zero, and the last point is set to [stop]. *)
Definition linspace_point (start delta step : num) (d i : nat) : num :=
  let y := of_Z (Z.of_nat i) in
  if Num.eq step (of_Q 0)
  then Binary64.add (Binary64.mul (Binary64.div y (of_Z (Z.of_nat d))) delta) start
  else Binary64.add (Binary64.mul y step) start.

Definition linspace (start stop : num) (n : nat) : list num :=
  match n with
  | O => []
  | S O => [start]
  | S d =>
      let delta := Binary64.sub stop start in
      let step := Binary64.div delta (of_Z (Z.of_nat d)) in
      map (linspace_point start delta step d) (seq 0 d) ++ [stop]
  end.

(** A two-dimensional array, row by row. *)
Abbreviation grid := (list (list num)).

(** [np.meshgrid(x, y)]: both results have one row per element of [y]. *)
Definition meshgrid (x y : list num) : grid * grid :=
  (map (fun _ => x) y, map (fun t => map (fun _ => t) x) y).

(** The traces a frame can hold, with the arguments that vary.  The
    constant styling arguments (opacity, marker size, colour bar) are left
    out. *)
Inductive Trace : Type :=
| Surface (x y z : grid) (colorscale : string)
| Scatter3d (x y z : list num) (mode color name : string).

(** [go.Frame(data=..., name=str(bt))]; the name is kept as the bucket
    timestamp it prints. *)
Record Frame : Type := mkFrame {
  frame_name : Z;
  frame_data : list Trace
}.

(** [go.Figure(data=..., frames=...)].  The layout (sliders, buttons,
    titles) is presentation and is not modelled. *)
Record Figure : Type := mkFigure {
  fig_data : list Trace;
  fig_frames : list Frame
}.

Definition upper (c : ascii) : ascii :=
  let n := nat_of_ascii c in
  if (97 <=? n)%nat && (n <=? 122)%nat then ascii_of_nat (n - 32) else c.

Definition lower (c : ascii) : ascii :=
  let n := nat_of_ascii c in
  if (65 <=? n)%nat && (n <=? 90)%nat then ascii_of_nat (n + 32) else c.

(** [str.capitalize()] on ASCII text. *)
Definition capitalize (s : string) : string :=
  match s with
  | EmptyString => EmptyString
  | String c s' => String (upper c) (map_string lower s')
  end.

(** [colormap.get(view, 'Viridis')]. *)
Definition colormap_get (view : string) : string :=
  if String.eqb view "puts" then "Reds"
  else if String.eqb view "calls" then "Blues"
  else if String.eqb view "both" then "Viridis"
  else "Viridis".

(** [colors.get(view, 'gray')]. *)
Definition colors_get (view : string) : string :=
  if String.eqb view "puts" then "red"
  else if String.eqb view "calls" then "blue"
  else "gray".

(** [series * 100] on one cell. *)
Definition percent (x : num) : num := Binary64.mul x (of_Q 100).

Definition days_cell (d : option Z) : num :=
  match d with
  | Some n => of_Z n
  | None => nan
  end.

(** [go.Scatter3d(x=rows['strike'], y=rows['days_to_exp'],
    z=rows['iv'] * 100, mode='markers', ...)]. *)
Definition scatter_of (rows : list Curve.point) (color name : string) : Trace :=
  Scatter3d (map (fun p => of_Q (Curve.strike p)) rows)
            (map (fun p => days_cell (Curve.days_to_exp p)) rows)
            (map (fun p => percent (Curve.iv p)) rows)
            "markers" color name.

Section BuildAnimation.

(** [scipy.interpolate.griddata(points, values, xi, method='linear')]:
    the interpolated grid, or [None] when the call raises. *)
Variable griddata : list num * list num -> list num -> grid * grid -> option grid.

(** The view selection before the loop. *)
Definition select_view (curves : list Curve.point) (view : string) : list Curve.point :=
  if String.eqb view "puts" then
    List.filter (fun p => String.eqb (Curve.cp p) "Put") curves
  else if String.eqb view "calls" then
    List.filter (fun p => String.eqb (Curve.cp p) "Call") curves
  else curves.

Definition spot_of (curves : list Curve.point) : num :=
  median (map Curve.underlying curves).

Definition k_grid (spot : num) : list num :=
  linspace (Binary64.mul spot (Binary64.lit 0.90))
           (Binary64.mul spot (Binary64.lit 1.10)) 25.

Definition t_grid : list num := linspace (of_Q 1) (of_Q 45) 18.

(** The rows of one bucket. *)
Definition bucket_rows (data : list Curve.point) (bt : Z) : list Curve.point :=
  List.filter (fun p => Curve.bucket_time p =? bt) data.

(** The call [griddata((otm['strike'], otm['days_to_exp']),
    otm['iv'] * 100, (K, T), method='linear')]. *)
Definition fit_surface (KT : grid * grid) (otm : list Curve.point) : option grid :=
  griddata (map (fun p => of_Q (Curve.strike p)) otm,
            map (fun p => days_cell (Curve.days_to_exp p)) otm)
           (map (fun p => percent (Curve.iv p)) otm)
           KT.

(** The surface trace of one bucket: present when the bucket has five
    OTM rows or more and the interpolation does not raise. *)
Definition surface_traces (KT : grid * grid) (view : string)
    (bt_data : list Curve.point) : list Trace :=
  let otm := List.filter Curve.is_otm bt_data in
  if (5 <=? length otm)%nat then
    match fit_surface KT otm with
    | Some zs => [Surface (fst KT) (snd KT) zs (colormap_get view)]
    | None => []
    end
  else [].

(** The scatter traces of one bucket. *)
Definition scatter_traces (view : string) (bt_data : list Curve.point) : list Trace :=
  if String.eqb view "both" then
    flat_map
      (fun '(side, color) =>
         let subset := List.filter (fun p => String.eqb (Curve.cp p) side) bt_data in
         if (0 <? length subset)%nat then [scatter_of subset color side] else [])
      [("Put", "red"); ("Call", "blue")]
  else [scatter_of bt_data (colors_get view) (capitalize view)].

Definition atm_trace (spot : num) : Trace :=
  Scatter3d [spot; spot] [of_Q 1; of_Q 45] [of_Q 8; of_Q 15]
            "lines" "limegreen" "ATM".

(** One pass of the loop body: the frames it appends. *)
Definition frames_of_bucket (spot : num) (KT : grid * grid) (view : string)
    (data : list Curve.point) (bt : Z) : list Frame :=
  let bt_data := bucket_rows data bt in
  if (length bt_data <? 5)%nat then []
  else
    let frame_traces :=
      (surface_traces KT view bt_data
         ++ scatter_traces view bt_data
         ++ [atm_trace spot])%list in
    match frame_traces with
    | [] => []
    | _ :: _ => [{| frame_name := bt; frame_data := frame_traces |}]
    end.

(** The list [frames] when the loop ends. *)
Definition build_frames (curves : list Curve.point) (view : string) : list Frame :=
  let buckets := sorted_unique (map Curve.bucket_time curves) in
  let spot := spot_of curves in
  let KT := meshgrid (k_grid spot) t_grid in
  let data := select_view curves view in
  flat_map (frames_of_bucket spot KT view data) buckets.

(** [frames[0]] raises IndexError on an empty list. *)
Definition build_animation (curves : list Curve.point) (view : string) : result Figure :=
  let frames := build_frames curves view in
  match frames with
  | [] => Raise IndexError
  | f0 :: _ => Ok {| fig_data := frame_data f0; fig_frames := frames |}
  end.

End BuildAnimation.

(** The integers [lo], [lo + 1], ..., [lo + n - 1]. *)
Definition zrange (lo : Z) (n : nat) : list Z :=
  map (fun i => lo + Z.of_nat i) (seq 0 n).

(** ** [build_price_chart] *)

Definition q_max (a b : Q) : Q := if Qle_bool a b then b else a.
Definition q_min (a b : Q) : Q := if Qle_bool a b then a else b.

(** The groupby reductions ['max'], ['min'] and ['last']: NaN cells are
    skipped, and a group without a number gives NaN. *)
Definition group_max (xs : list num) : num :=
  match omap id xs with
  | [] => nan
  | q :: qs => Some (fold_left q_max qs q)
  end.

Definition group_min (xs : list num) : num :=
  match omap id xs with
  | [] => nan
  | q :: qs => Some (fold_left q_min qs q)
  end.

Definition group_last {A : Type} (xs : list (option A)) : option A :=
  last (omap id xs).

Module Chart.

(** One row of the frame [ohlc], under the column names the function
    assigns. *)
Record candle : Type := mkCandle {
  time : Z;
  open : num;
  high : num;
  low : num;
  close : num
}.

End Chart.

(** The bucket times of the frame, sorted; rows without a bucket time are
    left out by [groupby]. *)
Definition bucket_times (df : list CleanTrade) : list Z :=
  sorted_unique (omap bucket_time df).

(** The [uPrc] cells of one bucket, in frame order. *)
Definition bucket_prices (df : list CleanTrade) (bt : Z) : list num :=
  map (fun r => uPrc (trade r))
      (List.filter (fun r => bool_decide (bucket_time r = Some bt)) df).

(** [df.groupby(df['bucket_time']).agg({'uPrc': ['first', 'max', 'min',
    'last']}).reset_index()] with its columns renamed. *)
Definition ohlc (df : list CleanTrade) : list Chart.candle :=
  map (fun bt =>
         let prices := bucket_prices df bt in
         {| Chart.time := bt;
            Chart.open := group_first prices;
            Chart.high := group_max prices;
            Chart.low := group_min prices;
            Chart.close := group_last prices |})
      (bucket_times df).

(** [go.Candlestick(x=ohlc['time'], open=..., high=..., low=...,
    close=...)], the only trace of the price figure; layout and colours
    are presentation and are left out. *)
Inductive PriceFigure : Type :=
| Candlestick (x : list Z) (open high low close : list num).

(** The argument [freq] is not used by the function. *)
Definition build_price_chart (df : list CleanTrade) (freq : string) : PriceFigure :=
  let rows := ohlc df in
  Candlestick (map Chart.time rows) (map Chart.open rows) (map Chart.high rows)
              (map Chart.low rows) (map Chart.close rows).

(** ** [run], from the loaded frame on

    Lines 257-273: the stages after [load_trades], with the files written
    by [write_html] recorded in order.  The result is the list of files
    written and, when a stage raised, the exception that ended the run. *)
Section Run.

Variable np_sum : list num -> num.
Variable griddata : list num * list num -> list num -> grid * grid -> option grid.



End Run.


(** ** data_download.py: [download_date_range]

    The world outside the program is explicit: the files that exist, and
    the trace of what the function did.  The database connection, the
    date parser [datetime.strptime(_, '%Y-%m-%d')] (the day as its
    ordinal, counted from 0001-01-01 as day 1, or no value when it raises
    ValueError) and the date printer [strftime('%Y.%m.%d')] are
    parameters. *)
Module Download.

(** What a query gives: a frame of so many rows, or an exception. *)
Inductive outcome : Type :=
| Rows (n : nat)
| Fails (reason : string).

Inductive message : Type :=
| SkipExists (filename : string)
| Saved (filename : string) (rows : nat)
| SkipNoData (date_str : string)
| Error (date_str reason : string).

Inductive event : Type :=
| Connected
| Queried (date_str ticker : string)
| Wrote (filename : string) (rows : nat)
| Printed (m : message)
| Closed.

Record world : Type := mkWorld {
  files : gset string;
  trace : list event
}.

Definition emit (e : event) (w : world) : world :=
  {| files := files w; trace := (trace w ++ [e])%list |}.

(** [df.to_csv(filename, index=False)]. *)
Definition to_csv (filename : string) (rows : nat) (w : world) : world :=
  {| files := {[filename]} ∪ files w;
     trace := (trace w ++ [Wrote filename rows])%list |}.

Inductive failure : Type :=
| ConnectionError
| BadDate (text : string)
| OverflowError.

(** The file names written, the messages printed and the queries sent,
    as they occur in a trace. *)
Definition written (tr : list event) : list string :=
  omap (fun e => match e with Wrote f _ => Some f | _ => None end) tr.

Definition printed (tr : list event) : list message :=
  omap (fun e => match e with Printed m => Some m | _ => None end) tr.

Definition queried (tr : list event) : list (string * string) :=
  omap (fun e => match e with Queried d t => Some (d, t) | _ => None end) tr.

(** The ordinal of 9999-12-31, the last day a [datetime] holds. *)
Definition max_day : Z := 3652059.

Section Session.

(** [connect_spiderrock()]: the query function of the connection, or no
    value when connecting raises. *)
Variable connect : option (string -> string -> outcome).
Variable strptime : string -> option Z.
Variable strftime : Z -> string.

Definition filename_of (date_str ticker : string) : string :=
  "Opratrade_" ++ date_str ++ "_" ++ ticker ++ ".csv".

(** The body of the [while] loop for the day [current], up to the
    increment of [current]. *)
Definition visit (fetch : string -> string -> outcome) (ticker : string)
    (w : world) (current : Z) : world :=
  let date_str := strftime current in
  let filename := filename_of date_str ticker in
  if bool_decide (filename ∈ files w) then
    emit (Printed (SkipExists filename)) w
  else
    match fetch date_str ticker with
    | Rows n =>
        let w := emit (Queried date_str ticker) w in
        if (0 <? n)%nat then
          emit (Printed (Saved filename n)) (to_csv filename n w)
        else emit (Printed (SkipNoData date_str)) w
    | Fails reason =>
        emit (Printed (Error date_str reason)) (emit (Queried date_str ticker) w)
    end.

(** The days from [first] to [last], the values of [current] for which
    the loop condition [current <= end] holds. *)
Definition days (first last : Z) : list Z :=
  zrange first (Z.to_nat (last - first + 1)).

(** The loop over those days and [conn.close()] after it.  After each
    pass [current += timedelta(days=1)] raises OverflowError when
    [current] is the last day a [datetime] holds; the increment is
    outside the [try], so the function ends there. *)
Fixpoint visits (fetch : string -> string -> outcome) (ticker : string)
    (ds : list Z) (w : world) : world * option failure :=
  match ds with
  | [] => (emit Closed w, None)
  | current :: ds' =>
      let w := visit fetch ticker w current in
      if max_day <=? current then (w, Some OverflowError)
      else visits fetch ticker ds' w
  end.

Definition download_date_range (start_date end_date ticker : string) (w : world) :
    world * option failure :=
  match connect with
  | None => (w, Some ConnectionError)
  | Some fetch =>
      let w := emit Connected w in
      match strptime start_date with
      | None => (w, Some (BadDate start_date))
      | Some first =>
          match strptime end_date with
          | None => (w, Some (BadDate end_date))
          | Some last => visits fetch ticker (days first last) w
          end
      end
  end.

End Session.

(** What a stretch of the loop adds to the world: the events [evs], the
    files they write, all absent before and none written twice, queries
    only for absent files, and no connection opened or closed. *)
Record step (ticker : string) (w w' : world) (evs : list event) : Prop := mkStep {
  step_trace : trace w' = (trace w ++ evs)%list;
  step_files : files w' = files w ∪ list_to_set (written evs);
  step_fresh : forall f, In f (written evs) -> f ∉ files w;
  step_nodup : NoDup (written evs);
  step_queries : forall d t, In (d, t) (queried evs) ->
                   t = ticker /\ filename_of d t ∉ files w;
  step_open : ~ In Closed evs /\ ~ In Connected evs
}.

End Download.

(** ** Predicates used in the statements *)

(** Order and equality of two cells as propositions: both hold numbers and
    the numbers compare. *)
Definition cell_lt (a b : num) : Prop :=
  exists x y, a = Some x /\ b = Some y /\ (x < y)%Q.

Definition cell_le (a b : num) : Prop :=
  exists x y, a = Some x /\ b = Some y /\ (x <= y)%Q.

Definition cell_eq (a b : num) : Prop :=
  exists x y, a = Some x /\ b = Some y /\ (x == y)%Q.

(** The quality conditions on a row of the filtered frame, each
    comparison as the program makes it: on binary64 values, a decimal
    literal standing for its binary64 value, with the moneyness cell the
    binary64 quotient of strike and underlying price. *)
Definition Quality (r : CleanTrade) : Prop :=
  let t := trade r in
  cell_le (Binary64.lit 0.05) (prtPrice t) /\
  cell_lt (of_Q 0) (prtSize t) /\
  cell_lt (Binary64.lit 0.02) (prtIv t) /\
  cell_lt (prtIv t) (of_Q 1.0) /\
  cell_lt (of_Q 0) (uPrc t) /\
  moneyness r = Binary64.div (okey_xx t) (uPrc t) /\
  cell_le (Binary64.lit 0.80) (moneyness r) /\
  cell_le (moneyness r) (Binary64.lit 1.20) /\
  (exists n, days_to_exp r = Some n /\ 0 < n).

(** The IV and size cells of the rows of a group. *)
Definition ivs_of (rows : list CleanTrade) : list num :=
  map (fun r => prtIv (trade r)) rows.

Definition sizes_of (rows : list CleanTrade) : list num :=
  map (fun r => prtSize (trade r)) rows.

(** A point passes the three masks of lines 75-77. *)
Definition passes (min_volume : Z) (p : Curve.point) : Prop :=
  cell_le (of_Z min_volume) (Curve.volume p) /\
  cell_le (Binary64.lit 0.05) (Curve.iv p) /\
  cell_le (Curve.iv p) (Binary64.lit 0.35) /\
  (exists n, Curve.days_to_exp p = Some n /\ n <= 60).

(** The rows of the frame that carry the index label of [r]. *)
Definition label_rows (df : list CleanTrade) (r : CleanTrade) : list CleanTrade :=
  List.filter (fun r' => index (trade r') =? index (trade r)) df.

(** The index label of the row occurs on one row of the frame only. *)
Definition unique_label (df : list CleanTrade) (r : CleanTrade) : Prop :=
  length (label_rows df r) = 1%nat.

(** [pts] are the [n] points of [np.linspace(start, stop, n)] for a step
    that is not zero: the first [n - 1] at [i * step + start], rounded as
    binary64 rounds, and the last one [stop]. *)
Definition evenly_spaced (start stop : num) (n : nat) (pts : list num) : Prop :=
  let step := Binary64.div (Binary64.sub stop start) (of_Z (Z.of_nat n - 1)) in
  length pts = n /\
  (forall i, (i < n - 1)%nat ->
     nth i pts nan = Binary64.add (Binary64.mul (of_Z (Z.of_nat i)) step) start) /\
  nth (n - 1) pts nan = stop.

(** The distance of each tenor of [pts] from the exact [1 + i * 44 / 17]
    is at most [eps]. *)
Definition near_tenors (eps : Q) (pts : list num) : bool :=
  forallb
    (fun i => match nth i pts nan with
              | Some t =>
                  let exact := (1 + inject_Z (Z.of_nat i) * (44 # 17))%Q in
                  Qle_bool (t - exact) eps && Qle_bool (exact - t) eps
              | None => false
              end)
    (seq 0 18).

(** A point of the curve is plotted by a marker trace: at one position
    the trace has the strike of the point as x, its days to expiration
    as y and its IV times one hundred as z. *)
Definition plotted (p : Curve.point) (traces : list Trace) : Prop :=
  exists xs ys zs color name i,
    In (Scatter3d xs ys zs "markers" color name) traces /\
    xs !! i = Some (of_Q (Curve.strike p)) /\
    ys !! i = Some (days_cell (Curve.days_to_exp p)) /\
    zs !! i = Some (Binary64.mul (Curve.iv p) (of_Q 100)).

(** The trace is the marker trace of the rows [rows], in order. *)
Definition markers_of (rows : list Curve.point) (tr : Trace) : Prop :=
  exists color name,
    tr = Scatter3d (map (fun p => of_Q (Curve.strike p)) rows)
                   (map (fun p => days_cell (Curve.days_to_exp p)) rows)
                   (map (fun p => Binary64.mul (Curve.iv p) (of_Q 100)) rows)
                   "markers" color name.

(** ** A sample session

    Three trades of 2023-12-01 in the 09:30 bucket, on the 445 Put expiring
    2023-12-15, with the underlying at 446: sizes 10 and 30 at IVs 0.20 and
    0.30, and a third print at price 0.01, below the price floor. *)
Module Sample.

Definition day : Z := 19692 * ns_per_day.
Definition expiry : Z := 19706 * ns_per_day.

Definition trade_at (minute : Z) (price size iv_ : Q) : Trade :=
  {| index := minute;
     timestamp := Some (day + 9 * ns_per_hour + minute * ns_per_minute);
     expiration := Some expiry;
     okey_xx := Some 445%Q;
     okey_cp := Some "Put";
     prtPrice := Binary64.lit price;
     prtSize := Some size;
     prtIv := Binary64.lit iv_;
     uPrc := Some 446%Q |}.

Definition t1 : Trade := trade_at 31 1.5 10 0.20.
Definition t2 : Trade := trade_at 32 1.5 30 0.30.
Definition t3 : Trade := trade_at 33 0.01 5 0.25.

Definition trades : list Trade := [t1; t2; t3].

Definition bucket : Z := day + 9 * ns_per_hour + 30 * ns_per_minute.

Definition row (t : Trade) : CleanTrade :=
  {| trade := t;
     moneyness := Binary64.div (Some 445%Q) (Some 446%Q);
     is_otm := true;
     bucket_time := Some bucket;
     days_to_exp := Some 14 |}.

Definition cleaned : list CleanTrade := [row t1; row t2].

Definition key : GroupKey := (bucket, expiry, 445%Q, "Put", true).

(** The end-to-end scenario of the specification: three trades in the
    09:30 bucket, strikes 440, 445, 450, sizes 5, 3, 10, IVs 0.18, 0.20,
    0.22, underlying at 445. *)
Definition quote (label : Z) (strike_ : Q) (side : string) (size iv_ : Q) : Trade :=
  {| index := label;
     timestamp := Some bucket;
     expiration := Some expiry;
     okey_xx := Some strike_;
     okey_cp := Some side;
     prtPrice := Some 1.5%Q;
     prtSize := Some size;
     prtIv := Binary64.lit iv_;
     uPrc := Some 445%Q |}.

Definition scenario : list Trade :=
  [quote 0 440 "Put" 5 0.18; quote 1 445 "Call" 3 0.20; quote 2 450 "Call" 10 0.22].

(** A curve with six points in the 09:30 bucket, five of them OTM puts,
    and two points in the 09:35 bucket. *)
Definition point_at (bt : Z) (strike_ : Q) (side : string) (otm : bool) (iv_ : Q) :
    Curve.point :=
  {| Curve.bucket_time := bt;
     Curve.expiration := expiry;
     Curve.strike := strike_;
     Curve.cp := side;
     Curve.is_otm := otm;
     Curve.iv := Binary64.lit iv_;
     Curve.volume := Some 10%Q;
     Curve.days_to_exp := Some 14;
     Curve.underlying := Some 446%Q;
     Curve.moneyness := Binary64.div (Some strike_) (Some 446%Q) |}.

Definition curve : list Curve.point :=
  [point_at bucket 436 "Put" true 0.22;
   point_at bucket 438 "Put" true 0.21;
   point_at bucket 440 "Put" true 0.20;
   point_at bucket 442 "Put" true 0.19;
   point_at bucket 444 "Put" true 0.18;
   point_at bucket 446 "Call" false 0.17;
   point_at (bucket + five_min) 440 "Put" true 0.20;
   point_at (bucket + five_min) 450 "Call" true 0.16].

(** Five points of one bucket whose option type is written P, and none
    of them OTM. *)
Definition unnamed_side : list Curve.point :=
  map (fun k => point_at bucket (inject_Z k) "P" false 0.20) [436; 438; 440; 442; 444].

(** Two stand-ins for the interpolation: one that always raises, one that
    answers the strike grid itself. *)
Definition raising : list num * list num -> list num -> grid * grid -> option grid :=
  fun _ _ _ => None.

Definition flat : list num * list num -> list num -> grid * grid -> option grid :=
  fun _ _ KT => Some (fst KT).

(** A summation without rounding, as binary64 gives on whole numbers
    below 2^53. *)
Definition exact_sum (xs : list num) : num := fold_right Num.add (of_Q 0) xs.

(** A frame as read from a one-row file, with the given month and day of
    expiration. *)
Definition frame (month day_ : Z) : DataFrame :=
  <["prtTimestamp" := ObjectCol [Some "2023-12-01D09:31:00.000000"]]>
  (<["ticker_tk" := ObjectCol [Some "SPY"]]>
  (<["okey_yr" := Int64Col [2023]]>
  (<["okey_mn" := Int64Col [month]]>
  (<["okey_dy" := Int64Col [day_]]>
  (<["okey_xx" := Int64Col [445]]>
  (<["okey_cp" := ObjectCol [Some "Put"]]>
  (<["prtPrice" := Float64Col [Some 1.5%Q]]>
  (<["prtSize" := Int64Col [10]]>
  (<["prtIv" := Float64Col [Binary64.lit 0.20]]>
  (<["uPrc" := Float64Col [Some 446%Q]]> ∅)))))))))).

(** The same frame with another ticker in its only row. *)
Definition other_ticker : DataFrame :=
  <["ticker_tk" := ObjectCol [Some "QQQ"]]> (frame 12 15).

(** A date parser for columns of other shapes that always raises. *)
Definition no_other : list string -> result (string -> datetime) :=
  fun _ => Raise (ValueError "").

End Sample.

(** ** Predicates on frames *)


(** The name of the column [load_trades] reads the timestamps from. *)
Definition ts_col (df : DataFrame) : string :=
  if bool_decide (is_Some (df !! "timestamp")) then "timestamp" else "prtTimestamp".

(** All columns of the frame have [n] rows. *)
Definition uniform (n : nat) (df : DataFrame) : Prop :=
  forall name col, df !! name = Some col -> column_length col = n.

(** The number of rows [load_trades] keeps of a frame of [n] rows. *)
Definition kept_rows (n : nat) (df : DataFrame) : nat :=
  match df !! "ticker_tk" with
  | Some tk => length (List.filter (fun b : bool => b) (eq_text tk "SPY"))
  | None => n
  end.

(** The text [load_trades] builds from one row of integer date columns. *)
Definition date_text (y m d : Z) : string :=
  str_of_int y ++ "-" ++ zfill 2 (str_of_int m) ++ "-" ++ zfill 2 (str_of_int d).


(** ** Checks over finite ranges, used by computation *)

(** [str(y)] is four digits that read back as [y]. *)
Definition four_digits_ok (y : Z) : bool :=
  match str_of_int y with
  | String a (String b (String c (String d EmptyString))) =>
      match Calendar.two_digits a b, Calendar.two_digits c d with
      | Some h, Some l => 100 * h + l =? y
      | _, _ => false
      end
  | _ => false
  end.

(** [str(v).zfill(2)] is two digits that read back as [v]. *)
Definition two_digits_ok (v : Z) : bool :=
  match zfill 2 (str_of_int v) with
  | String a (String b EmptyString) =>
      match Calendar.two_digits a b with
      | Some x => x =? v
      | None => false
      end
  | _ => false
  end.

(** A valid date of year [y] is within 106751 days of the epoch, the
    whole days that datetime64[ns] reaches on either side. *)
Definition year_in_bounds (y : Z) : bool :=
  forallb (fun m =>
    forallb (fun d =>
      implb (Calendar.valid_date y m d)
            (Z.abs (Calendar.days_from_civil y m d) <=? 106751))
      (zrange 1 31))
    (zrange 1 12).

(** * Properties *)

Lemma Qltb_lt (a b : Q) : Qltb a b = true <-> (a < b)%Q.
Proof.
  unfold Qltb. rewrite negb_true_iff. split.
  - intros H. apply Qnot_le_lt. intros Hle.
    apply Qle_bool_iff in Hle. congruence.
  - intros H. destruct (Qle_bool b a) eqn:E; [|reflexivity].
    apply Qle_bool_iff in E. exfalso. revert E. apply Qlt_not_le, H.
Qed.

Lemma le_holds (a b : num) :
  le a b = true <->
  exists x y, a = Some x /\ b = Some y /\ (x <= y)%Q.
Proof.
  destruct a as [x|], b as [y|]; simpl; split;
    try discriminate;
    try (intros (x' & y' & Ha & Hb & _); discriminate).
  - intros H. exists x, y. repeat split. now apply Qle_bool_iff.
  - intros (x' & y' & Ha & Hb & H). injection Ha as <-. injection Hb as <-.
    now apply Qle_bool_iff.
Qed.

Lemma lt_holds (a b : num) :
  lt a b = true <->
  exists x y, a = Some x /\ b = Some y /\ (x < y)%Q.
Proof.
  destruct a as [x|], b as [y|]; simpl; split;
    try discriminate;
    try (intros (x' & y' & Ha & Hb & _); discriminate).
  - intros H. exists x, y. repeat split. now apply Qltb_lt.
  - intros (x' & y' & Ha & Hb & H). injection Ha as <-. injection Hb as <-.
    now apply Qltb_lt.
Qed.

Lemma cell_le_iff (a b : num) : le a b = true <-> cell_le a b.
Proof. apply le_holds. Qed.

Lemma cell_lt_iff (a b : num) : lt a b = true <-> cell_lt a b.
Proof. apply lt_holds. Qed.

Lemma eq_holds (a b : num) : Num.eq a b = true <-> cell_eq a b.
Proof.
  destruct a as [x|], b as [y|]; simpl; split;
    try discriminate;
    try (intros (x' & y' & Ha & Hb & _); discriminate).
  - intros H. exists x, y. repeat split. now apply Qeq_bool_iff.
  - intros (x' & y' & Ha & Hb & H). injection Ha as <-. injection Hb as <-.
    now apply Qeq_bool_iff.
Qed.

Lemma cell_le_trans (a b c : num) : cell_le a b -> cell_le b c -> cell_le a c.
Proof.
  intros (x & y & -> & -> & H1) (y' & z & [= <-] & -> & H2).
  exists x, z. repeat split. now apply Qle_trans with y.
Qed.

(** ** Binary64 values *)

(** The four operations of [Binary64] give what the machine's binary64
    operations give, on two hundred pairs of floats. *)
Lemma binary64_agrees_with_machine :
  forallb Binary64.agrees (map Z.of_nat (seq 1 200)) = true.
Proof. vm_compute. reflexivity. Qed.

(** At the edge of the band: the quotient of the doubles of 120.084 and
    100.07, decimals whose quotient is 1.2, is the next double above 1.2
    and is outside the band; a quotient above 1.2 that rounds to the
    double 1.2 is inside; and the average of the one value 0.20 with
    weight 3 is not 0.20. *)
Lemma binary64_band_edges :
  Binary64.same (Binary64.div (Binary64.lit 120.084) (Binary64.lit 100.07))
                (Binary64.value 1.2000000000000002%float) = true /\
  le (Binary64.div (Binary64.lit 120.084) (Binary64.lit 100.07))
     (Binary64.lit 1.20) = false /\
  le (Binary64.div (Binary64.lit 307.2000000000002) (Binary64.lit 256.00000000000017))
     (Binary64.lit 1.20) = true /\
  Binary64.same
    (Binary64.div (Binary64.mul (Binary64.lit 0.20) (of_Q 3)) (of_Q 3))
    (Binary64.value 0.20000000000000004%float) = true.
Proof. vm_compute. repeat split. Qed.

(** The binary64 values of the literals 0.05 and 0.35 lie inside the
    band of the decimal numbers. *)
Lemma lit_0_05 : cell_le (of_Q 0.05) (Binary64.lit 0.05).
Proof. eexists _, _. split; [reflexivity|]. split; [vm_compute; reflexivity|]. vm_compute. discriminate. Qed.

Lemma lit_0_35 : cell_le (Binary64.lit 0.35) (of_Q 0.35).
Proof. eexists _, _. split; [vm_compute; reflexivity|]. split; [reflexivity|]. vm_compute. discriminate. Qed.

(** ** [filter_trades] *)

Lemma admitted_iff (t : Trade) :
  admitted t = true <->
  cell_le (Binary64.lit 0.05) (prtPrice t) /\
  cell_lt (of_Q 0) (prtSize t) /\
  cell_lt (Binary64.lit 0.02) (prtIv t) /\
  cell_lt (prtIv t) (of_Q 1.0) /\
  cell_lt (of_Q 0) (uPrc t).
Proof.
  unfold admitted, ge, gt.
  rewrite !andb_true_iff, !cell_le_iff, !cell_lt_iff. tauto.
Qed.

Lemma near_the_money_iff (t : Trade) :
  near_the_money t = true <->
  cell_le (Binary64.lit 0.80) (moneyness_of t) /\
  cell_le (moneyness_of t) (Binary64.lit 1.20).
Proof.
  unfold near_the_money, ge. now rewrite andb_true_iff, !cell_le_iff.
Qed.

Lemma positive_days_iff (d : option Z) :
  positive_days d = true <-> exists n, d = Some n /\ 0 < n.
Proof.
  destruct d as [n|]; simpl.
  - rewrite Z.ltb_lt. split; [eauto|]. now intros (m & [= <-] & H).
  - split; [discriminate|]. now intros (m & H & _).
Qed.

Lemma quality_iff (bucket_freq : Z) (ref : datetime) (t : Trade) :
  Quality (clean bucket_freq ref t) <->
  admitted t = true /\ near_the_money t = true /\
  positive_days (days_between (expiration t) ref) = true.
Proof.
  unfold Quality. cbn [trade moneyness days_to_exp clean].
  rewrite admitted_iff, near_the_money_iff, positive_days_iff.
  unfold moneyness_of. tauto.
Qed.

(** What [filter_trades] returns, when it returns. *)
Lemma filter_trades_ok (df : list Trade) (bucket_freq : Z) (out : list CleanTrade) :
  filter_trades df bucket_freq = Ok out <->
  exists ref,
    session_ref_date df bucket_freq = Ok ref /\
    out = List.filter (fun r => positive_days (days_to_exp r))
            (map (clean bucket_freq ref)
                 (List.filter near_the_money (List.filter admitted df))).
Proof.
  unfold filter_trades, session_ref_date, bind.
  destruct (ref_date_of _ _) as [ref|e]; split.
  - intros [= <-]. eauto.
  - intros (ref' & [= <-] & ->). reflexivity.
  - discriminate.
  - intros (ref' & H & _). discriminate.
Qed.

Lemma filter_trades_In (df : list Trade) (bucket_freq : Z) (out : list CleanTrade)
    (r : CleanTrade) :
  filter_trades df bucket_freq = Ok out ->
  In r out <->
  exists ref t,
    session_ref_date df bucket_freq = Ok ref /\
    In t df /\ r = clean bucket_freq ref t /\
    admitted t = true /\ near_the_money t = true /\
    positive_days (days_to_exp r) = true.
Proof.
  intros H. apply filter_trades_ok in H. destruct H as (ref & Href & ->).
  rewrite filter_In, in_map_iff. split.
  - intros [(t & <- & Ht) Hd]. rewrite !filter_In in Ht.
    exists ref, t. tauto.
  - intros (ref' & t & Href' & Hin & -> & Ha & Hn & Hd).
    rewrite Href in Href'. injection Href' as <-.
    split; [|exact Hd]. exists t. rewrite !filter_In. auto.
Qed.

(** C1.  For a bucket width that is not negative, a row is in the frame
    [filter_trades] returns exactly when it is the cleaned form of an
    input trade and meets every quality condition: price at least 0.05,
    positive size, IV strictly between 0.02 and 1.0, positive underlying
    price, moneyness (strike over underlying) within [0.80, 1.20], and a
    positive number of days to expiration, each compared as the program
    compares it, in binary64.  So every surviving trade satisfies all the
    conditions, and a trade failing any of them is absent. *)
Theorem filter_trades_quality
    (df : list Trade) (bucket_freq : Z) (out : list CleanTrade) (r : CleanTrade) :
  0 <= bucket_freq ->
  filter_trades df bucket_freq = Ok out ->
  (In r out <->
   (exists t ref,
      In t df /\ session_ref_date df bucket_freq = Ok ref /\
      r = clean bucket_freq ref t) /\
   Quality r).
Proof.
  intros _ Hout. rewrite (filter_trades_In df bucket_freq out r Hout). split.
  - intros (ref & t & Href & Hin & -> & Ha & Hn & Hd).
    split; [now exists t, ref|]. apply quality_iff. auto.
  - intros [(t & ref & Hin & Href & ->) Hq]. apply quality_iff in Hq.
    exists ref, t. tauto.
Qed.

Lemma filter_trades_quality_witness :
  filter_trades Sample.trades five_min = Ok Sample.cleaned /\
  Quality (Sample.row Sample.t1) /\
  ~ In (clean five_min (Some Sample.day) Sample.t3) Sample.cleaned.
Proof.
  assert (H : filter_trades Sample.trades five_min = Ok Sample.cleaned)
    by (vm_compute; reflexivity).
  split; [exact H|]. split.
  - apply (proj1 (filter_trades_quality Sample.trades five_min _
                    (Sample.row Sample.t1) ltac:(discriminate) H)).
    left. reflexivity.
  - intros Hin.
    apply (proj1 (filter_trades_quality Sample.trades five_min _ _
                    ltac:(discriminate) H)) in Hin.
    destruct Hin as [_ (Hp & _)]. destruct Hp as (x & y & Hx & Hy & Hle).
    vm_compute in Hx, Hy. injection Hx as <-. injection Hy as <-.
    revert Hle. vm_compute. tauto.
Defined.

(** C5.  On every row of the filtered frame the OTM flag is strict: a Put
    is flagged exactly when its strike is below the underlying price, a
    Call exactly when its strike is above it, and a row whose strike
    equals the underlying price is not flagged, whatever its type. *)
Theorem filter_trades_otm_strict
    (df : list Trade) (bucket_freq : Z) (out : list CleanTrade) (r : CleanTrade) :
  filter_trades df bucket_freq = Ok out ->
  In r out ->
  let t := trade r in
  (okey_cp t = Some "Put" ->
   (is_otm r = true <-> cell_lt (okey_xx t) (uPrc t))) /\
  (okey_cp t = Some "Call" ->
   (is_otm r = true <-> cell_lt (uPrc t) (okey_xx t))) /\
  (cell_eq (okey_xx t) (uPrc t) -> is_otm r = false) /\
  (is_otm r = true ->
   okey_cp t = Some "Put" \/ okey_cp t = Some "Call").
Proof.
  intros Hout Hin. apply (filter_trades_In _ _ _ _ Hout) in Hin.
  destruct Hin as (ref & t & _ & _ & -> & _). cbn [trade is_otm clean].
  unfold otm_flag, gt. split; [|split; [|split]].
  - intros Hcp. rewrite Hcp. cbn. rewrite orb_false_r. apply cell_lt_iff.
  - intros Hcp. rewrite Hcp. cbn. apply cell_lt_iff.
  - intros (k & u & Hk & Hu & Heq). rewrite Hk, Hu. cbn. unfold Qltb.
    assert (Huk : Qle_bool u k = true)
      by (apply Qle_bool_iff; rewrite Heq; apply Qle_refl).
    assert (Hku : Qle_bool k u = true)
      by (apply Qle_bool_iff; rewrite Heq; apply Qle_refl).
    rewrite Huk, Hku. cbn. now rewrite !andb_false_r.
  - intros H. apply orb_true_iff in H.
    destruct (okey_cp t) as [c|]; cbn in H; [|now destruct H].
    destruct H as [H|H]; apply andb_true_iff in H; destruct H as [H _];
      apply String.eqb_eq in H; subst; auto.
Qed.

Lemma filter_trades_otm_strict_witness :
  filter_trades Sample.trades five_min = Ok Sample.cleaned /\
  (is_otm (Sample.row Sample.t1) = true <->
   cell_lt (okey_xx Sample.t1) (uPrc Sample.t1)).
Proof.
  assert (H : filter_trades Sample.trades five_min = Ok Sample.cleaned)
    by (vm_compute; reflexivity).
  split; [exact H|].
  apply (filter_trades_otm_strict Sample.trades five_min _ (Sample.row Sample.t1) H).
  - left. reflexivity.
  - reflexivity.
Defined.

(** ** [aggregate_curves] *)

Lemma for_each_Forall2 {A B : Type} (f : A -> result B) (l : list A) (bs : list B) :
  for_each f l = Ok bs -> Forall2 (fun a b => f a = Ok b) l bs.
Proof.
  revert bs. induction l as [|a l IH]; intros bs; cbn.
  - intros [= <-]. constructor.
  - destruct (f a) as [b|e] eqn:Ea; cbn; [|discriminate].
    destruct (for_each f l) as [bs'|e]; cbn; [|discriminate].
    intros [= <-]. constructor; auto.
Qed.

Lemma for_each_total {A B : Type} (f : A -> result B) (l : list A) :
  (forall a, In a l -> exists b, f a = Ok b) ->
  exists bs, for_each f l = Ok bs.
Proof.
  induction l as [|a l IH]; intros H; cbn.
  - now exists [].
  - destruct (H a) as [b Hb]; [now left|].
    destruct IH as [bs Hbs]; [intros a' Ha'; apply H; now right|].
    exists (b :: bs). now rewrite Hb, Hbs.
Qed.

Lemma Forall2_In_r {A B : Type} (R : A -> B -> Prop) (l : list A) (bs : list B) (b : B) :
  Forall2 R l bs -> In b bs -> exists a, In a l /\ R a b.
Proof.
  induction 1 as [|a b' l bs Hab _ IH]; cbn; [tauto|].
  intros [<-|Hin].
  - exists a. auto.
  - destruct (IH Hin) as (a' & Ha' & HR). exists a'. auto.
Qed.

Lemma Forall2_In_l {A B : Type} (R : A -> B -> Prop) (l : list A) (bs : list B) (a : A) :
  Forall2 R l bs -> In a l -> exists b, In b bs /\ R a b.
Proof.
  induction 1 as [|a' b l bs Hab _ IH]; cbn; [tauto|].
  intros [<-|Hin].
  - exists b. auto.
  - destruct (IH Hin) as (b' & Hb' & HR). exists b'. auto.
Qed.

Lemma group_keys_In (df : list CleanTrade) (k : GroupKey) :
  In k (group_keys df) <-> exists r, In r df /\ key_of r = Some k.
Proof.
  unfold group_keys. rewrite <- list_elem_of_In.
  rewrite merge_sort_Permutation, elem_of_remove_dups, list_elem_of_omap.
  split; intros (r & Hr & Hk); exists r; split; auto; now apply list_elem_of_In.
Qed.


Lemma group_rows_In (df : list CleanTrade) (k : GroupKey) (r : CleanTrade) :
  In r (group_rows df k) <-> In r df /\ key_of r = Some k.
Proof.
  unfold group_rows. rewrite filter_In, bool_decide_eq_true. tauto.
Qed.

Lemma group_rows_nonempty (df : list CleanTrade) (k : GroupKey) :
  group_rows df k <> [] <-> In k (group_keys df).
Proof.
  rewrite group_keys_In. split.
  - destruct (group_rows df k) as [|r rows] eqn:E; [congruence|].
    intros _. exists r. apply group_rows_In. rewrite E. now left.
  - intros (r & Hr & Hk) E.
    assert (Hin : In r (group_rows df k)) by now apply group_rows_In.
    rewrite E in Hin. destruct Hin.
Qed.

(** *** The weights read by index label *)

Lemma label_rows_In (df : list CleanTrade) (r : CleanTrade) :
  In r df -> In r (label_rows df r).
Proof. intros H. apply filter_In. split; [exact H|apply Z.eqb_refl]. Qed.

Lemma unique_label_dec (df : list CleanTrade) (r : CleanTrade) :
  {unique_label df r} + {~ unique_label df r}.
Proof. unfold unique_label. apply Nat.eq_dec. Qed.

Lemma unique_labels_or (df rows : list CleanTrade) :
  (forall r, In r rows -> unique_label df r) \/
  (exists r, In r rows /\ ~ unique_label df r).
Proof.
  induction rows as [|r rows IH]; [left; intros r []|].
  destruct (unique_label_dec df r) as [Hr|Hr].
  - destruct IH as [IH|(r' & Hr' & Hn)].
    + left. intros r' [<-|Hr']; auto.
    + right. exists r'. split; [now right|exact Hn].
  - right. exists r. split; [now left|exact Hr].
Qed.

Lemma unique_label_rows (df : list CleanTrade) (r : CleanTrade) :
  In r df -> unique_label df r -> label_rows df r = [r].
Proof.
  intros Hin Hu. apply label_rows_In in Hin. unfold unique_label in Hu.
  destruct (label_rows df r) as [|a [|b l]]; try discriminate Hu.
  destruct Hin as [->|[]]. reflexivity.
Qed.

Lemma loc_sizes_unique (df rows : list CleanTrade) :
  (forall r, In r rows -> In r df /\ unique_label df r) ->
  loc_sizes df (map (fun r => index (trade r)) rows) = sizes_of rows.
Proof.
  unfold loc_sizes, sizes_of.
  induction rows as [|r rows IH]; intros H; [reflexivity|].
  cbn [map flat_map].
  destruct (H r (or_introl eq_refl)) as [Hin Hu].
  change (List.filter (fun r0 => index (trade r0) =? index (trade r)) df)
    with (label_rows df r).
  rewrite (unique_label_rows df r Hin Hu). cbn [map app].
  f_equal. apply IH. intros r' Hr'. apply H. now right.
Qed.

Lemma loc_sizes_length (df rows : list CleanTrade) :
  (forall r, In r rows -> In r df) ->
  (length rows <= length (loc_sizes df (map (fun r => index (trade r)) rows)))%nat /\
  (length (loc_sizes df (map (fun r => index (trade r)) rows)) = length rows ->
   forall r, In r rows -> unique_label df r).
Proof.
  unfold loc_sizes.
  induction rows as [|r rows IH]; intros H; cbn [map flat_map length].
  - split; [lia|]. intros _ r [].
  - destruct IH as [IH1 IH2]; [intros r' Hr'; apply H; now right|].
    pose proof (label_rows_In df r (H r (or_introl eq_refl))) as Hr.
    change (List.filter (fun r0 => index (trade r0) =? index (trade r)) df)
      with (label_rows df r).
    rewrite length_app, length_map.
    assert (Hpos : (1 <= length (label_rows df r))%nat).
    { destruct (label_rows df r); [destruct Hr|cbn; lia]. }
    split; [lia|].
    intros Hlen r' [<-|Hr'].
    + unfold unique_label. lia.
    + apply IH2; [lia|exact Hr'].
Qed.

Section AggregateFacts.

Variable np_sum : list num -> num.

Lemma np_average_ok (xs ws : list num) (v : num) :
  np_average np_sum xs ws = Ok v <->
  length xs = length ws /\ ~ cell_eq (np_sum ws) (of_Q 0) /\
  v = Binary64.div (np_sum (np_multiply xs ws)) (np_sum ws).
Proof.
  unfold np_average. rewrite <- eq_holds.
  destruct (length xs =? length ws)%nat eqn:El; cbn [negb].
  - apply Nat.eqb_eq in El.
    destruct (Num.eq (np_sum ws) (of_Q 0)); split.
    + discriminate.
    + intros (_ & H & _). now destruct H.
    + intros [= <-]. repeat split; [exact El|discriminate].
    + now intros (_ & _ & ->).
  - apply Nat.eqb_neq in El. split; [discriminate|]. intros (H & _). contradiction.
Qed.

Lemma np_average_raises (xs ws : list num) (e : exn) :
  np_average np_sum xs ws = Raise e <->
  (e = TypeError /\ length xs <> length ws) \/
  (e = ZeroDivisionError /\ length xs = length ws /\ cell_eq (np_sum ws) (of_Q 0)).
Proof.
  unfold np_average. rewrite <- eq_holds.
  destruct (length xs =? length ws)%nat eqn:El; cbn [negb].
  - apply Nat.eqb_eq in El.
    destruct (Num.eq (np_sum ws) (of_Q 0)); split.
    + intros [= <-]. right. auto.
    + intros [[_ H]|[-> _]]; [contradiction|reflexivity].
    + discriminate.
    + intros [[_ H]|(_ & _ & H)]; [contradiction|discriminate].
  - apply Nat.eqb_neq in El. split.
    + intros [= <-]. left. auto.
    + intros [[-> _]|(_ & H & _)]; [reflexivity|contradiction].
Qed.

Lemma aggregate_group_ok (df : list CleanTrade) (k : GroupKey) (p : Curve.point) :
  aggregate_group np_sum df k = Ok p ->
  let rows := group_rows df k in
  Curve.key p = k /\
  (forall r, In r rows -> unique_label df r) /\
  ~ cell_eq (np_sum (sizes_of rows)) (of_Q 0) /\
  Curve.iv p = Binary64.div (np_sum (np_multiply (ivs_of rows) (sizes_of rows)))
                            (np_sum (sizes_of rows)) /\
  Curve.volume p = group_sum (sizes_of rows) /\
  Curve.days_to_exp p = group_first (map days_to_exp rows) /\
  Curve.underlying p = group_first (map (fun r => uPrc (trade r)) rows) /\
  Curve.moneyness p = group_first (map moneyness rows).
Proof.
  unfold aggregate_group. destruct k as [[[[b e] x] c] o].
  set (rows := group_rows df (b, e, x, c, o)).
  destruct (np_average _ _ _) as [w|err] eqn:Ew; cbn; [|discriminate].
  intros [= <-]. cbn.
  apply np_average_ok in Ew. destruct Ew as (Hlen & Hnz & ->).
  rewrite length_map in Hlen.
  assert (Hsub : forall r, In r rows -> In r df)
    by (intros r Hr; now apply group_rows_In in Hr).
  destruct (loc_sizes_length df rows Hsub) as [_ Hu].
  specialize (Hu (eq_sym Hlen)).
  assert (Hloc : loc_sizes df (map (fun r => index (trade r)) rows) = sizes_of rows).
  { apply loc_sizes_unique. intros r Hr. split; [now apply Hsub|now apply Hu]. }
  rewrite Hloc in *. repeat split; auto.
Qed.

Lemma aggregate_group_returns (df : list CleanTrade) (k : GroupKey) :
  (forall r, In r (group_rows df k) -> unique_label df r) ->
  ~ cell_eq (np_sum (sizes_of (group_rows df k))) (of_Q 0) ->
  exists p, aggregate_group np_sum df k = Ok p.
Proof.
  intros Hu Hnz. unfold aggregate_group. destruct k as [[[[b e] x] c] o].
  set (rows := group_rows df (b, e, x, c, o)) in *.
  assert (Hloc : loc_sizes df (map (fun r => index (trade r)) rows) = sizes_of rows).
  { apply loc_sizes_unique. intros r Hr. split; [|now apply Hu].
    now apply group_rows_In in Hr. }
  rewrite Hloc.
  destruct (np_average _ _ _) as [w|err] eqn:Ew; cbn; [eauto|].
  exfalso. apply np_average_raises in Ew.
  destruct Ew as [[_ H]|(_ & _ & H)]; [|contradiction].
  apply H. unfold sizes_of. now rewrite !length_map.
Qed.

Lemma aggregate_group_raises (df : list CleanTrade) (k : GroupKey) (e : exn) :
  aggregate_group np_sum df k = Raise e <->
  (e = TypeError /\
   exists r, In r (group_rows df k) /\ ~ unique_label df r) \/
  (e = ZeroDivisionError /\
   (forall r, In r (group_rows df k) -> unique_label df r) /\
   cell_eq (np_sum (sizes_of (group_rows df k))) (of_Q 0)).
Proof.
  unfold aggregate_group. destruct k as [[[[b c] x] s] o].
  set (rows := group_rows df (b, c, x, s, o)).
  assert (Hsub : forall r, In r rows -> In r df)
    by (intros r Hr; now apply group_rows_In in Hr).
  destruct (loc_sizes_length df rows Hsub) as [Hge Hu].
  destruct (np_average _ _ _) as [w|err] eqn:Ew; cbn.
  - apply np_average_ok in Ew. destruct Ew as (Hlen & Hnz & _).
    rewrite length_map in Hlen. specialize (Hu (eq_sym Hlen)).
    assert (Hloc : loc_sizes df (map (fun r => index (trade r)) rows) = sizes_of rows).
    { apply loc_sizes_unique. intros r Hr. split; [now apply Hsub|now apply Hu]. }
    rewrite Hloc in Hnz.
    split; [discriminate|].
    intros [(_ & r & Hr & Hn)|(_ & _ & Hz)]; [|contradiction].
    exfalso. apply Hn, Hu, Hr.
  - apply np_average_raises in Ew. rewrite length_map in Ew. split.
    + intros [= <-]. destruct Ew as [[-> Hne]|(-> & Hlen & Hz)].
      * left. split; [reflexivity|].
        destruct (unique_labels_or df rows) as [Hall|Hex]; [|exact Hex].
        exfalso. apply Hne. symmetry.
        rewrite loc_sizes_unique; [unfold sizes_of; now rewrite length_map|].
        intros r Hr. split; [now apply Hsub|now apply Hall].
      * right. specialize (Hu (eq_sym Hlen)).
        split; [reflexivity|]. split; [exact Hu|].
        rewrite loc_sizes_unique in Hz; [exact Hz|].
        intros r Hr. split; [now apply Hsub|now apply Hu].
    + intros [(-> & r & Hr & Hn)|(-> & Hall & Hz)].
      * destruct Ew as [[-> _]|(_ & Hlen & _)]; [reflexivity|].
        exfalso. apply Hn, (Hu (eq_sym Hlen)), Hr.
      * destruct Ew as [[_ Hne]|(-> & _)]; [|reflexivity].
        exfalso. apply Hne. symmetry.
        rewrite loc_sizes_unique; [unfold sizes_of; now rewrite length_map|].
        intros r Hr. split; [now apply Hsub|now apply Hall].
Qed.

Lemma groupby_agg_rows (df : list CleanTrade) (agg : list Curve.point) :
  groupby_agg np_sum df = Ok agg ->
  Forall2 (fun k p => aggregate_group np_sum df k = Ok p) (group_keys df) agg.
Proof. apply for_each_Forall2. Qed.


Lemma aggregate_curves_ok (df : list CleanTrade) (min_volume : Z)
    (out : list Curve.point) :
  aggregate_curves np_sum df min_volume = Ok out <->
  exists agg, groupby_agg np_sum df = Ok agg /\ out = curve_filter min_volume agg.
Proof.
  unfold aggregate_curves, bind.
  destruct (groupby_agg np_sum df) as [agg|e]; split.
  - intros [= <-]. eauto.
  - intros (agg' & [= <-] & ->). reflexivity.
  - discriminate.
  - intros (agg' & H & _). discriminate.
Qed.

End AggregateFacts.

Lemma curve_filter_In (min_volume : Z) (agg : list Curve.point) (p : Curve.point) :
  In p (curve_filter min_volume agg) <-> In p agg /\ passes min_volume p.
Proof.
  unfold curve_filter, passes, ge.
  rewrite !filter_In, andb_true_iff, !cell_le_iff.
  assert (Hd : within_days 60 (Curve.days_to_exp p) = true <->
               exists n, Curve.days_to_exp p = Some n /\ n <= 60).
  { destruct (Curve.days_to_exp p) as [n|]; cbn.
    - rewrite Z.leb_le. split; [eauto|]. now intros (m & [= <-] & H).
    - split; [discriminate|]. now intros (m & H & _). }
  rewrite Hd. tauto.
Qed.


Lemma sublist_map {A B : Type} (f : A -> B) (l k : list A) :
  sublist l k -> sublist (map f l) (map f k).
Proof.
  induction 1; cbn; [constructor|now apply sublist_skip|now apply sublist_cons].
Qed.




(** C3.  With the default minimum volume, every point [aggregate_curves]
    returns has volume at least 2, IV within [0.05, 0.35] and at most 60
    days to expiration; a group made of one trade of size 1 has no point
    in the result. *)
Theorem aggregate_curves_bounds
    (np_sum : list num -> num) (df : list CleanTrade) (out : list Curve.point) :
  aggregate_curves np_sum df default_min_volume = Ok out ->
  (forall p, In p out ->
     cell_le (of_Q 2) (Curve.volume p) /\
     cell_le (of_Q 0.05) (Curve.iv p) /\
     cell_le (Curve.iv p) (of_Q 0.35) /\
     (exists n, Curve.days_to_exp p = Some n /\ n <= 60)) /\
  (forall k r, group_rows df k = [r] ->
     cell_eq (prtSize (trade r)) (of_Q 1) ->
     forall p, In p out -> Curve.key p <> k).
Proof.
  intros Hout. apply aggregate_curves_ok in Hout. destruct Hout as (agg & Hagg & ->).
  split.
  - intros p Hp. apply curve_filter_In in Hp.
    destruct Hp as (_ & Hv & Hlo & Hhi & Hd).
    split; [exact Hv|]. split; [|split; [|exact Hd]].
    + exact (cell_le_trans _ _ _ lit_0_05 Hlo).
    + exact (cell_le_trans _ _ _ Hhi lit_0_35).
  - intros k r Hrows (s & one & Hs & [= <-] & Heq) p Hp Hkey.
    apply curve_filter_In in Hp. destruct Hp as (Hin & Hvol & _).
    destruct (Forall2_In_r _ _ _ p (groupby_agg_rows np_sum df agg Hagg) Hin)
      as (k' & _ & Hk').
    apply aggregate_group_ok in Hk'. destruct Hk' as (Hkey' & _ & _ & _ & Hv & _).
    rewrite Hkey in Hkey'. subst k'. rewrite Hrows in Hv. cbn in Hv.
    rewrite Hs in Hv. cbn in Hv.
    destruct Hvol as (two & v & [= <-] & Hv' & Hle).
    rewrite Hv in Hv'. injection Hv' as <-.
    unfold default_min_volume, inject_Z in Hle. lra.
Qed.

Lemma aggregate_curves_bounds_witness :
  exists out,
    aggregate_curves Binary64.sum Sample.cleaned default_min_volume = Ok out /\
    forall p, In p out ->
      cell_le (of_Q 2) (Curve.volume p) /\
      cell_le (of_Q 0.05) (Curve.iv p) /\
      cell_le (Curve.iv p) (of_Q 0.35) /\
      (exists n, Curve.days_to_exp p = Some n /\ n <= 60).
Proof.
  assert (H : exists out,
             aggregate_curves Binary64.sum Sample.cleaned default_min_volume = Ok out).
  { eexists. vm_compute. reflexivity. }
  destruct H as [out H]. exists out. split; [exact H|].
  apply (aggregate_curves_bounds Binary64.sum Sample.cleaned out H).
Defined.

(** ** [build_animation] *)

Lemma linspace_length (start stop : num) (n : nat) :
  length (linspace start stop n) = n.
Proof.
  destruct n as [|[|d]]; [reflexivity|reflexivity|].
  unfold linspace. rewrite length_app, length_map, length_seq. cbn. lia.
Qed.

Lemma linspace_last (start stop : num) (d : nat) :
  nth (S d) (linspace start stop (S (S d))) nan = stop.
Proof.
  unfold linspace.
  rewrite app_nth2; rewrite length_map, length_seq; [|lia].
  now rewrite Nat.sub_diag.
Qed.

Lemma linspace_evenly_spaced (start stop : num) (d : nat) :
  Num.eq (Binary64.div (Binary64.sub stop start) (of_Z (Z.of_nat (S d)))) (of_Q 0)
    = false ->
  evenly_spaced start stop (S (S d)) (linspace start stop (S (S d))).
Proof.
  intros Hstep. unfold evenly_spaced.
  replace (Z.of_nat (S (S d)) - 1) with (Z.of_nat (S d)) by lia.
  split; [apply linspace_length|]. split.
  - intros i Hi. unfold linspace.
    set (f := linspace_point start _ _ (S d)).
    rewrite app_nth1 by (rewrite length_map, length_seq; lia).
    rewrite (nth_indep _ nan (f O)) by (rewrite length_map, length_seq; lia).
    rewrite map_nth, seq_nth by lia. subst f.
    unfold linspace_point. rewrite Hstep. reflexivity.
  - replace (S (S d) - 1)%nat with (S d) by lia. apply linspace_last.
Qed.

Lemma meshgrid_shape (x y : list num) :
  fst (meshgrid x y) = repeat x (length y) /\
  snd (meshgrid x y) = map (fun t => repeat t (length x)) y.
Proof.
  unfold meshgrid. cbn [fst snd]. split.
  - induction y as [|t y IH]; cbn; [reflexivity|now rewrite IH].
  - apply map_ext. intros t.
    induction x as [|k x IH]; cbn; [reflexivity|now rewrite IH].
Qed.

Section BuildAnimationFacts.

Variable griddata : list num * list num -> list num -> grid * grid -> option grid.

Lemma frames_of_bucket_In (spot : num) (KT : grid * grid) (view : string)
    (data : list Curve.point) (bt : Z) (f : Frame) :
  In f (frames_of_bucket griddata spot KT view data bt) ->
  frame_name f = bt /\
  (5 <= length (bucket_rows data bt))%nat /\
  frame_data f =
    (surface_traces griddata KT view (bucket_rows data bt)
       ++ scatter_traces view (bucket_rows data bt)
       ++ [atm_trace spot])%list.
Proof.
  unfold frames_of_bucket.
  destruct (length (bucket_rows data bt) <? 5)%nat eqn:E; [intros []|].
  apply Nat.ltb_ge in E.
  destruct (_ ++ _)%list as [|tr trs] eqn:Et; [intros []|].
  intros [<-|[]]. cbn. auto.
Qed.

Lemma frames_of_bucket_sparse (spot : num) (KT : grid * grid) (view : string)
    (data : list Curve.point) (bt : Z) :
  (length (bucket_rows data bt) < 5)%nat ->
  frames_of_bucket griddata spot KT view data bt = [].
Proof.
  intros H. unfold frames_of_bucket.
  apply Nat.ltb_lt in H. now rewrite H.
Qed.

Lemma build_frames_In (curves : list Curve.point) (view : string) (f : Frame) :
  In f (build_frames griddata curves view) ->
  In f (frames_of_bucket griddata (spot_of curves)
          (meshgrid (k_grid (spot_of curves)) t_grid) view
          (select_view curves view) (frame_name f)).
Proof.
  unfold build_frames. rewrite in_flat_map. intros (bt & _ & Hf).
  destruct (frames_of_bucket_In _ _ _ _ _ _ Hf) as (<- & _). exact Hf.
Qed.

Lemma build_animation_frames (curves : list Curve.point) (view : string) (fig : Figure) :
  build_animation griddata curves view = Ok fig ->
  fig_frames fig = build_frames griddata curves view.
Proof.
  unfold build_animation.
  destruct (build_frames griddata curves view) as [|f0 fs]; [discriminate|].
  now intros [= <-].
Qed.

End BuildAnimationFacts.

Lemma scatter_of_markers (rows : list Curve.point) (color name : string) :
  markers_of rows (scatter_of rows color name).
Proof. exists color, name. reflexivity. Qed.

Lemma markers_plotted (rows : list Curve.point) (tr : Trace) (traces : list Trace)
    (p : Curve.point) :
  markers_of rows tr -> In tr traces -> In p rows -> plotted p traces.
Proof.
  intros (color & name & ->) Htr Hp.
  apply list_elem_of_In, list_elem_of_lookup in Hp. destruct Hp as [i Hi].
  exists (map (fun p => of_Q (Curve.strike p)) rows),
         (map (fun p => days_cell (Curve.days_to_exp p)) rows),
         (map (fun p => Binary64.mul (Curve.iv p) (of_Q 100)) rows),
         color, name, i.
  split; [exact Htr|].
  assert (Hmap : forall (g : Curve.point -> num), map g rows !! i = Some (g p)).
  { intros g. change (map g rows) with (g <$> rows) at 1.
    rewrite list_lookup_fmap, Hi. reflexivity. }
  repeat split; apply Hmap.
Qed.

(** The marker traces of a bucket: each is the marker trace of rows of
    the bucket, none of them empty; in a one-sided view there is one, of
    all the rows, and in the combined view one for each of Put and Call
    that has a row. *)
Lemma scatter_traces_rows (view : string) (rows : list Curve.point) (tr : Trace) :
  In tr (scatter_traces view rows) ->
  exists rows',
    markers_of rows' tr /\
    (forall p, In p rows' -> In p rows) /\
    (rows <> [] -> rows' <> []).
Proof.
  unfold scatter_traces. destruct (String.eqb view "both").
  - cbn [flat_map]. rewrite app_nil_r. intros H. apply in_app_or in H.
    destruct H as [H|H];
      destruct (0 <? length _)%nat eqn:E;
      cbn [In] in H; try contradiction;
      destruct H as [<-|[]];
      eexists; (split; [apply scatter_of_markers|]); split;
      try (intros p Hp; now apply filter_In in Hp);
      intros _ Hnil; rewrite Hnil in E; discriminate.
  - intros [<-|[]]. exists rows. split; [apply scatter_of_markers|]. auto.
Qed.

Lemma surface_not_scatter (view : string) (rows : list Curve.point)
    (x y z : grid) (c : string) :
  ~ In (Surface x y z c) (scatter_traces view rows).
Proof.
  intros H. apply scatter_traces_rows in H.
  destruct H as (rows' & (color & name & H) & _). discriminate.
Qed.

Lemma frame_traces_mesh
    (griddata : list num * list num -> list num -> grid * grid -> option grid)
    (spot : num) (KT : grid * grid) (view : string)
    (data : list Curve.point) (bt : Z) (f : Frame) :
  In f (frames_of_bucket griddata spot KT view data bt) ->
  In (atm_trace spot) (frame_data f) /\
  (forall x y z c, In (Surface x y z c) (frame_data f) -> x = fst KT /\ y = snd KT).
Proof.
  intros Hf. apply frames_of_bucket_In in Hf. destruct Hf as (_ & _ & ->). split.
  - apply in_or_app. right. apply in_or_app. right. now left.
  - intros x y z c Hs. apply in_app_or in Hs. destruct Hs as [Hs|Hs].
    + unfold surface_traces in Hs.
      destruct (5 <=? length _)%nat; [|destruct Hs].
      destruct (fit_surface _ _ _) as [zs|]; [|destruct Hs].
      destruct Hs as [[= <- <- _ _]|[]]. auto.
    + apply in_app_or in Hs. destruct Hs as [Hs|Hs].
      * now apply surface_not_scatter in Hs.
      * destruct Hs as [Hs|[]]. discriminate.
Qed.

Lemma scatter_traces_side (rows : list Curve.point) (side : string) :
  side = "Put" \/ side = "Call" ->
  List.filter (fun p => String.eqb (Curve.cp p) side) rows <> [] ->
  exists tr,
    In tr (scatter_traces "both" rows) /\
    markers_of (List.filter (fun p => String.eqb (Curve.cp p) side) rows) tr.
Proof.
  intros Hside Hne. unfold scatter_traces. cbn [String.eqb Ascii.eqb Bool.eqb flat_map].
  assert (Hpos : (0 <? length (List.filter
                     (fun p => String.eqb (Curve.cp p) side) rows))%nat = true).
  { apply Nat.ltb_lt. destruct (List.filter _ rows); [congruence|cbn; lia]. }
  destruct Hside as [->| ->]; eexists; (split; [|apply scatter_of_markers]).
  - rewrite Hpos. now left.
  - rewrite Hpos, app_nil_r. apply in_or_app. right. now left.
Qed.

Lemma scatter_traces_plotted (view : string) (rows : list Curve.point) (p : Curve.point) :
  In p rows ->
  view <> "both" \/ Curve.cp p = "Put" \/ Curve.cp p = "Call" ->
  plotted p (scatter_traces view rows).
Proof.
  intros Hp Hcase.
  destruct (String.eqb view "both") eqn:Ev.
  - apply String.eqb_eq in Ev. subst view.
    destruct Hcase as [Hv|Hcp]; [contradiction|].
    assert (Hin : In p (List.filter (fun q => String.eqb (Curve.cp q) (Curve.cp p)) rows)).
    { apply filter_In. split; [exact Hp|apply String.eqb_refl]. }
    destruct (scatter_traces_side rows (Curve.cp p)) as (tr & Htr & Hm).
    + destruct Hcp as [->| ->]; auto.
    + intros E. rewrite E in Hin. destruct Hin.
    + exact (markers_plotted _ tr _ p Hm Htr Hin).
  - unfold scatter_traces. rewrite Ev.
    apply (markers_plotted rows (scatter_of rows (colors_get view) (capitalize view)));
      [apply scatter_of_markers|now left|exact Hp].
Qed.

Lemma build_animation_all_sparse
    (griddata : list num * list num -> list num -> grid * grid -> option grid)
    (curves : list Curve.point) (view : string) :
  (forall bt, (length (bucket_rows (select_view curves view) bt) < 5)%nat) ->
  build_animation griddata curves view = Raise IndexError.
Proof.
  intros Hsparse. unfold build_animation.
  destruct (build_frames griddata curves view) as [|f fs] eqn:E; [reflexivity|].
  assert (Hf : In f (build_frames griddata curves view)) by (rewrite E; now left).
  apply build_frames_In, frames_of_bucket_In in Hf.
  destruct Hf as (_ & Hlen & _). specialize (Hsparse (frame_name f)). lia.
Qed.

Lemma t_grid_step :
  Num.eq (Binary64.div (Binary64.sub (of_Q 45) (of_Q 1)) (of_Z (Z.of_nat 17))) (of_Q 0)
    = false.
Proof. vm_compute. reflexivity. Qed.

(** C4.  In every figure [build_animation] returns, the spot is the median
    of the underlying column of the whole curve, every frame draws its ATM
    line at that spot, and every surface trace of every frame sits on the
    one mesh of 18 rows by 25 columns: each row of its first half is the
    strike grid, 25 points from 0.90 spot to 1.10 spot, and the rows of
    its second half are the 18 tenors from 1 to 45, each repeated 25
    times.  Both grids are the points of [np.linspace], evenly spaced up
    to the rounding of binary64; the tenors are within 10^-14 of
    [1 + 44 i / 17].  Spot and grid are the same for all buckets of the
    run. *)
Theorem build_animation_fixed_grid
    (griddata : list num * list num -> list num -> grid * grid -> option grid)
    (curves : list Curve.point) (view : string) (fig : Figure) :
  build_animation griddata curves view = Ok fig ->
  let spot := median (map Curve.underlying curves) in
  let KT := meshgrid (k_grid spot) t_grid in
  let start := Binary64.mul spot (Binary64.lit 0.90) in
  let stop := Binary64.mul spot (Binary64.lit 1.10) in
  (forall f, In f (fig_frames fig) ->
     In (atm_trace spot) (frame_data f) /\
     (forall x y z c, In (Surface x y z c) (frame_data f) ->
        x = fst KT /\ y = snd KT)) /\
  fst KT = repeat (k_grid spot) 18 /\
  snd KT = map (fun t => repeat t 25) t_grid /\
  length (k_grid spot) = 25%nat /\
  nth 24 (k_grid spot) nan = stop /\
  (Num.eq (Binary64.div (Binary64.sub stop start) (of_Z 24)) (of_Q 0) = false ->
   evenly_spaced start stop 25 (k_grid spot)) /\
  evenly_spaced (of_Q 1) (of_Q 45) 18 t_grid /\
  near_tenors (1 # 100000000000000) t_grid = true.
Proof.
  intros Hfig spot KT start stop.
  destruct (meshgrid_shape (k_grid spot) t_grid) as [HK HT].
  assert (Hk : length (k_grid spot) = 25%nat) by apply linspace_length.
  assert (Ht : length t_grid = 18%nat) by apply linspace_length.
  split; [|split; [|split; [|split; [|split; [|split; [|split]]]]]].
  - intros f Hf. rewrite (build_animation_frames _ _ _ _ Hfig) in Hf.
    apply build_frames_In in Hf.
    exact (frame_traces_mesh _ _ _ _ _ _ _ Hf).
  - subst KT. now rewrite HK, Ht.
  - subst KT. now rewrite HT, Hk.
  - exact Hk.
  - apply (linspace_last start stop 23).
  - intros Hstep. apply (linspace_evenly_spaced start stop 23). exact Hstep.
  - apply (linspace_evenly_spaced (of_Q 1) (of_Q 45) 16). exact t_grid_step.
  - vm_compute. reflexivity.
Qed.

Lemma build_animation_fixed_grid_witness :
  cell_eq (median (map Curve.underlying Sample.curve)) (of_Q 446) /\
  exists fig,
    build_animation Sample.flat Sample.curve "both" = Ok fig /\
    forall f, In f (fig_frames fig) ->
      In (atm_trace (median (map Curve.underlying Sample.curve))) (frame_data f) /\
      (forall x y z c, In (Surface x y z c) (frame_data f) ->
         x = fst (meshgrid (k_grid (median (map Curve.underlying Sample.curve))) t_grid) /\
         y = snd (meshgrid (k_grid (median (map Curve.underlying Sample.curve))) t_grid)).
Proof.
  split; [eexists _, _; split; [vm_compute; reflexivity|]; split; [reflexivity|reflexivity]|].
  destruct (build_animation Sample.flat Sample.curve "both") as [fig|e] eqn:E.
  - exists fig. split; [reflexivity|].
    exact (proj1 (build_animation_fixed_grid Sample.flat Sample.curve "both" fig E)).
  - exfalso.
    assert (H : match build_animation Sample.flat Sample.curve "both" with
                | Ok _ => true
                | Raise _ => false
                end = true) by (vm_compute; reflexivity).
    rewrite E in H. discriminate H.
Defined.

(** C6.  [build_animation] raises IndexError when no bucket yields a
    frame: on an empty curve, and on the curve of the end-to-end scenario
    of the specification, whose only bucket has three rows. *)
Theorem build_animation_no_frames_raises
    (griddata : list num * list num -> list num -> grid * grid -> option grid)
    (view : string) :
  build_animation griddata [] view = Raise IndexError /\
  exists df curves,
    filter_trades Sample.scenario five_min = Ok df /\
    aggregate_curves Binary64.sum df default_min_volume = Ok curves /\
    length curves = 3%nat /\
    build_animation griddata curves view = Raise IndexError.
Proof.
  split; [reflexivity|].
  eexists _, _. split; [vm_compute; reflexivity|].
  split; [vm_compute; reflexivity|]. split; [reflexivity|].
  apply build_animation_all_sparse. intros bt.
  eapply Nat.le_lt_trans with (m := 3%nat); [|lia].
  unfold bucket_rows, select_view.
  repeat match goal with
         | |- context [if ?b then _ else _] => destruct b
         end;
    repeat (etransitivity; [apply filter_length_le|]); cbn; lia.
Qed.

(** C8.  In a frame of the returned figure whose bucket has fewer than
    five OTM rows, or whose interpolation raises, there is no surface
    trace, and the marker traces are there all the same.  In the put and
    call views one marker trace holds every row of the bucket; in the
    combined view there is one marker trace for the Put rows and one for
    the Call rows, when there are any.  So a row is plotted, with its
    strike, its days to expiration and its IV in percent, whenever the
    view is one-sided or its option type is Put or Call. *)
Theorem surface_omitted_scatter_kept
    (griddata : list num * list num -> list num -> grid * grid -> option grid)
    (curves : list Curve.point) (view : string) (fig : Figure) (f : Frame) :
  build_animation griddata curves view = Ok fig ->
  In f (fig_frames fig) ->
  let bt_data := bucket_rows (select_view curves view) (frame_name f) in
  let otm := List.filter Curve.is_otm bt_data in
  (length otm < 5)%nat \/
  fit_surface griddata (meshgrid (k_grid (spot_of curves)) t_grid) otm = None ->
  (forall x y z c, ~ In (Surface x y z c) (frame_data f)) /\
  (5 <= length bt_data)%nat /\
  (view <> "both" ->
   exists tr, In tr (frame_data f) /\ markers_of bt_data tr) /\
  (view = "both" ->
   forall side, side = "Put" \/ side = "Call" ->
     List.filter (fun p => String.eqb (Curve.cp p) side) bt_data <> [] ->
     exists tr,
       In tr (frame_data f) /\
       markers_of (List.filter (fun p => String.eqb (Curve.cp p) side) bt_data) tr) /\
  (forall p, In p bt_data ->
     view <> "both" \/ Curve.cp p = "Put" \/ Curve.cp p = "Call" ->
     plotted p (frame_data f)).
Proof.
  intros Hfig Hf bt_data otm Hno.
  rewrite (build_animation_frames _ _ _ _ Hfig) in Hf.
  apply build_frames_In, frames_of_bucket_In in Hf.
  destruct Hf as (_ & Hlen & Hdata). fold bt_data in Hlen, Hdata.
  assert (Hsurf : surface_traces griddata (meshgrid (k_grid (spot_of curves)) t_grid)
                    view bt_data = []).
  { unfold surface_traces. fold otm. destruct Hno as [Hlt|Hnone].
    - apply Nat.leb_gt in Hlt. now rewrite Hlt.
    - rewrite Hnone. now destruct (5 <=? length otm)%nat. }
  rewrite Hsurf in Hdata. cbn [app] in Hdata. rewrite Hdata.
  split; [|split; [exact Hlen|split; [|split]]].
  - intros x y z c Hs. apply in_app_or in Hs. destruct Hs as [Hs|Hs].
    + now apply surface_not_scatter in Hs.
    + destruct Hs as [Hs|[]]. discriminate.
  - intros Hview. exists (scatter_of bt_data (colors_get view) (capitalize view)).
    split; [|apply scatter_of_markers].
    apply in_or_app. left. unfold scatter_traces.
    destruct (String.eqb view "both") eqn:Ev; [|now left].
    apply String.eqb_eq in Ev. contradiction.
  - intros -> side Hside Hne.
    destruct (scatter_traces_side bt_data side Hside Hne) as (tr & Htr & Hm).
    exists tr. split; [|exact Hm]. apply in_or_app. now left.
  - intros p Hp Hcase.
    destruct (scatter_traces_plotted view bt_data p Hp Hcase)
      as (xs & ys & zs & color & name & i & Hin & Hx).
    exists xs, ys, zs, color, name, i. split; [|exact Hx].
    apply in_or_app. now left.
Qed.

Lemma surface_omitted_scatter_kept_witness :
  exists fig f,
    build_animation Sample.raising Sample.curve "both" = Ok fig /\
    In f (fig_frames fig) /\
    (forall x y z c, ~ In (Surface x y z c) (frame_data f)) /\
    plotted (Sample.point_at Sample.bucket 446 "Call" false 0.17) (frame_data f).
Proof.
  assert (H : exists fig f fs,
             build_animation Sample.raising Sample.curve "both" = Ok fig /\
             fig_frames fig = f :: fs /\ frame_name f = Sample.bucket).
  { eexists _, _, _. split; [vm_compute; reflexivity|]. split; reflexivity. }
  destruct H as (fig & f & fs & E & Ef & Hname).
  assert (Hin : In f (fig_frames fig)) by (rewrite Ef; now left).
  exists fig, f. split; [exact E|]. split; [exact Hin|].
  destruct (surface_omitted_scatter_kept Sample.raising Sample.curve "both"
              fig f E Hin (or_intror eq_refl)) as (Hs & _ & _ & _ & Hp).
  split; [exact Hs|].
  rewrite Hname in Hp. apply Hp.
  - vm_compute. do 5 right. left. reflexivity.
  - right. right. reflexivity.
Defined.

(** C8, in the combined view with rows of another option type.  A
    bucket of five rows whose option type is neither Put nor Call gets a frame
    without a surface and without a marker trace: the frame holds the
    ATM line only, and none of the five rows is plotted. *)
Theorem surface_omitted_no_scatter :
  exists fig f,
    build_animation Sample.raising Sample.unnamed_side "both" = Ok fig /\
    fig_frames fig = [f] /\
    length (bucket_rows (select_view Sample.unnamed_side "both") (frame_name f)) = 5%nat /\
    length (List.filter Curve.is_otm
              (bucket_rows (select_view Sample.unnamed_side "both") (frame_name f)))
      = 0%nat /\
    frame_data f = [atm_trace (spot_of Sample.unnamed_side)] /\
    (forall p, In p Sample.unnamed_side -> ~ plotted p (frame_data f)).
Proof.
  eexists _, _. split; [vm_compute; reflexivity|]. split; [reflexivity|].
  split; [vm_compute; reflexivity|]. split; [vm_compute; reflexivity|].
  split; [vm_compute; reflexivity|].
  intros p _ (xs & ys & zs & color & name & i & Hin & _).
  cbn in Hin. destruct Hin as [Hin|[]]. discriminate Hin.
Qed.

(** C9.  A bucket with fewer than five rows after the view selection
    yields no frame: the loop body appends nothing for it, so no frame of
    the run, and no frame of a returned figure, carries its name.  The
    result is a function of the input, the same on every run. *)
Theorem sparse_bucket_no_frame
    (griddata : list num * list num -> list num -> grid * grid -> option grid)
    (curves : list Curve.point) (view : string) (bt : Z) :
  In bt (map Curve.bucket_time curves) ->
  (length (bucket_rows (select_view curves view) bt) < 5)%nat ->
  frames_of_bucket griddata (spot_of curves)
    (meshgrid (k_grid (spot_of curves)) t_grid) view
    (select_view curves view) bt = [] /\
  (forall f, In f (build_frames griddata curves view) -> frame_name f <> bt) /\
  (forall fig, build_animation griddata curves view = Ok fig ->
     forall f, In f (fig_frames fig) -> frame_name f <> bt).
Proof.
  intros _ Hsparse.
  assert (Hno : forall f, In f (build_frames griddata curves view) -> frame_name f <> bt).
  { intros f Hf Hname. apply build_frames_In, frames_of_bucket_In in Hf.
    destruct Hf as (_ & Hlen & _). rewrite Hname in Hlen. lia. }
  split; [now apply frames_of_bucket_sparse|]. split; [exact Hno|].
  intros fig Hfig f Hf. rewrite (build_animation_frames _ _ _ _ Hfig) in Hf.
  now apply Hno.
Qed.

Lemma sparse_bucket_no_frame_witness :
  In (Sample.bucket + five_min) (map Curve.bucket_time Sample.curve) /\
  (length (bucket_rows (select_view Sample.curve "both") (Sample.bucket + five_min)) < 5)%nat /\
  forall f, In f (build_frames Sample.raising Sample.curve "both") ->
    frame_name f <> Sample.bucket + five_min.
Proof.
  assert (H1 : In (Sample.bucket + five_min) (map Curve.bucket_time Sample.curve))
    by (do 6 right; left; reflexivity).
  assert (H2 : (length (bucket_rows (select_view Sample.curve "both")
                         (Sample.bucket + five_min)) < 5)%nat)
    by (vm_compute; lia).
  split; [exact H1|]. split; [exact H2|].
  exact (proj1 (proj2 (sparse_bucket_no_frame Sample.raising Sample.curve "both"
                         _ H1 H2))).
Defined.

(** ** [load_trades] *)

Lemma select_map_filter {A : Type} (f : A -> bool) (cells : list A) :
  select (map f cells) cells = List.filter f cells.
Proof.
  induction cells as [|c cells IH]; [reflexivity|].
  cbn. rewrite IH. reflexivity.
Qed.

Lemma select_all_false {A : Type} (mask : list bool) (cells : list A) :
  (forall b, In b mask -> b = false) -> select mask cells = [].
Proof.
  revert cells. induction mask as [|b mask IH]; intros cells H; [reflexivity|].
  destruct cells as [|c cells]; [reflexivity|]. cbn.
  rewrite (H b) by now left. apply IH. intros b' Hb'. apply H. now right.
Qed.

Lemma select_column_all_false (mask : list bool) (col : Column) :
  (forall b, In b mask -> b = false) ->
  column_length (select_column mask col) = 0%nat.
Proof.
  intros H. destruct col; cbn; now rewrite select_all_false.
Qed.

Lemma text_is_true (text : string) (cell : option string) :
  text_is text cell = true <-> cell = Some text.
Proof.
  destruct cell as [s|]; cbn.
  - rewrite String.eqb_eq. split; [now intros ->|now intros [= ->]].
  - split; discriminate.
Qed.

Section LoadTradesFacts.

Variable to_datetime_text : string -> datetime.
Variable to_numeric_text : string -> num.
Variable str_of_float : Q -> string.
Variable str_of_datetime : Z -> string.
Variable to_datetime_other : list string -> result (string -> datetime).

Lemma astype_str_empty (col : Column) :
  column_length col = 0%nat ->
  astype_str str_of_float str_of_datetime col = [].
Proof.
  destruct col as [cells|cells|cells|cells]; cbn; intros H;
    apply length_zero_iff_nil in H; now subst.
Qed.

Lemma coerce_columns_lookup (names : list string) (df : DataFrame) (name : string) :
  ~ In name names ->
  foldl (coerce_column to_numeric_text) df names !! name = df !! name.
Proof.
  revert df. induction names as [|n names IH]; intros df Hn; [reflexivity|].
  cbn [foldl]. rewrite IH by (intros H; apply Hn; now right).
  unfold coerce_column. destruct (df !! n); [|reflexivity].
  apply lookup_insert_ne. intros ->. apply Hn. now left.
Qed.

(** The coercions leave every column alone that is neither the timestamp
    nor one of the numeric columns. *)
Lemma coerced_lookup (df pre : DataFrame) (name : string) :
  coerced to_datetime_text to_numeric_text df = Ok pre ->
  name <> "timestamp" -> ~ In name numeric_columns ->
  pre !! name = df !! name.
Proof.
  unfold coerced, bind. intros H Hts Hnum.
  destruct (getitem df _) as [raw|e]; [|discriminate].
  destruct (str_replace _ _ raw) as [text|e]; [|discriminate].
  injection H as <-.
  etransitivity; [exact (coerce_columns_lookup numeric_columns _ name Hnum)|].
  now apply lookup_insert_ne.
Qed.

Lemma load_trades_ok (df out : DataFrame) :
  load_trades to_datetime_text to_numeric_text str_of_float str_of_datetime
    to_datetime_other df = Ok out ->
  exists pre yr mn dy exp,
    coerced to_datetime_text to_numeric_text df = Ok pre /\
    restrict_ticker pre !! "okey_yr" = Some yr /\
    restrict_ticker pre !! "okey_mn" = Some mn /\
    restrict_ticker pre !! "okey_dy" = Some dy /\
    to_datetime_raise to_datetime_other
      (date_texts (astype_str str_of_float str_of_datetime yr)
                  (astype_str str_of_float str_of_datetime mn)
                  (astype_str str_of_float str_of_datetime dy)) = Ok exp /\
    out = <["expiration" := DatetimeCol exp]> (restrict_ticker pre).
Proof.
  unfold load_trades, getitem, bind.
  destruct (coerced _ _ df) as [pre|e]; [|discriminate].
  destruct (restrict_ticker pre !! "okey_yr") as [yr|] eqn:Ey; [|discriminate].
  destruct (restrict_ticker pre !! "okey_mn") as [mn|] eqn:Em; [|discriminate].
  destruct (restrict_ticker pre !! "okey_dy") as [dy|] eqn:Ed; [|discriminate].
  destruct (to_datetime_raise _ _) as [exp|e] eqn:Ee; [|discriminate].
  intros [= <-]. exists pre, yr, mn, dy, exp. repeat split; auto.
Qed.

(** The timestamp column of the coerced frame: the text of the source
    column with D replaced by T, parsed, and moved back five hours. *)
Lemma coerced_timestamp (df pre : DataFrame) (cells : list (option string)) :
  getitem df (if bool_decide (is_Some (df !! "timestamp"))
              then "timestamp" else "prtTimestamp") = Ok (ObjectCol cells) ->
  coerced to_datetime_text to_numeric_text df = Ok pre ->
  pre !! "timestamp" =
    Some (DatetimeCol
            (minus_hours 5
               (to_datetime_coerce to_datetime_text
                  (map (option_map
                          (map_string (fun c => if Ascii.eqb c "D" then "T"%char else c)))
                       cells)))).
Proof.
  unfold coerced, bind. intros ->. cbn [str_replace]. intros [= <-].
  etransitivity;
    [exact (coerce_columns_lookup numeric_columns _ "timestamp"
              ltac:(cbn; intuition discriminate))|].
  apply lookup_insert_eq.
Qed.

Lemma restrict_ticker_lookup (pre : DataFrame) (tk : Column) (name : string) :
  pre !! "ticker_tk" = Some tk ->
  restrict_ticker pre !! name = select_column (eq_text tk "SPY") <$> pre !! name.
Proof.
  intros H. unfold restrict_ticker, select_rows. rewrite H. apply lookup_fmap.
Qed.

End LoadTradesFacts.

Lemma plain_columns :
  (~ In "ticker_tk" numeric_columns) /\ (~ In "okey_yr" numeric_columns) /\
  (~ In "okey_mn" numeric_columns) /\ (~ In "okey_dy" numeric_columns).
Proof. cbn. intuition discriminate. Qed.

(** C10.  When the frame has a ticker column, the frame [load_trades]
    returns is the coerced frame restricted, column by column, to the rows
    whose ticker cell is the text SPY; the ticker it keeps is that fixed
    text.  When no row has it, every column of the result is empty, and
    the function does return once the coercions pass and the three date
    columns are there. *)
Theorem load_trades_keeps_spy
    (to_datetime_text : string -> datetime) (to_numeric_text : string -> num)
    (str_of_float : Q -> string) (str_of_datetime : Z -> string)
    (to_datetime_other : list string -> result (string -> datetime))
    (df : DataFrame) (tk : Column) :
  df !! "ticker_tk" = Some tk ->
  let load :=
    load_trades to_datetime_text to_numeric_text str_of_float str_of_datetime
      to_datetime_other in
  let mask := eq_text tk "SPY" in
  (forall out, load df = Ok out ->
     exists pre,
       coerced to_datetime_text to_numeric_text df = Ok pre /\
       (forall name, name <> "expiration" ->
          out !! name = select_column mask <$> pre !! name) /\
       out !! "ticker_tk" = Some (select_column mask tk)) /\
  (forall cells, tk = ObjectCol cells ->
     select_column mask tk = ObjectCol (List.filter (text_is "SPY") cells) /\
     (forall c, In c (List.filter (text_is "SPY") cells) <->
                In c cells /\ c = Some "SPY")) /\
  ((forall b, In b mask -> b = false) ->
     (forall out, load df = Ok out ->
        forall name col, out !! name = Some col -> column_length col = 0%nat) /\
     (forall pre, coerced to_datetime_text to_numeric_text df = Ok pre ->
        is_Some (df !! "okey_yr") -> is_Some (df !! "okey_mn") ->
        is_Some (df !! "okey_dy") ->
        exists out, load df = Ok out)).
Proof.
  intros Htk load mask.
  destruct plain_columns as (Ntk & Nyr & Nmn & Ndy).
  assert (Hpre_tk : forall pre,
             coerced to_datetime_text to_numeric_text df = Ok pre ->
             pre !! "ticker_tk" = Some tk).
  { intros pre Hpre. rewrite <- Htk.
    apply (coerced_lookup _ _ _ _ _ Hpre); [discriminate|exact Ntk]. }
  assert (Hrows : forall out, load df = Ok out ->
             exists pre exp yr,
               coerced to_datetime_text to_numeric_text df = Ok pre /\
               out = <["expiration" := DatetimeCol exp]> (restrict_ticker pre) /\
               restrict_ticker pre !! "okey_yr" = Some yr /\
               (column_length yr = 0%nat -> exp = [])).
  { intros out Hout. apply load_trades_ok in Hout.
    destruct Hout as (pre & yr & mn & dy & exp & Hpre & Hyr & _ & _ & Hexp & ->).
    exists pre, exp, yr. repeat split; try assumption.
    intros Hlen. rewrite (astype_str_empty _ _ yr Hlen) in Hexp.
    change (Ok [] = Ok exp) in Hexp. congruence. }
  split; [|split].
  - intros out Hout. destruct (Hrows out Hout) as (pre & exp & yr & Hpre & -> & _).
    exists pre. split; [exact Hpre|]. split.
    + intros name Hname. rewrite lookup_insert_ne by congruence.
      apply restrict_ticker_lookup, Hpre_tk, Hpre.
    + rewrite lookup_insert_ne by discriminate.
      rewrite (restrict_ticker_lookup pre tk) by (apply Hpre_tk, Hpre).
      now rewrite (Hpre_tk pre Hpre).
  - intros cells ->. split.
    + cbn. now rewrite select_map_filter.
    + intros c. rewrite filter_In, text_is_true. tauto.
  - intros Hnone. split.
    + intros out Hout name col Hcol.
      destruct (Hrows out Hout) as (pre & exp & yr & Hpre & -> & Hyr & Hexp).
      rewrite (restrict_ticker_lookup pre tk) in Hyr by (apply Hpre_tk, Hpre).
      destruct (decide (name = "expiration")) as [->|Hname].
      * rewrite lookup_insert_eq in Hcol. injection Hcol as <-.
        destruct (pre !! "okey_yr") as [yr0|]; [|discriminate].
        injection Hyr as <-. rewrite Hexp; [reflexivity|].
        now apply select_column_all_false.
      * rewrite lookup_insert_ne in Hcol by congruence.
        rewrite (restrict_ticker_lookup pre tk) in Hcol by (apply Hpre_tk, Hpre).
        destruct (pre !! name) as [col0|]; [|discriminate].
        injection Hcol as <-. now apply select_column_all_false.
    + intros pre Hpre [yr Hyr] [mn Hmn] [dy Hdy].
      unfold load, load_trades, getitem, bind. rewrite Hpre.
      rewrite !(restrict_ticker_lookup pre tk) by (apply Hpre_tk, Hpre).
      rewrite (coerced_lookup _ _ _ _ "okey_yr" Hpre), Hyr by (discriminate || exact Nyr).
      rewrite (coerced_lookup _ _ _ _ "okey_mn" Hpre), Hmn by (discriminate || exact Nmn).
      rewrite (coerced_lookup _ _ _ _ "okey_dy" Hpre), Hdy by (discriminate || exact Ndy).
      cbn [fmap option_fmap option_map].
      rewrite (astype_str_empty _ _ (select_column mask yr))
        by now apply select_column_all_false.
      eexists. reflexivity.
Qed.

Lemma load_trades_keeps_spy_witness :
  Sample.other_ticker !! "ticker_tk" = Some (ObjectCol [Some "QQQ"]) /\
  exists out,
    load_trades (fun _ => None) (fun _ => None) (fun _ => "") (fun _ => "")
      Sample.no_other Sample.other_ticker = Ok out /\
    forall name col, out !! name = Some col -> column_length col = 0%nat.
Proof.
  assert (Htk : Sample.other_ticker !! "ticker_tk" = Some (ObjectCol [Some "QQQ"]))
    by reflexivity.
  split; [exact Htk|].
  destruct (load_trades_keeps_spy (fun _ => None) (fun _ => None)
              (fun _ => "") (fun _ => "") Sample.no_other Sample.other_ticker _ Htk)
    as (_ & _ & Hnone).
  destruct Hnone as [Hempty Hreturns].
  { intros b [<-|[]]. reflexivity. }
  destruct (Hreturns _ eq_refl) as [out Hout]; try (eexists; reflexivity).
  exists out. split; [exact Hout|]. exact (Hempty out Hout).
Defined.

(** C7.  [load_trades] raises on a row whose year, month and day do not
    form a calendar date: the text 2023-13-45 goes through
    [pd.to_datetime] with the default [errors='raise'], so the row gets no
    "not available" expiration and no frame is returned.  The same frame
    with month 12 and day 15 loads, and a timestamp text the parser does
    not read loads as NaT. *)
Theorem load_trades_bad_date_raises
    (to_datetime_text : string -> datetime) (to_numeric_text : string -> num)
    (str_of_float : Q -> string) (str_of_datetime : Z -> string)
    (to_datetime_other : list string -> result (string -> datetime)) :
  let load :=
    load_trades to_datetime_text to_numeric_text str_of_float str_of_datetime
      to_datetime_other in
  load (Sample.frame 13 45) = Raise (ValueError "2023-13-45") /\
  (exists out,
     load (Sample.frame 12 15) = Ok out /\
     out !! "expiration" = Some (DatetimeCol [Some Sample.expiry]) /\
     out !! "timestamp" =
       Some (DatetimeCol
               (minus_hours 5 [to_datetime_text "2023-12-01T09:31:00.000000"]))).
Proof.
  intros load. split.
  - vm_compute. reflexivity.
  - assert (Hexp : match load (Sample.frame 12 15) with
                   | Ok out => out !! "expiration"
                   | Raise _ => None
                   end = Some (DatetimeCol [Some Sample.expiry]))
      by (vm_compute; reflexivity).
    destruct (load (Sample.frame 12 15)) as [out|e] eqn:E; [|discriminate].
    exists out. split; [reflexivity|]. split; [exact Hexp|].
    apply load_trades_ok in E.
    destruct E as (pre & yr & mn & dy & exp & Hpre & _ & _ & _ & _ & ->).
    assert (Htk : pre !! "ticker_tk" = Some (ObjectCol [Some "SPY"])).
    { rewrite (coerced_lookup _ _ _ _ "ticker_tk" Hpre);
        [reflexivity|discriminate|apply plain_columns]. }
    rewrite lookup_insert_ne by discriminate.
    rewrite (restrict_ticker_lookup pre _ "timestamp" Htk).
    rewrite (coerced_timestamp _ _ (Sample.frame 12 15) _
               [Some "2023-12-01D09:31:00.000000"] eq_refl Hpre).
    reflexivity.
Qed.

(** * Further properties *)

(** ** Frames of [build_animation] *)

Lemma sorted_unique_In (l : list Z) (x : Z) :
  In x (sorted_unique l) <-> In x l.
Proof.
  unfold sorted_unique. rewrite <- !list_elem_of_In.
  now rewrite merge_sort_Permutation, elem_of_remove_dups.
Qed.

Lemma strictly_increasing (l : list Z) :
  StronglySorted Z.le l -> NoDup l -> StronglySorted Z.lt l.
Proof.
  induction 1 as [|a l Hl IH Ha]; intros Hnd; constructor.
  - apply IH. now apply NoDup_cons in Hnd.
  - apply NoDup_cons in Hnd. destruct Hnd as [Hnotin _].
    rewrite Forall_forall in *. intros x Hx.
    specialize (Ha x Hx). assert (x <> a) by (intros ->; contradiction). lia.
Qed.

Lemma sorted_unique_increasing (l : list Z) :
  StronglySorted Z.lt (sorted_unique l).
Proof.
  apply strictly_increasing.
  - apply StronglySorted_merge_sort; apply _.
  - unfold sorted_unique. rewrite merge_sort_Permutation. apply NoDup_remove_dups.
Qed.

Lemma filter_increasing (f : Z -> bool) (l : list Z) :
  StronglySorted Z.lt l -> StronglySorted Z.lt (List.filter f l).
Proof.
  induction 1 as [|a l Hl IH Ha]; cbn; [constructor|].
  destruct (f a); [|exact IH]. constructor; [exact IH|].
  rewrite Forall_forall in *. intros x Hx.
  apply list_elem_of_In, filter_In in Hx.
  apply Ha, list_elem_of_In, Hx.
Qed.

Lemma select_view_In (curves : list Curve.point) (view : string) (p : Curve.point) :
  In p (select_view curves view) -> In p curves.
Proof.
  unfold select_view.
  destruct (String.eqb view "puts"); [now intros H%filter_In|].
  destruct (String.eqb view "calls"); [now intros H%filter_In|]. auto.
Qed.

Lemma bucket_rows_In (data : list Curve.point) (bt : Z) (p : Curve.point) :
  In p (bucket_rows data bt) <-> In p data /\ Curve.bucket_time p = bt.
Proof. unfold bucket_rows. now rewrite filter_In, Z.eqb_eq. Qed.

Section FrameFacts.

Variable griddata : list num * list num -> list num -> grid * grid -> option grid.

(** The check [if frame_traces:] never skips a bucket: the ATM line is
    always in the list. *)
Lemma frames_of_bucket_dense (spot : num) (KT : grid * grid) (view : string)
    (data : list Curve.point) (bt : Z) :
  (5 <= length (bucket_rows data bt))%nat ->
  frames_of_bucket griddata spot KT view data bt =
  [{| frame_name := bt;
      frame_data :=
        (surface_traces griddata KT view (bucket_rows data bt)
           ++ scatter_traces view (bucket_rows data bt)
           ++ [atm_trace spot])%list |}].
Proof.
  intros H. unfold frames_of_bucket.
  apply Nat.ltb_ge in H. rewrite H.
  destruct (_ ++ _ ++ [atm_trace spot])%list as [|tr trs] eqn:E; [|reflexivity].
  apply app_eq_nil in E. destruct E as [_ E].
  apply app_eq_nil in E. destruct E as [_ E]. discriminate.
Qed.

Lemma frame_names (spot : num) (KT : grid * grid) (view : string)
    (data : list Curve.point) (buckets : list Z) :
  map frame_name (flat_map (frames_of_bucket griddata spot KT view data) buckets) =
  List.filter (fun bt => (5 <=? length (bucket_rows data bt))%nat) buckets.
Proof.
  induction buckets as [|bt buckets IH]; [reflexivity|].
  cbn [flat_map List.filter]. rewrite map_app, IH.
  destruct (5 <=? length (bucket_rows data bt))%nat eqn:E.
  - apply Nat.leb_le in E. now rewrite frames_of_bucket_dense.
  - apply Nat.leb_gt in E. now rewrite frames_of_bucket_sparse.
Qed.

Lemma dense_bucket_present (curves : list Curve.point) (view : string) (bt : Z) :
  (5 <= length (bucket_rows (select_view curves view) bt))%nat ->
  In bt (sorted_unique (map Curve.bucket_time curves)).
Proof.
  intros H. apply sorted_unique_In.
  destruct (bucket_rows (select_view curves view) bt) as [|p rows] eqn:E;
    [cbn in H; lia|].
  assert (Hp : In p (bucket_rows (select_view curves view) bt))
    by (rewrite E; now left).
  apply bucket_rows_In in Hp. destruct Hp as [Hp <-].
  apply in_map, (select_view_In _ _ _ Hp).
Qed.

End FrameFacts.

Lemma build_animation_ok_iff
    (griddata : list num * list num -> list num -> grid * grid -> option grid)
    (curves : list Curve.point) (view : string) :
  (exists fig, build_animation griddata curves view = Ok fig) <->
  (exists bt, (5 <= length (bucket_rows (select_view curves view) bt))%nat).
Proof.
  split.
  - intros [fig Hfig].
    destruct (fig_frames fig) as [|f fs] eqn:Ef.
    + unfold build_animation in Hfig.
      destruct (build_frames griddata curves view); [discriminate|].
      injection Hfig as <-. discriminate.
    + assert (Hf : In f (fig_frames fig)) by (rewrite Ef; now left).
      rewrite (build_animation_frames _ _ _ _ Hfig) in Hf.
      apply build_frames_In, frames_of_bucket_In in Hf.
      exists (frame_name f). tauto.
  - intros [bt Hbt]. unfold build_animation.
    destruct (build_frames griddata curves view) as [|f fs] eqn:E; [|eauto].
    exfalso. apply (f_equal (map frame_name)) in E.
    unfold build_frames in E. rewrite frame_names in E. cbn [map] in E.
    assert (Hin : In bt (List.filter
                           (fun bt => (5 <=? length (bucket_rows (select_view curves view) bt))%nat)
                           (sorted_unique (map Curve.bucket_time curves)))).
    { apply filter_In. split; [now apply (dense_bucket_present curves view)|].
      now apply Nat.leb_le. }
    rewrite E in Hin. destruct Hin.
Qed.

Lemma build_animation_raises_index
    (griddata : list num * list num -> list num -> grid * grid -> option grid)
    (curves : list Curve.point) (view : string) (e : exn) :
  build_animation griddata curves view = Raise e -> e = IndexError.
Proof.
  unfold build_animation.
  destruct (build_frames griddata curves view); [|discriminate].
  now intros [= <-].
Qed.

(** X1.  [build_animation] returns a figure exactly when some bucket has
    five rows or more after the view selection; in every other case it
    raises, and the only exception it raises is IndexError. *)
Theorem build_animation_returns_iff
    (griddata : list num * list num -> list num -> grid * grid -> option grid)
    (curves : list Curve.point) (view : string) :
  ((exists fig, build_animation griddata curves view = Ok fig) <->
   (exists bt, (5 <= length (bucket_rows (select_view curves view) bt))%nat)) /\
  (forall e, build_animation griddata curves view = Raise e -> e = IndexError).
Proof.
  split.
  - apply build_animation_ok_iff.
  - apply build_animation_raises_index.
Qed.

(** X2.  The frames of a returned figure are the buckets with five rows
    or more, one frame each, in strictly ascending order of bucket time;
    the figure's initial data is the data of the earliest such frame. *)
Theorem frames_chronological
    (griddata : list num * list num -> list num -> grid * grid -> option grid)
    (curves : list Curve.point) (view : string) (fig : Figure) :
  build_animation griddata curves view = Ok fig ->
  map frame_name (fig_frames fig) =
    List.filter
      (fun bt => (5 <=? length (bucket_rows (select_view curves view) bt))%nat)
      (sorted_unique (map Curve.bucket_time curves)) /\
  StronglySorted Z.lt (map frame_name (fig_frames fig)) /\
  (exists f0 fs, fig_frames fig = f0 :: fs /\ fig_data fig = frame_data f0).
Proof.
  intros Hfig.
  assert (Hnames : map frame_name (fig_frames fig) =
            List.filter
              (fun bt => (5 <=? length (bucket_rows (select_view curves view) bt))%nat)
              (sorted_unique (map Curve.bucket_time curves))).
  { rewrite (build_animation_frames _ _ _ _ Hfig). apply frame_names. }
  split; [exact Hnames|]. split.
  - rewrite Hnames. apply filter_increasing, sorted_unique_increasing.
  - unfold build_animation in Hfig.
    destruct (build_frames griddata curves view) as [|f0 fs]; [discriminate|].
    injection Hfig as <-. now exists f0, fs.
Qed.

Lemma frames_chronological_witness :
  exists fig,
    build_animation Sample.raising Sample.curve "both" = Ok fig /\
    map frame_name (fig_frames fig) = [Sample.bucket].
Proof.
  assert (H : exists fig, build_animation Sample.raising Sample.curve "both" = Ok fig).
  { eexists. vm_compute. reflexivity. }
  destruct H as [fig E]. exists fig. split; [exact E|].
  rewrite (proj1 (frames_chronological Sample.raising Sample.curve "both" fig E)).
  vm_compute. reflexivity.
Defined.

(** X3.  Every frame of a returned figure holds at most one surface
    trace, then at most two marker traces, then the ATM line as its last
    trace; every marker trace holds the strike, the days to expiration
    and the IV in percent of at least one row, and of rows of the frame's
    own bucket only. *)
Theorem frame_traces_shape
    (griddata : list num * list num -> list num -> grid * grid -> option grid)
    (curves : list Curve.point) (view : string) (fig : Figure) (f : Frame) :
  build_animation griddata curves view = Ok fig ->
  In f (fig_frames fig) ->
  exists surf scat,
    frame_data f = (surf ++ scat ++ [atm_trace (spot_of curves)])%list /\
    (length surf <= 1)%nat /\ (length scat <= 2)%nat /\
    (forall tr, In tr surf -> exists x y z c, tr = Surface x y z c) /\
    (forall tr, In tr scat ->
       exists rows,
         markers_of rows tr /\ rows <> [] /\
         forall p, In p rows -> In p curves /\ Curve.bucket_time p = frame_name f).
Proof.
  intros Hfig Hf. rewrite (build_animation_frames _ _ _ _ Hfig) in Hf.
  apply build_frames_In, frames_of_bucket_In in Hf.
  destruct Hf as (_ & Hlen & ->).
  eexists _, _. split; [reflexivity|]. repeat split.
  - unfold surface_traces. destruct (5 <=? _)%nat; [|cbn; lia].
    destruct (fit_surface _ _ _); cbn; lia.
  - unfold scatter_traces. destruct (String.eqb view "both"); [|cbn; lia].
    cbn [flat_map]. rewrite !length_app.
    repeat (destruct (0 <? length _)%nat); cbn; lia.
  - intros tr Htr. unfold surface_traces in Htr.
    destruct (5 <=? _)%nat; [|destruct Htr].
    destruct (fit_surface _ _ _); [|destruct Htr].
    destruct Htr as [<-|[]]. eauto.
  - intros tr Htr. apply scatter_traces_rows in Htr.
    destruct Htr as (rows & Hm & Hsub & Hne).
    exists rows. split; [exact Hm|]. split.
    + apply Hne. intros E. rewrite E in Hlen. cbn in Hlen. lia.
    + intros p Hp. apply Hsub, bucket_rows_In in Hp. destruct Hp as [Hp Hbt].
      split; [exact (select_view_In _ _ _ Hp)|exact Hbt].
Qed.

Lemma frame_traces_shape_witness :
  exists fig f,
    build_animation Sample.flat Sample.curve "both" = Ok fig /\
    In f (fig_frames fig) /\
    exists surf scat,
      frame_data f = (surf ++ scat ++ [atm_trace (spot_of Sample.curve)])%list /\
      (length surf <= 1)%nat /\ (length scat <= 2)%nat.
Proof.
  assert (H : exists fig f fs,
             build_animation Sample.flat Sample.curve "both" = Ok fig /\
             fig_frames fig = f :: fs).
  { eexists _, _, _. split; [vm_compute; reflexivity|reflexivity]. }
  destruct H as (fig & f & fs & E & Ef).
  assert (Hin : In f (fig_frames fig)) by (rewrite Ef; now left).
  exists fig, f. split; [exact E|]. split; [exact Hin|].
  destruct (frame_traces_shape Sample.flat Sample.curve "both" fig f E Hin)
    as (surf & scat & H1 & H2 & H3 & _).
  exists surf, scat. auto.
Defined.

(** ** The spot of [build_animation] *)




(** ** Rows of [filter_trades] *)

Lemma filter_sublist {A : Type} (f : A -> bool) (l : list A) :
  sublist (List.filter f l) l.
Proof.
  induction l as [|x l IH]; cbn; [constructor|].
  destruct (f x); [now apply sublist_skip|now apply sublist_cons].
Qed.

Lemma map_trade_clean (bucket_freq : Z) (ref : datetime) (f : CleanTrade -> bool)
    (l : list Trade) :
  map trade (List.filter f (map (clean bucket_freq ref) l)) =
  List.filter (fun t => f (clean bucket_freq ref t)) l.
Proof.
  induction l as [|t l IH]; [reflexivity|].
  cbn. destruct (f (clean bucket_freq ref t)); cbn; now rewrite IH.
Qed.

Lemma filter_trades_trades (df : list Trade) (bucket_freq : Z) (out : list CleanTrade) :
  filter_trades df bucket_freq = Ok out -> sublist (map trade out) df.
Proof.
  intros H. apply filter_trades_ok in H. destruct H as (ref & _ & ->).
  rewrite map_trade_clean.
  etransitivity; [apply filter_sublist|].
  etransitivity; apply filter_sublist.
Qed.

(** X5.  The trades of the frame [filter_trades] returns are a
    subsequence of its input: rows are dropped, never added, repeated or
    reordered. *)
Theorem filter_trades_subsequence
    (df : list Trade) (bucket_freq : Z) (out : list CleanTrade) :
  filter_trades df bucket_freq = Ok out ->
  sublist (map trade out) df.
Proof. apply filter_trades_trades. Qed.

Lemma filter_trades_subsequence_witness :
  exists out,
    filter_trades Sample.trades five_min = Ok out /\
    sublist (map trade out) Sample.trades.
Proof.
  assert (H : exists out, filter_trades Sample.trades five_min = Ok out).
  { eexists. vm_compute. reflexivity. }
  destruct H as [out H]. exists out. split; [exact H|].
  exact (filter_trades_subsequence Sample.trades five_min out H).
Defined.

Lemma series_min_le (s : list datetime) (m t : Z) :
  series_min s = Some m -> In (Some t) s -> m <= t.
Proof.
  revert m. induction s as [|[x|] s IH]; intros m Hm Hin; cbn in *.
  - destruct Hin.
  - destruct (series_min s) as [m'|] eqn:E.
    + injection Hm as <-. destruct Hin as [[= <-]|Hin]; [lia|].
      specialize (IH m' eq_refl Hin). lia.
    + injection Hm as <-. destruct Hin as [[= <-]|Hin]; [lia|].
      exfalso. clear IH. induction s as [|[y|] s IHs]; cbn in *.
      * destruct Hin.
      * destruct (series_min s); discriminate.
      * destruct Hin as [Hin|Hin]; [discriminate|auto].
  - destruct Hin as [Hin|Hin]; [discriminate|auto].
Qed.


(** X6.  With a positive bucket width, a row's bucket time is the
    multiple of the width at or just below its timestamp: the timestamp
    lies in the half-open interval that starts at the bucket time and
    lasts one width. *)
Theorem filter_trades_bucket_alignment
    (df : list Trade) (bucket_freq : Z) (out : list CleanTrade)
    (r : CleanTrade) (ts : Z) :
  0 < bucket_freq ->
  filter_trades df bucket_freq = Ok out ->
  In r out ->
  timestamp (trade r) = Some ts ->
  exists k,
    bucket_time r = Some (bucket_freq * k) /\
    bucket_freq * k <= ts < bucket_freq * k + bucket_freq.
Proof.
  intros Hfreq Hout Hin Hts. apply (filter_trades_In _ _ _ _ Hout) in Hin.
  destruct Hin as (ref & t & _ & _ & -> & _). cbn [trade bucket_time clean] in *.
  rewrite Hts. cbn [dt_floor].
  assert (E : (bucket_freq =? 0) = false) by (apply Z.eqb_neq; lia).
  rewrite E. exists (ts / bucket_freq). split; [reflexivity|].
  pose proof (Z.mul_div_le ts bucket_freq Hfreq).
  pose proof (Z.mul_succ_div_gt ts bucket_freq Hfreq). lia.
Qed.

Lemma filter_trades_bucket_alignment_witness :
  exists k,
    bucket_time (Sample.row Sample.t1) = Some (five_min * k) /\
    five_min * k <= Sample.day + 9 * ns_per_hour + 31 * ns_per_minute
      < five_min * k + five_min.
Proof.
  apply (filter_trades_bucket_alignment Sample.trades five_min Sample.cleaned
           (Sample.row Sample.t1)).
  - reflexivity.
  - vm_compute. reflexivity.
  - left. reflexivity.
  - reflexivity.
Defined.

(** X7.  For a bucket width that is not negative, all rows of one run
    measure their days to expiration from one reference midnight, the
    midnight of the earliest bucket among the rows that passed the two
    masks: it is a whole number of days, it is not later than the bucket
    of any returned row, and every returned row expires at least one full
    day after it. *)
Theorem filter_trades_reference_date
    (df : list Trade) (bucket_freq : Z) (out : list CleanTrade) (r : CleanTrade) :
  0 <= bucket_freq ->
  filter_trades df bucket_freq = Ok out ->
  In r out ->
  exists ref e n,
    session_ref_date df bucket_freq = Ok (Some ref) /\
    ref mod ns_per_day = 0 /\
    expiration (trade r) = Some e /\
    days_to_exp r = Some n /\ n = (e - ref) / ns_per_day /\
    ref + ns_per_day <= e /\
    (forall bt, bucket_time r = Some bt -> ref <= bt).
Proof.
  intros _ Hout Hin. apply (filter_trades_In _ _ _ _ Hout) in Hin.
  destruct Hin as (ref0 & t & Href & Ht & -> & Ha & Hn & Hd).
  cbn [trade bucket_time days_to_exp clean] in *.
  assert (Hday : 0 < ns_per_day) by reflexivity.
  pose proof Href as Href'.
  unfold session_ref_date, ref_date_of, normalize in Href'.
  destruct (series_min _) as [m|] eqn:Em; [|discriminate].
  injection Href' as <-.
  apply positive_days_iff in Hd. destruct Hd as (n & Hn' & Hpos).
  unfold days_between in Hn'.
  destruct (expiration t) as [e|]; [|discriminate].
  injection Hn' as <-.
  exists (ns_per_day * (m / ns_per_day)), e,
         ((e - ns_per_day * (m / ns_per_day)) / ns_per_day).
  split; [exact Href|]. repeat split.
  - rewrite Z.mul_comm. apply Z_mod_mult.
  - assert (1 <= (e - ns_per_day * (m / ns_per_day)) / ns_per_day) by lia.
    pose proof (Z.mul_div_le (e - ns_per_day * (m / ns_per_day)) ns_per_day Hday).
    nia.
  - intros bt Hbt.
    assert (m <= bt).
    { apply (series_min_le _ m bt Em). rewrite <- Hbt.
      apply in_map_iff. exists t. split; [reflexivity|].
      apply filter_In. split; [|exact Hn]. apply filter_In. auto. }
    pose proof (Z.mul_div_le m ns_per_day Hday). lia.
Qed.

Lemma filter_trades_reference_date_witness :
  exists ref e n,
    session_ref_date Sample.trades five_min = Ok (Some ref) /\
    ref mod ns_per_day = 0 /\
    expiration Sample.t1 = Some e /\
    days_to_exp (Sample.row Sample.t1) = Some n /\ n = (e - ref) / ns_per_day.
Proof.
  destruct (filter_trades_reference_date Sample.trades five_min Sample.cleaned
              (Sample.row Sample.t1))
    as (ref & e & n & H1 & H2 & H3 & H4 & H5 & _).
  - discriminate.
  - vm_compute. reflexivity.
  - left. reflexivity.
  - exists ref, e, n. auto.
Defined.


(** ** [aggregate_curves] after [filter_trades] *)

Lemma filter_trades_admitted (df : list Trade) (bucket_freq : Z)
    (out : list CleanTrade) (r : CleanTrade) :
  filter_trades df bucket_freq = Ok out -> In r out -> admitted (trade r) = true.
Proof.
  intros Hout Hin. apply (filter_trades_In _ _ _ _ Hout) in Hin.
  now destruct Hin as (ref & t & _ & _ & -> & Ha & _).
Qed.

Lemma NoDup_label_rows (df : list CleanTrade) (r : CleanTrade) :
  NoDup (map (fun r => index (trade r)) df) -> In r df -> unique_label df r.
Proof.
  unfold unique_label, label_rows.
  induction df as [|a df IH]; cbn; [tauto|].
  intros Hnd Hin. apply NoDup_cons in Hnd. destruct Hnd as [Hnotin Hnd].
  assert (Hother : forall x, In x df -> index (trade x) = index (trade a) -> False).
  { intros x Hx E. apply Hnotin. rewrite <- E. apply list_elem_of_In.
    now apply (in_map (fun r => index (trade r))). }
  destruct Hin as [->|Hin].
  - rewrite Z.eqb_refl. cbn. f_equal.
    apply length_zero_iff_nil.
    destruct (List.filter _ df) as [|x l] eqn:E; [reflexivity|].
    exfalso. assert (Hx : In x (List.filter
                                  (fun r' => index (trade r') =? index (trade r)) df))
      by (rewrite E; now left).
    apply filter_In in Hx. destruct Hx as [Hx Hl]. apply Z.eqb_eq in Hl.
    exact (Hother x Hx Hl).
  - destruct (index (trade a) =? index (trade r)) eqn:E.
    + apply Z.eqb_eq in E. exfalso. exact (Hother r Hin (eq_sym E)).
    + now apply IH.
Qed.

Lemma filter_trades_labels (df : list Trade) (bucket_freq : Z) (out : list CleanTrade) :
  NoDup (map index df) ->
  filter_trades df bucket_freq = Ok out ->
  NoDup (map (fun r => index (trade r)) out).
Proof.
  intros Hnd Hout. apply filter_trades_trades in Hout.
  rewrite <- (map_map trade index).
  eapply sublist_NoDup; [exact Hnd|]. now apply sublist_map.
Qed.

Lemma positive_sizes (rows : list CleanTrade) :
  (forall r, In r rows -> admitted (trade r) = true) ->
  Forall (fun w => cell_lt (of_Q 0) w) (sizes_of rows).
Proof.
  intros H. apply Forall_forall. intros w Hw.
  apply list_elem_of_In, in_map_iff in Hw. destruct Hw as (r & <- & Hr).
  specialize (H r Hr). apply admitted_iff in H. tauto.
Qed.

Lemma aggregate_after_filter_ok
    (np_sum : list num -> num) (trades : list Trade) (bucket_freq min_volume : Z)
    (df : list CleanTrade) :
  (forall ws, ws <> [] -> Forall (fun w => cell_lt (of_Q 0) w) ws ->
     ~ cell_eq (np_sum ws) (of_Q 0)) ->
  NoDup (map index trades) ->
  filter_trades trades bucket_freq = Ok df ->
  exists agg,
    groupby_agg np_sum df = Ok agg /\
    aggregate_curves np_sum df min_volume = Ok (curve_filter min_volume agg).
Proof.
  intros Hsum Hnd Hdf.
  assert (Hagg : exists agg, groupby_agg np_sum df = Ok agg).
  { apply for_each_total. intros k Hk. apply group_rows_nonempty in Hk.
    apply aggregate_group_returns.
    - intros r Hr. apply group_rows_In in Hr. destruct Hr as [Hr _].
      apply NoDup_label_rows; [|exact Hr].
      exact (filter_trades_labels _ _ _ Hnd Hdf).
    - apply Hsum.
      + unfold sizes_of. destruct (group_rows df k); [congruence|discriminate].
      + apply positive_sizes. intros r Hr. apply group_rows_In in Hr.
        exact (filter_trades_admitted _ _ _ _ Hdf (proj1 Hr)). }
  destruct Hagg as [agg Hagg]. exists agg. split; [exact Hagg|].
  apply aggregate_curves_ok. eauto.
Qed.

Lemma exact_sum_positive (ws : list num) :
  ws <> [] -> Forall (fun w => cell_lt (of_Q 0) w) ws ->
  cell_lt (of_Q 0) (Sample.exact_sum ws).
Proof.
  intros Hne Hpos. induction Hpos as [|w ws Hw Hpos IH]; [congruence|].
  destruct Hw as (z & x & [= <-] & -> & Hx).
  unfold Sample.exact_sum. cbn [fold_right].
  destruct ws as [|w' ws'].
  - cbn. exists 0%Q, (x + 0)%Q. repeat split. lra.
  - destruct IH as (z & s & [= <-] & Hs & Hspos); [congruence|].
    unfold Sample.exact_sum in Hs. rewrite Hs. cbn.
    exists 0%Q, (x + s)%Q. repeat split. lra.
Qed.

Lemma exact_sum_nonzero (ws : list num) :
  ws <> [] -> Forall (fun w => cell_lt (of_Q 0) w) ws ->
  ~ cell_eq (Sample.exact_sum ws) (of_Q 0).
Proof.
  intros Hne Hpos (s & z & Hs & [= <-] & Hz).
  destruct (exact_sum_positive ws Hne Hpos) as (z' & s' & [= <-] & Hs' & Hlt).
  rewrite Hs in Hs'. injection Hs' as <-. lra.
Qed.

(** X9.  [aggregate_curves] never raises on a frame that [filter_trades]
    returned from rows with distinct index labels, as [pd.read_csv] gives
    them, whatever the trades, the bucket width and the minimum volume:
    the positive sizes kept by the first mask rule out a zero weight sum,
    the sum of positive weights being positive in binary64 as well. *)
Theorem aggregate_after_filter_returns
    (np_sum : list num -> num) (trades : list Trade) (bucket_freq min_volume : Z)
    (df : list CleanTrade) :
  (forall ws, ws <> [] -> Forall (fun w => cell_lt (of_Q 0) w) ws ->
     ~ cell_eq (np_sum ws) (of_Q 0)) ->
  NoDup (map index trades) ->
  filter_trades trades bucket_freq = Ok df ->
  exists out, aggregate_curves np_sum df min_volume = Ok out.
Proof.
  intros Hsum Hnd Hdf.
  destruct (aggregate_after_filter_ok np_sum trades bucket_freq min_volume df
              Hsum Hnd Hdf) as (agg & _ & H).
  eauto.
Qed.

Lemma sample_labels : NoDup (map index Sample.trades).
Proof.
  apply NoDup_ListNoDup. repeat constructor; cbn; intuition discriminate.
Qed.

Lemma aggregate_after_filter_returns_witness :
  exists df out,
    filter_trades Sample.trades five_min = Ok df /\
    aggregate_curves Sample.exact_sum df default_min_volume = Ok out.
Proof.
  assert (H : exists df, filter_trades Sample.trades five_min = Ok df).
  { eexists. vm_compute. reflexivity. }
  destruct H as [df H].
  destruct (aggregate_after_filter_returns Sample.exact_sum Sample.trades five_min
              default_min_volume df exact_sum_nonzero sample_labels H) as [out Hout].
  exists df, out. auto.
Defined.

Lemma for_each_raises {A B : Type} (f : A -> result B) (l : list A) (e : exn) :
  for_each f l = Raise e -> exists a, In a l /\ f a = Raise e.
Proof.
  induction l as [|a l IH]; cbn; [discriminate|].
  destruct (f a) as [b|e'] eqn:Ea; cbn.
  - destruct (for_each f l) as [bs|e'']; cbn; [discriminate|].
    intros [= <-]. destruct (IH eq_refl) as (a' & Ha' & Hf). eauto.
  - intros [= <-]. eauto.
Qed.

Lemma for_each_ok_all {A B : Type} (f : A -> result B) (l : list A) (bs : list B) (a : A) :
  for_each f l = Ok bs -> In a l -> exists b, f a = Ok b.
Proof.
  intros H Ha. apply for_each_Forall2 in H.
  destruct (Forall2_In_l _ _ _ a H Ha) as (b & _ & Hb). eauto.
Qed.

(** X10.  On an arbitrary frame [aggregate_curves] raises exactly when
    some group has a row whose index label occurs on another row of the
    frame as well, or has sizes that [ndarray.sum] adds up to zero.  The
    exception is TypeError in the first case, from [np.average] on
    arrays of different lengths, and ZeroDivisionError in the second; it
    raises nothing else. *)
Theorem aggregate_curves_raises_iff
    (np_sum : list num -> num) (df : list CleanTrade) (min_volume : Z) :
  ((exists e, aggregate_curves np_sum df min_volume = Raise e) <->
   (exists k, group_rows df k <> [] /\
      ((exists r, In r (group_rows df k) /\ ~ unique_label df r) \/
       cell_eq (np_sum (sizes_of (group_rows df k))) (of_Q 0)))) /\
  (forall e, aggregate_curves np_sum df min_volume = Raise e ->
     (e = TypeError /\
      exists k r, In r (group_rows df k) /\ ~ unique_label df r) \/
     (e = ZeroDivisionError /\
      exists k, group_rows df k <> [] /\
        (forall r, In r (group_rows df k) -> unique_label df r) /\
        cell_eq (np_sum (sizes_of (group_rows df k))) (of_Q 0))).
Proof.
  assert (Hraise : forall e, aggregate_curves np_sum df min_volume = Raise e ->
            exists k, In k (group_keys df) /\ aggregate_group np_sum df k = Raise e).
  { intros e. unfold aggregate_curves, groupby_agg, bind.
    destruct (for_each _ _) as [agg|e'] eqn:E; [discriminate|].
    intros [= <-]. now apply for_each_raises. }
  split; [split|].
  - intros [e He]. destruct (Hraise e He) as (k & Hk & Hg).
    exists k. split; [now apply group_rows_nonempty|].
    apply aggregate_group_raises in Hg. destruct Hg as [(_ & H)|(_ & _ & H)]; auto.
  - intros (k & Hk & Hcase). apply group_rows_nonempty in Hk.
    unfold aggregate_curves, groupby_agg, bind.
    destruct (for_each _ _) as [agg|e] eqn:E; [|eauto].
    destruct (for_each_ok_all _ _ _ k E Hk) as [p Hp].
    apply aggregate_group_ok in Hp. destruct Hp as (_ & Hu & Hnz & _).
    exfalso. destruct Hcase as [(r & Hr & Hn)|Hz]; [exact (Hn (Hu r Hr))|exact (Hnz Hz)].
  - intros e He. destruct (Hraise e He) as (k & Hk & Hg).
    apply aggregate_group_raises in Hg.
    destruct Hg as [(-> & r & Hr & Hn)|(-> & Hu & Hz)].
    + left. split; [reflexivity|]. eauto.
    + right. split; [reflexivity|]. exists k.
      split; [now apply group_rows_nonempty|]. auto.
Qed.

(** X11.  Raising the minimum volume only removes points: every point
    returned for a larger minimum is returned for a smaller one, on the
    same frame. *)
Theorem aggregate_curves_min_volume_monotone
    (np_sum : list num -> num) (df : list CleanTrade) (low high : Z)
    (out : list Curve.point) :
  low <= high ->
  aggregate_curves np_sum df high = Ok out ->
  exists out',
    aggregate_curves np_sum df low = Ok out' /\
    forall p, In p out -> In p out'.
Proof.
  intros Hle Hout. apply aggregate_curves_ok in Hout.
  destruct Hout as (agg & Hagg & ->).
  exists (curve_filter low agg). split; [apply aggregate_curves_ok; eauto|].
  intros p Hp. apply curve_filter_In in Hp. apply curve_filter_In.
  destruct Hp as (Hin & (h & v & [= <-] & Hv & Hhv) & Hrest).
  split; [exact Hin|]. split; [|exact Hrest].
  exists (inject_Z low), v. repeat split; [exact Hv|].
  apply Qle_trans with (inject_Z high); [|exact Hhv].
  now rewrite <- Zle_Qle.
Qed.

Lemma aggregate_curves_min_volume_monotone_witness :
  exists out out',
    aggregate_curves Binary64.sum Sample.cleaned 40 = Ok out /\
    aggregate_curves Binary64.sum Sample.cleaned 2 = Ok out' /\
    forall p, In p out -> In p out'.
Proof.
  assert (H : exists out, aggregate_curves Binary64.sum Sample.cleaned 40 = Ok out).
  { eexists. vm_compute. reflexivity. }
  destruct H as [out E].
  destruct (aggregate_curves_min_volume_monotone Binary64.sum Sample.cleaned 2 40 out)
    as (out' & Hout' & Hsub); [lia|exact E|].
  exists out, out'. auto.
Defined.

Lemma otm_flag_iff (t : Trade) (c : string) (k u : Q) :
  okey_cp t = Some c -> okey_xx t = Some k -> uPrc t = Some u ->
  otm_flag t = true <->
  (c = "Put" /\ (k < u)%Q) \/ (c = "Call" /\ (u < k)%Q).
Proof.
  intros Hc Hk Hu. unfold otm_flag, gt. rewrite Hc, Hk, Hu. cbn [text_is lt].
  rewrite orb_true_iff, !andb_true_iff, !String.eqb_eq, !Qltb_lt. tauto.
Qed.

(** X12.  Every point of a curve computed by [filter_trades] and then
    [aggregate_curves] has between 1 and 60 days to expiration, a positive
    underlying price, as moneyness the binary64 quotient of its strike
    and that price, between the binary64 values of 0.80 and 1.20, and an
    OTM flag that agrees with the strict comparison of its strike with its
    underlying price. *)
Theorem pipeline_curve_invariants
    (np_sum : list num -> num) (trades : list Trade) (bucket_freq min_volume : Z)
    (df : list CleanTrade) (out : list Curve.point) (p : Curve.point) :
  filter_trades trades bucket_freq = Ok df ->
  aggregate_curves np_sum df min_volume = Ok out ->
  In p out ->
  exists n u k,
    Curve.days_to_exp p = Some n /\ 0 < n <= 60 /\
    Curve.underlying p = Some u /\ (0 < u)%Q /\
    (Curve.strike p == k)%Q /\
    Curve.moneyness p = Binary64.div (Some k) (Some u) /\
    cell_le (Binary64.lit 0.80) (Curve.moneyness p) /\
    cell_le (Curve.moneyness p) (Binary64.lit 1.20) /\
    (Curve.is_otm p = true <->
     (Curve.cp p = "Put" /\ (Curve.strike p < u)%Q) \/
     (Curve.cp p = "Call" /\ (u < Curve.strike p)%Q)).
Proof.
  intros Hdf Hout Hp. apply aggregate_curves_ok in Hout.
  destruct Hout as (agg & Hagg & ->). apply curve_filter_In in Hp.
  destruct Hp as (Hin & _ & _ & _ & (n & Hn & Hn60)).
  destruct (Forall2_In_r _ _ _ p (groupby_agg_rows np_sum df agg Hagg) Hin)
    as (key & Hkey & Hgroup).
  apply aggregate_group_ok in Hgroup.
  destruct Hgroup as (Hk & _ & _ & _ & _ & Hdte & Hund & Hmon).
  apply group_rows_nonempty in Hkey.
  destruct (group_rows df key) as [|r0 rest] eqn:Erows; [congruence|].
  assert (Hr0 : In r0 (group_rows df key)) by (rewrite Erows; now left).
  apply group_rows_In in Hr0. destruct Hr0 as [Hr0 Hkey0].
  apply (filter_trades_In _ _ _ _ Hdf) in Hr0.
  destruct Hr0 as (ref & t & _ & _ & -> & Ha & Hnear & Hd).
  apply admitted_iff in Ha. destruct Ha as (_ & _ & _ & _ & Hu).
  destruct Hu as (z & u & [= <-] & Eu & Hupos).
  apply near_the_money_iff in Hnear. destruct Hnear as [Hlo Hhi].
  apply positive_days_iff in Hd. destruct Hd as (n0 & En0 & Hn0).
  cbn [map days_to_exp moneyness trade clean] in Hdte, Hund, Hmon, En0.
  rewrite En0 in Hdte. rewrite Eu in Hund.
  assert (Ek : exists k, okey_xx t = Some k).
  { destruct Hlo as (a & m & _ & Hm & _). unfold moneyness_of in Hm.
    destruct (okey_xx t) as [k|]; [eauto|discriminate]. }
  destruct Ek as [k Ek].
  assert (Em : exists m, moneyness_of t = Some m).
  { destruct Hlo as (a & m & _ & Hm & _). eauto. }
  destruct Em as [m Em]. rewrite Em in Hmon.
  cbn in Hdte, Hund, Hmon.
  rewrite Hn in Hdte. injection Hdte as ->.
  unfold key_of in Hkey0. cbn [bucket_time trade clean is_otm] in Hkey0.
  rewrite Ek in Hkey0.
  destruct (dt_floor bucket_freq (timestamp t)) as [b|]; [|discriminate].
  destruct (expiration t) as [ex|]; [|discriminate].
  destruct (okey_cp t) as [c|] eqn:Ec; [|discriminate].
  injection Hkey0 as <-. unfold Curve.key in Hk.
  injection Hk as _ _ Hstrike Hcp Hotm.
  assert (Hs : (Curve.strike p == k)%Q) by (rewrite Hstrike; apply Qred_correct).
  assert (Hm : Curve.moneyness p = Binary64.div (Some k) (Some u)).
  { rewrite Hmon, <- Em. unfold moneyness_of. now rewrite Ek, Eu. }
  exists n0, u, k.
  split; [exact Hn|]. split; [lia|]. split; [exact Hund|]. split; [exact Hupos|].
  split; [exact Hs|]. split; [exact Hm|].
  split; [rewrite Hmon, <- Em; exact Hlo|]. split; [rewrite Hmon, <- Em; exact Hhi|].
  rewrite Hotm, Hcp, (otm_flag_iff t c k u Ec Ek Eu).
  split; (intros [[-> H]|[-> H]]; [left|right]; split; try reflexivity);
    first [now rewrite Hs | now rewrite <- Hs].
Qed.

Lemma pipeline_curve_invariants_witness :
  exists df out p n u,
    filter_trades Sample.trades five_min = Ok df /\
    aggregate_curves Binary64.sum df default_min_volume = Ok out /\
    In p out /\
    Curve.days_to_exp p = Some n /\ 0 < n <= 60 /\
    Curve.underlying p = Some u /\ (0 < u)%Q.
Proof.
  assert (Hdf : filter_trades Sample.trades five_min = Ok Sample.cleaned)
    by (vm_compute; reflexivity).
  assert (H : exists p,
             aggregate_curves Binary64.sum Sample.cleaned default_min_volume = Ok [p]).
  { eexists. vm_compute. reflexivity. }
  destruct H as (p & Hout). set (df := Sample.cleaned) in *.
  destruct (pipeline_curve_invariants Binary64.sum Sample.trades five_min
              default_min_volume df [p] p Hdf Hout)
    as (n & u & k & H1 & H2 & H3 & H4 & _); [now left|].
  exists df, [p], p, n, u. repeat split; auto; try apply H2. now left.
Defined.

(** ** When [load_trades] returns *)

Lemma for_each_length {A B : Type} (f : A -> result B) (l : list A) (bs : list B) :
  for_each f l = Ok bs -> length bs = length l.
Proof.
  intros H. apply for_each_Forall2 in H.
  induction H; cbn; congruence.
Qed.



Section LoadTradesReturns.

Variable to_datetime_text : string -> datetime.
Variable to_numeric_text : string -> num.
Variable str_of_float : Q -> string.
Variable str_of_datetime : Z -> string.
Variable to_datetime_other : list string -> result (string -> datetime).






Lemma to_datetime_raise_length (texts : list string) (exp : list datetime) :
  to_datetime_raise to_datetime_other texts = Ok exp -> length exp = length texts.
Proof.
  unfold to_datetime_raise.
  destruct (forallb Calendar.iso_shaped texts); [apply for_each_length|].
  unfold bind. destruct (to_datetime_other texts) as [read|e]; [|discriminate].
  intros [= <-]. apply length_map.
Qed.

End LoadTradesReturns.



(** ** Row alignment in [load_trades] *)

Lemma select_length {A : Type} (mask : list bool) (cells : list A) :
  length mask = length cells ->
  length (select mask cells) = length (List.filter (fun b : bool => b) mask).
Proof.
  revert cells. induction mask as [|b mask IH]; intros [|c cells] H;
    try discriminate H; [reflexivity|].
  cbn in H. injection H as H. cbn. destruct b; cbn; now rewrite IH.
Qed.

Lemma eq_text_length (col : Column) (text : string) :
  length (eq_text col text) = column_length col.
Proof. destruct col; cbn; apply length_map. Qed.

Lemma select_column_length (mask : list bool) (col : Column) :
  length mask = column_length col ->
  column_length (select_column mask col) =
  length (List.filter (fun b : bool => b) mask).
Proof. destruct col; cbn; apply select_length. Qed.

Lemma filter_length_bound (mask : list bool) :
  (length (List.filter (fun b : bool => b) mask) <= length mask)%nat.
Proof. apply filter_length_le. Qed.

Lemma uniform_insert (n : nat) (df : DataFrame) (name : string) (col : Column) :
  uniform n df -> column_length col = n -> uniform n (<[name := col]> df).
Proof.
  intros Hdf Hcol name' col' H.
  destruct (decide (name = name')) as [->|Hne].
  - rewrite lookup_insert_eq in H. now injection H as <-.
  - rewrite lookup_insert_ne in H by assumption. now apply (Hdf name').
Qed.

Lemma date_texts_length (yr mn dy : list string) (m : nat) :
  length yr = m -> length mn = m -> length dy = m ->
  length (date_texts yr mn dy) = m.
Proof.
  revert mn dy m. induction yr as [|y yr IH]; intros [|a mn] [|b dy] m;
    cbn; intros; subst; try discriminate; try reflexivity.
  f_equal. apply IH; congruence.
Qed.

Section Alignment.

Variable to_datetime_text : string -> datetime.
Variable to_numeric_text : string -> num.
Variable str_of_float : Q -> string.
Variable str_of_datetime : Z -> string.

Lemma to_numeric_length (col : Column) :
  column_length (to_numeric to_numeric_text col) = column_length col.
Proof. destruct col; cbn; try reflexivity; apply length_map. Qed.

Lemma astype_str_length (col : Column) :
  length (astype_str str_of_float str_of_datetime col) = column_length col.
Proof. destruct col; cbn; apply length_map. Qed.

Lemma coerce_columns_uniform (n : nat) (names : list string) (df : DataFrame) :
  uniform n df -> uniform n (foldl (coerce_column to_numeric_text) df names).
Proof.
  revert df. induction names as [|name names IH]; intros df H; [exact H|].
  cbn [foldl]. apply IH. unfold coerce_column.
  destruct (df !! name) as [col|] eqn:E; [|exact H].
  apply uniform_insert; [exact H|].
  rewrite to_numeric_length. now apply (H name).
Qed.

Lemma coerced_uniform (n : nat) (df pre : DataFrame) :
  uniform n df ->
  coerced to_datetime_text to_numeric_text df = Ok pre ->
  uniform n pre.
Proof.
  intros Hdf. unfold coerced, bind, getitem.
  set (c := if bool_decide (is_Some (df !! "timestamp"))
            then "timestamp" else "prtTimestamp").
  destruct (df !! c) as [[cells| | |]|] eqn:E; cbn [str_replace];
    try discriminate.
  intros [= <-]. apply (coerce_columns_uniform n numeric_columns).
  apply uniform_insert; [exact Hdf|].
  cbn. unfold minus_hours, to_datetime_coerce. rewrite !length_map.
  apply (Hdf c _ E).
Qed.

End Alignment.

(** X15.  [load_trades] keeps the rows aligned: when all columns of the
    input have the same number of rows, all columns of the result,
    timestamp and expiration included, have the same number of rows, the
    number of rows whose ticker is SPY (or all rows when there is no
    ticker column). *)
Theorem load_trades_keeps_alignment
    (to_datetime_text : string -> datetime) (to_numeric_text : string -> num)
    (str_of_float : Q -> string) (str_of_datetime : Z -> string)
    (to_datetime_other : list string -> result (string -> datetime))
    (n : nat) (df out : DataFrame) :
  uniform n df ->
  load_trades to_datetime_text to_numeric_text str_of_float str_of_datetime
    to_datetime_other df = Ok out ->
  uniform (kept_rows n df) out /\ (kept_rows n df <= n)%nat.
Proof.
  intros Hdf Hout. apply load_trades_ok in Hout.
  destruct Hout as (pre & yr & mn & dy & exp & Hpre & Hyr & Hmn & Hdy & Hexp & ->).
  pose proof (coerced_uniform _ _ n df pre Hdf Hpre) as Hun.
  assert (Htk : pre !! "ticker_tk" = df !! "ticker_tk").
  { apply (coerced_lookup _ _ _ _ _ Hpre); [discriminate|apply plain_columns]. }
  assert (Hres : uniform (kept_rows n df) (restrict_ticker pre)).
  { unfold restrict_ticker, kept_rows. rewrite Htk.
    destruct (df !! "ticker_tk") as [tk|] eqn:Etk; [|exact Hun].
    intros name col. unfold select_rows. rewrite lookup_fmap.
    destruct (pre !! name) as [col0|] eqn:E; [|discriminate].
    intros [= <-]. apply select_column_length.
    rewrite eq_text_length, (Hdf _ _ Etk). symmetry. apply (Hun _ _ E). }
  split.
  - apply uniform_insert; [exact Hres|]. cbn.
    rewrite (to_datetime_raise_length _ _ _ Hexp).
    apply date_texts_length; rewrite astype_str_length.
    + apply (Hres _ _ Hyr).
    + apply (Hres _ _ Hmn).
    + apply (Hres _ _ Hdy).
  - unfold kept_rows. destruct (df !! "ticker_tk") as [tk|] eqn:Etk; [|lia].
    rewrite <- (Hdf _ _ Etk), <- (eq_text_length tk "SPY").
    apply filter_length_bound.
Qed.

Lemma load_trades_keeps_alignment_witness :
  exists out,
    load_trades (fun _ => None) (fun _ => None) (fun _ => "") (fun _ => "")
      Sample.no_other (Sample.frame 12 15) = Ok out /\
    uniform 1 out.
Proof.
  assert (Hdf : uniform 1 (Sample.frame 12 15)).
  { intros name col. unfold Sample.frame.
    repeat (rewrite lookup_insert;
            destruct (decide (_ = name)); [now intros [= <-]|]).
    rewrite lookup_empty. discriminate. }
  assert (Hok : match load_trades (fun _ => None) (fun _ => None)
                        (fun _ => "") (fun _ => "") Sample.no_other
                        (Sample.frame 12 15) with
                | Ok _ => true
                | Raise _ => false
                end = true) by (vm_compute; reflexivity).
  destruct (load_trades (fun _ => None) (fun _ => None) (fun _ => "") (fun _ => "")
              Sample.no_other (Sample.frame 12 15)) as [out|e] eqn:E;
    [|discriminate Hok].
  exists out. split; [reflexivity|].
  exact (proj1 (load_trades_keeps_alignment _ _ _ _ _ 1 _ out Hdf E)).
Defined.

(** ** Dates that parse *)

Lemma zrange_In (lo : Z) (n : nat) (v : Z) :
  lo <= v < lo + Z.of_nat n -> In v (zrange lo n).
Proof.
  intros H. unfold zrange. apply in_map_iff.
  exists (Z.to_nat (v - lo)). split; [lia|]. apply in_seq. lia.
Qed.

Lemma forallb_zrange (f : Z -> bool) (lo : Z) (n : nat) (v : Z) :
  forallb f (zrange lo n) = true -> lo <= v < lo + Z.of_nat n -> f v = true.
Proof.
  intros H Hv. rewrite forallb_forall in H. now apply H, zrange_In.
Qed.

Lemma years_four_digits : forallb four_digits_ok (zrange 1678 584) = true.
Proof. vm_compute. reflexivity. Qed.

Lemma days_two_digits : forallb two_digits_ok (zrange 1 31) = true.
Proof. vm_compute. reflexivity. Qed.

Lemma years_in_bounds : forallb year_in_bounds (zrange 1678 584) = true.
Proof. vm_compute. reflexivity. Qed.

Lemma valid_date_ranges (y m d : Z) :
  Calendar.valid_date y m d = true -> 1 <= m <= 12 /\ 1 <= d <= 31.
Proof.
  unfold Calendar.valid_date, Calendar.days_in_month.
  rewrite !andb_true_iff, !Z.leb_le.
  destruct (m =? 2); [destruct (Calendar.is_leap y)|
                      destruct ((m =? 4) || (m =? 6) || (m =? 9) || (m =? 11))];
    lia.
Qed.

Lemma fields_of_date_text (y m d : Z) :
  four_digits_ok y = true -> two_digits_ok m = true -> two_digits_ok d = true ->
  Calendar.fields_of (date_text y m d) = Some (y, m, d).
Proof.
  unfold four_digits_ok, two_digits_ok, date_text.
  destruct (str_of_int y) as [|a [|b [|c [|e [|? ?]]]]]; try discriminate.
  destruct (Calendar.two_digits a b) as [h|] eqn:Eh; [|discriminate].
  destruct (Calendar.two_digits c e) as [l|] eqn:El; [|discriminate].
  intros Hy.
  destruct (zfill 2 (str_of_int m)) as [|m1 [|m2 [|? ?]]]; try discriminate.
  destruct (Calendar.two_digits m1 m2) as [mv|] eqn:Em; [|discriminate].
  intros Hm.
  destruct (zfill 2 (str_of_int d)) as [|d1 [|d2 [|? ?]]]; try discriminate.
  destruct (Calendar.two_digits d1 d2) as [dv|] eqn:Ed; [|discriminate].
  intros Hd.
  apply Z.eqb_eq in Hy, Hm, Hd. subst.
  cbv -[Calendar.two_digits Z.mul Z.add]. now rewrite Eh, El, Em, Ed.
Qed.

(** X16.  A year between 1678 and 2261 with a month and a day that form
    a calendar date gives a text that parses to midnight of that date:
    the composition of the text and its parsing by [load_trades] is the
    date itself. *)
Theorem valid_date_parses (y m d : Z) :
  1678 <= y <= 2261 ->
  Calendar.valid_date y m d = true ->
  Calendar.parse_date (date_text y m d) =
  Some (Calendar.days_from_civil y m d * ns_per_day).
Proof.
  intros Hy Hvalid.
  destruct (valid_date_ranges y m d Hvalid) as [Hm Hd].
  unfold Calendar.parse_date.
  rewrite fields_of_date_text.
  - rewrite Hvalid.
    pose proof (forallb_zrange _ _ _ y years_in_bounds ltac:(lia)) as Hb.
    unfold year_in_bounds in Hb.
    pose proof (forallb_zrange _ _ _ m Hb ltac:(lia)) as Hb'.
    cbn beta in Hb'.
    pose proof (forallb_zrange _ _ _ d Hb' ltac:(lia)) as Hb''.
    cbn beta in Hb''. rewrite Hvalid in Hb''. cbn [implb] in Hb''.
    apply Z.leb_le in Hb''.
    assert (Hin : Calendar.in_bounds
                    (Calendar.days_from_civil y m d * ns_per_day) = true).
    { unfold Calendar.in_bounds. apply andb_true_iff.
      rewrite !Z.ltb_lt.
      change ns_per_day with 86400000000000.
      change (2 ^ 63) with 9223372036854775808. lia. }
    now rewrite Hin.
  - apply (forallb_zrange _ _ _ y years_four_digits). lia.
  - apply (forallb_zrange _ _ _ m days_two_digits). lia.
  - apply (forallb_zrange _ _ _ d days_two_digits). lia.
Qed.

Lemma valid_date_parses_witness :
  Calendar.parse_date (date_text 2023 12 15) = Some Sample.expiry.
Proof.
  rewrite (valid_date_parses 2023 12 15); [reflexivity|lia|reflexivity].
Defined.

(** ** [build_price_chart] *)

Lemma q_max_bounds (a b : Q) : (a <= q_max a b)%Q /\ (b <= q_max a b)%Q.
Proof.
  unfold q_max. destruct (Qle_bool a b) eqn:E.
  - apply Qle_bool_iff in E. split; [exact E|apply Qle_refl].
  - split; [apply Qle_refl|].
    apply Qlt_le_weak, Qnot_le_lt. intros H. apply Qle_bool_iff in H. congruence.
Qed.

Lemma q_min_bounds (a b : Q) : (q_min a b <= a)%Q /\ (q_min a b <= b)%Q.
Proof.
  unfold q_min. destruct (Qle_bool a b) eqn:E.
  - apply Qle_bool_iff in E. split; [apply Qle_refl|exact E].
  - split; [|apply Qle_refl].
    apply Qlt_le_weak, Qnot_le_lt. intros H. apply Qle_bool_iff in H. congruence.
Qed.

Lemma fold_max_bounds (qs : list Q) (q : Q) :
  (q <= fold_left q_max qs q)%Q /\
  (forall x, In x qs -> (x <= fold_left q_max qs q)%Q).
Proof.
  revert q. induction qs as [|y qs IH]; intros q; cbn.
  - split; [apply Qle_refl|tauto].
  - destruct (IH (q_max q y)) as [H1 H2].
    destruct (q_max_bounds q y) as [Hq Hy]. split.
    + eapply Qle_trans; eassumption.
    + intros x [<-|Hx]; [eapply Qle_trans; eassumption|auto].
Qed.

Lemma fold_min_bounds (qs : list Q) (q : Q) :
  (fold_left q_min qs q <= q)%Q /\
  (forall x, In x qs -> (fold_left q_min qs q <= x)%Q).
Proof.
  revert q. induction qs as [|y qs IH]; intros q; cbn.
  - split; [apply Qle_refl|tauto].
  - destruct (IH (q_min q y)) as [H1 H2].
    destruct (q_min_bounds q y) as [Hq Hy]. split.
    + eapply Qle_trans; eassumption.
    + intros x [<-|Hx]; [eapply Qle_trans; eassumption|auto].
Qed.

Lemma group_extremes (xs : list num) (x : Q) :
  In (Some x) xs ->
  exists h l,
    group_max xs = Some h /\ group_min xs = Some l /\
    (l <= x)%Q /\ (x <= h)%Q.
Proof.
  intros Hx. unfold group_max, group_min.
  assert (Hin : In x (omap id xs)).
  { apply list_elem_of_In, list_elem_of_omap. exists (Some x).
    split; [now apply list_elem_of_In|reflexivity]. }
  destruct (omap id xs) as [|q qs]; [destruct Hin|].
  eexists _, _. split; [reflexivity|]. split; [reflexivity|].
  destruct (fold_max_bounds qs q) as [M1 M2].
  destruct (fold_min_bounds qs q) as [m1 m2].
  destruct Hin as [<-|Hin]; auto.
Qed.

Lemma group_first_In {A : Type} (xs : list (option A)) (x : A) :
  group_first xs = Some x -> In (Some x) xs.
Proof.
  unfold group_first. intros H.
  assert (Hin : x ∈ omap id xs).
  { destruct (omap id xs) as [|y ys]; [discriminate|].
    injection H as <-. left. }
  apply list_elem_of_omap in Hin. destruct Hin as (c & Hc & E).
  cbn in E. subst c. now apply list_elem_of_In.
Qed.

Lemma group_last_In {A : Type} (xs : list (option A)) (x : A) :
  group_last xs = Some x -> In (Some x) xs.
Proof.
  unfold group_last. intros H.
  assert (Hin : x ∈ omap id xs) by now apply last_Some_elem_of.
  apply list_elem_of_omap in Hin. destruct Hin as (c & Hc & E).
  cbn in E. subst c. now apply list_elem_of_In.
Qed.

Lemma ohlc_In (df : list CleanTrade) (c : Chart.candle) :
  In c (ohlc df) ->
  In (Chart.time c) (bucket_times df) /\
  Chart.open c = group_first (bucket_prices df (Chart.time c)) /\
  Chart.high c = group_max (bucket_prices df (Chart.time c)) /\
  Chart.low c = group_min (bucket_prices df (Chart.time c)) /\
  Chart.close c = group_last (bucket_prices df (Chart.time c)).
Proof.
  unfold ohlc. rewrite in_map_iff. intros (bt & <- & Hbt). cbn. auto.
Qed.

(** X17.  In every row of the OHLC frame the low is at most the open and
    the close, and these are at most the high, whenever the bucket has an
    underlying price at all; each underlying price of the bucket lies
    between the low and the high. *)
Theorem ohlc_ordered (df : list CleanTrade) (c : Chart.candle) (x : Q) :
  In c (ohlc df) ->
  In (Some x) (bucket_prices df (Chart.time c)) ->
  exists o h l cl,
    Chart.open c = Some o /\ Chart.high c = Some h /\
    Chart.low c = Some l /\ Chart.close c = Some cl /\
    (l <= o)%Q /\ (o <= h)%Q /\ (l <= cl)%Q /\ (cl <= h)%Q /\
    (l <= x)%Q /\ (x <= h)%Q.
Proof.
  intros Hc Hx. apply ohlc_In in Hc.
  destruct Hc as (_ & Ho & Hh & Hl & Hcl).
  set (prices := bucket_prices df (Chart.time c)) in *.
  destruct (group_extremes prices x Hx) as (h & l & Eh & El & Hlx & Hxh).
  assert (Hne : omap id prices <> []).
  { intros E. unfold group_max in Eh. rewrite E in Eh. discriminate. }
  assert (Hfirst : exists o, group_first prices = Some o).
  { unfold group_first. destruct (omap id prices); [congruence|cbn; eauto]. }
  assert (Hlast : exists cl, group_last prices = Some cl).
  { unfold group_last. destruct (last (omap id prices)) eqn:E; [eauto|].
    apply last_None in E. congruence. }
  destruct Hfirst as [o Eo]. destruct Hlast as [cl Ecl].
  destruct (group_extremes prices o (group_first_In _ _ Eo))
    as (h1 & l1 & Eh1 & El1 & Hlo & Hoh).
  destruct (group_extremes prices cl (group_last_In _ _ Ecl))
    as (h2 & l2 & Eh2 & El2 & Hlc & Hch).
  rewrite Eh in Eh1, Eh2. rewrite El in El1, El2.
  injection Eh1 as <-. injection Eh2 as <-.
  injection El1 as <-. injection El2 as <-.
  exists o, h, l, cl. rewrite Ho, Hh, Hl, Hcl. repeat split; assumption.
Qed.

Lemma ohlc_ordered_witness :
  exists c o h l cl,
    In c (ohlc Sample.cleaned) /\
    Chart.open c = Some o /\ Chart.high c = Some h /\
    Chart.low c = Some l /\ Chart.close c = Some cl /\
    (l <= o)%Q /\ (o <= h)%Q.
Proof.
  destruct (ohlc Sample.cleaned) as [|c cs] eqn:E; [vm_compute in E; discriminate|].
  assert (Hc : In c (ohlc Sample.cleaned)) by (rewrite E; now left).
  assert (Ht : Chart.time c = Sample.bucket).
  { vm_compute in E. injection E as <- _. reflexivity. }
  destruct (ohlc_ordered Sample.cleaned c 446 Hc)
    as (o & h & l & cl & H1 & H2 & H3 & H4 & H5 & H6 & _).
  - rewrite Ht. vm_compute. left. reflexivity.
  - exists c, o, h, l, cl. repeat split; try assumption. now left.
Defined.

(** X18.  The price figure has one candle for each bucket time that
    occurs in the frame and no other, in strictly ascending order of
    time, and its five series have the same length. *)
Theorem price_chart_candles (df : list CleanTrade) (freq : string)
    (x : list Z) (o h l c : list num) :
  build_price_chart df freq = Candlestick x o h l c ->
  StronglySorted Z.lt x /\
  (forall bt, In bt x <-> exists r, In r df /\ bucket_time r = Some bt) /\
  length o = length x /\ length h = length x /\
  length l = length x /\ length c = length x.
Proof.
  unfold build_price_chart. intros [= <- <- <- <- <-].
  assert (Ht : map Chart.time (ohlc df) = bucket_times df).
  { unfold ohlc. rewrite map_map. cbn. apply map_id. }
  rewrite Ht, !length_map. unfold ohlc. rewrite length_map.
  repeat split; try reflexivity.
  - apply sorted_unique_increasing.
  - unfold bucket_times. rewrite sorted_unique_In, <- list_elem_of_In.
    rewrite list_elem_of_omap. intros (r & Hr & E). exists r.
    split; [now apply list_elem_of_In|exact E].
  - intros (r & Hr & E). unfold bucket_times.
    rewrite sorted_unique_In, <- list_elem_of_In, list_elem_of_omap.
    exists r. split; [now apply list_elem_of_In|exact E].
Qed.

Lemma price_chart_candles_witness :
  exists x o h l c,
    build_price_chart Sample.cleaned "5min" = Candlestick x o h l c /\
    StronglySorted Z.lt x /\ length o = length x.
Proof.
  destruct (build_price_chart Sample.cleaned "5min") as [x o h l c] eqn:E.
  exists x, o, h, l, c. split; [reflexivity|].
  destruct (price_chart_candles Sample.cleaned "5min" x o h l c E)
    as (H1 & _ & H2 & _). auto.
Defined.

(** ** [run] *)




(** ** [download_date_range] *)

Module DownloadFacts.

Import Download.

Section Session.

Variable strftime : Z -> string.
Variable fetch : string -> string -> outcome.
Variable ticker : string.

Local Notation step := (Download.step ticker).

Lemma visit_step (w : world) (current : Z) :
  exists evs,
    step w (visit strftime fetch ticker w current) evs /\
    length (printed evs) = 1%nat.
Proof.
  unfold visit.
  set (d := strftime current). set (f := filename_of d ticker).
  destruct (bool_decide (f ∈ files w)) eqn:E.
  - exists [Printed (SkipExists f)]. split; [|reflexivity].
    constructor; cbn; try tauto; try set_solver. constructor.
  - apply bool_decide_eq_false in E.
    destruct (fetch d ticker) as [n|reason].
    + destruct (0 <? n)%nat.
      * exists [Queried d ticker; Wrote f n; Printed (Saved f n)].
        split; [|reflexivity].
        constructor; cbn.
        -- now rewrite <- !app_assoc.
        -- set_solver.
        -- now intros f' [<-|[]].
        -- apply NoDup_singleton.
        -- now intros d' t' [[= <- <-]|[]].
        -- intuition discriminate.
      * exists [Queried d ticker; Printed (SkipNoData d)].
        split; [|reflexivity].
        constructor; cbn.
        -- now rewrite <- !app_assoc.
        -- set_solver.
        -- tauto.
        -- constructor.
        -- now intros d' t' [[= <- <-]|[]].
        -- intuition discriminate.
    + exists [Queried d ticker; Printed (Error d reason)].
      split; [|reflexivity].
      constructor; cbn.
      * now rewrite <- !app_assoc.
      * set_solver.
      * tauto.
      * constructor.
      * now intros d' t' [[= <- <-]|[]].
      * intuition discriminate.
Qed.

Lemma written_app (a b : list event) :
  written (a ++ b) = (written a ++ written b)%list.
Proof. unfold written. apply omap_app. Qed.

Lemma printed_app (a b : list event) :
  printed (a ++ b) = (printed a ++ printed b)%list.
Proof. unfold printed. apply omap_app. Qed.

Lemma queried_app (a b : list event) :
  queried (a ++ b) = (queried a ++ queried b)%list.
Proof. unfold queried. apply omap_app. Qed.

Lemma step_compose (w1 w2 w3 : world) (a b : list event) :
  step w1 w2 a -> step w2 w3 b -> step w1 w3 (a ++ b).
Proof.
  intros [T1 F1 N1 D1 Q1 O1] [T2 F2 N2 D2 Q2 O2].
  assert (Hgrow : forall f, f ∈ files w1 -> f ∈ files w2) by (rewrite F1; set_solver).
  constructor.
  - rewrite T2, T1. now rewrite app_assoc.
  - rewrite F2, F1, written_app, list_to_set_app_L. set_solver.
  - intros f. rewrite written_app, in_app_iff. intros [H|H]; [auto|].
    intros Hf. now apply (N2 f H), Hgrow.
  - rewrite written_app. apply NoDup_app. split; [exact D1|]. split; [|exact D2].
    intros f Hf Hf'. apply list_elem_of_In in Hf'. apply (N2 f Hf').
    rewrite F1. apply elem_of_union. right.
    now apply elem_of_list_to_set.
  - intros d t. rewrite queried_app, in_app_iff. intros [H|H]; [auto|].
    destruct (Q2 d t H) as [Ht Hf]. split; [exact Ht|].
    intros Hin. now apply Hf, Hgrow.
  - rewrite !in_app_iff. tauto.
Qed.

Lemma step_refl (w : world) : step w w [].
Proof.
  constructor; cbn; try tauto; try set_solver.
  - now rewrite app_nil_r.
  - constructor.
Qed.

(** The loop either passes over all the days, each before the last day of
    the calendar, and closes the connection, or ends at the first day
    that is the last of the calendar, after the pass for that day. *)
Lemma visits_steps (ds : list Z) (w w' : world) (res : option failure) :
  visits strftime fetch ticker ds w = (w', res) ->
  exists wb body,
    step w wb body /\
    (res = None /\ w' = emit Closed wb /\
     length (printed body) = length ds /\
     Forall (fun d => d < max_day) ds \/
     res = Some OverflowError /\ w' = wb /\
     exists before d after,
       ds = (before ++ d :: after)%list /\
       Forall (fun d => d < max_day) before /\ max_day <= d /\
       length (printed body) = S (length before)).
Proof.
  revert w. induction ds as [|d ds IH]; intros w; cbn [visits].
  - intros [= <- <-]. exists w, []. split; [apply step_refl|].
    left. repeat split. constructor.
  - destruct (visit_step w d) as (a & Ha & La).
    destruct (max_day <=? d) eqn:Ed.
    + intros [= <- <-]. apply Z.leb_le in Ed.
      exists (visit strftime fetch ticker w d), a. split; [exact Ha|].
      right. repeat split. exists [], d, ds. repeat split; auto.
    + intros H. apply Z.leb_gt in Ed.
      destruct (IH _ H) as (wb & b & Hb & Hcase).
      exists wb, (a ++ b)%list. split; [exact (step_compose _ _ _ _ _ Ha Hb)|].
      rewrite printed_app, length_app, La.
      destruct Hcase as [(-> & -> & Lb & Hall)|
                         (-> & -> & before & d' & after & -> & Hall & Hd & Lb)].
      * left. repeat split; [cbn; now rewrite Lb|now constructor].
      * right. repeat split. exists (d :: before), d', after.
        repeat split; [now constructor|exact Hd|cbn; now rewrite Lb].
Qed.

End Session.

End DownloadFacts.

Lemma days_In (first last d : Z) :
  In d (Download.days first last) -> first <= d <= last.
Proof.
  unfold Download.days, zrange. rewrite in_map_iff.
  intros (i & <- & Hi). apply in_seq in Hi. lia.
Qed.

Lemma days_length (first last : Z) :
  length (Download.days first last) = Z.to_nat (last - first + 1).
Proof. unfold Download.days, zrange. now rewrite length_map, length_seq. Qed.

Lemma zrange_cons (lo : Z) (n : nat) :
  zrange lo (S n) = lo :: zrange (lo + 1) n.
Proof.
  unfold zrange. cbn [seq map]. f_equal; [lia|].
  rewrite <- seq_shift, map_map. apply map_ext. intros i. lia.
Qed.

Lemma download_trace
    (connect : option (string -> string -> Download.outcome))
    (strptime : string -> option Z) (strftime : Z -> string)
    (start_date end_date ticker : string) (w0 w : Download.world)
    (res : option Download.failure) :
  Download.download_date_range connect strptime strftime
    start_date end_date ticker w0 = (w, res) ->
  (connect = None /\ w = w0 /\ res = Some Download.ConnectionError) \/
  (exists fetch text,
     connect = Some fetch /\ res = Some (Download.BadDate text) /\
     (strptime start_date = None /\ text = start_date \/
      strptime end_date = None /\ text = end_date) /\
     w = Download.emit Download.Connected w0) \/
  (exists fetch first last wb body,
     connect = Some fetch /\
     strptime start_date = Some first /\ strptime end_date = Some last /\
     Download.step ticker (Download.emit Download.Connected w0) wb body /\
     (res = None /\ w = Download.emit Download.Closed wb /\
      length (Download.printed body) = length (Download.days first last) /\
      Forall (fun d => d < Download.max_day) (Download.days first last) \/
      res = Some Download.OverflowError /\ w = wb /\
      exists before d after,
        Download.days first last = (before ++ d :: after)%list /\
        Forall (fun d => d < Download.max_day) before /\ Download.max_day <= d /\
        length (Download.printed body) = S (length before))).
Proof.
  unfold Download.download_date_range.
  destruct connect as [fetch|]; [|intros [= <- <-]; auto].
  destruct (strptime start_date) as [first|] eqn:Es.
  2:{ intros [= <- <-]. right. left. exists fetch, start_date. auto 10. }
  destruct (strptime end_date) as [last|] eqn:Ee.
  2:{ intros [= <- <-]. right. left. exists fetch, end_date. auto 10. }
  intros H. right. right.
  destruct (DownloadFacts.visits_steps strftime fetch ticker _ _ _ _ H)
    as (wb & body & Hstep & Hcase).
  exists fetch, first, last, wb, body. auto 10.
Qed.

Lemma written_frame (body : list Download.event) :
  Download.written (Download.Connected :: body ++ [Download.Closed]) =
  Download.written body.
Proof.
  unfold Download.written. cbn. rewrite omap_app. cbn. apply app_nil_r.
Qed.

Lemma queried_frame (body : list Download.event) :
  Download.queried (Download.Connected :: body ++ [Download.Closed]) =
  Download.queried body.
Proof.
  unfold Download.queried. cbn. rewrite omap_app. cbn. apply app_nil_r.
Qed.

(** X20.  [download_date_range] never writes over a file: every file it
    writes was absent when it started, no file is written twice, the
    files at the end are the files at the start and those written, and a
    date is queried only when its file was absent at the start. *)
Theorem download_never_overwrites
    (connect : option (string -> string -> Download.outcome))
    (strptime : string -> option Z) (strftime : Z -> string)
    (start_date end_date ticker : string) (w0 w : Download.world)
    (res : option Download.failure) :
  Download.download_date_range connect strptime strftime
    start_date end_date ticker w0 = (w, res) ->
  exists new,
    Download.trace w = (Download.trace w0 ++ new)%list /\
    NoDup (Download.written new) /\
    (forall f, In f (Download.written new) -> f ∉ Download.files w0) /\
    Download.files w = Download.files w0 ∪ list_to_set (Download.written new) /\
    (forall d t, In (d, t) (Download.queried new) ->
       t = ticker /\ Download.filename_of d t ∉ Download.files w0).
Proof.
  intros H. apply download_trace in H.
  destruct H as [(_ & -> & _)|[(fetch & text & _ & _ & _ & ->)|
                 (fetch & first & last & wb & body & _ & _ & _ & Hstep & Hcase)]].
  - exists []. cbn. rewrite app_nil_r.
    split; [|split; [|split; [|split]]]; try tauto; try set_solver.
    constructor.
  - exists [Download.Connected]. cbn.
    split; [|split; [|split; [|split]]]; try tauto; try set_solver.
    constructor.
  - destruct Hstep as [T F N D Q O].
    destruct Hcase as [(_ & -> & _)|(_ & -> & _)].
    + exists (Download.Connected :: body ++ [Download.Closed])%list.
      rewrite written_frame, queried_frame. cbn in *.
      split; [|split; [|split; [|split]]]; try assumption.
      rewrite T. cbn. now rewrite <- !app_assoc.
    + exists (Download.Connected :: body)%list.
      change (Download.written (Download.Connected :: body))
        with (Download.written body).
      change (Download.queried (Download.Connected :: body))
        with (Download.queried body).
      cbn in *.
      split; [|split; [|split; [|split]]]; try assumption.
      rewrite T. cbn. now rewrite <- !app_assoc.
Qed.

Lemma download_never_overwrites_witness :
  exists w,
    Download.download_date_range (Some (fun _ _ => Download.Rows 3))
      (fun s => if String.eqb s "a" then Some 1 else Some 3) str_of_int
      "a" "b" "SPY"
      {| Download.files := {[ "Opratrade_2_SPY.csv" ]}; Download.trace := [] |}
      = (w, None) /\
    exists new,
      Download.trace w = new /\
      NoDup (Download.written new) /\
      (forall f, In f (Download.written new) -> f <> "Opratrade_2_SPY.csv").
Proof.
  eexists. split; [reflexivity|].
  destruct (download_never_overwrites (Some (fun _ _ => Download.Rows 3))
              (fun s => if String.eqb s "a" then Some 1 else Some 3) str_of_int
              "a" "b" "SPY"
              {| Download.files := {[ "Opratrade_2_SPY.csv" ]}; Download.trace := [] |}
              _ _ eq_refl) as (new & Ht & Hn & Hf & _).
  exists new. split; [exact Ht|]. split; [exact Hn|].
  intros f Hin ->. apply (Hf _ Hin). cbn. set_solver.
Defined.

(** X21.  When the connection opens, both dates parse and the end date
    is before 9999-12-31, [download_date_range] returns normally: between
    connecting and closing it prints exactly one message for each day from
    the start date to the end date, so a failing query or an empty result
    for one day does not stop the loop, and it closes the connection once,
    at the end. *)
Theorem download_visits_every_day
    (strptime : string -> option Z) (strftime : Z -> string)
    (fetch : string -> string -> Download.outcome)
    (start_date end_date ticker : string) (first last : Z)
    (w0 w : Download.world) (res : option Download.failure) :
  strptime start_date = Some first ->
  strptime end_date = Some last ->
  last < Download.max_day ->
  Download.download_date_range (Some fetch) strptime strftime
    start_date end_date ticker w0 = (w, res) ->
  res = None /\
  exists body,
    Download.trace w =
      (Download.trace w0 ++ Download.Connected :: body ++ [Download.Closed])%list /\
    length (Download.printed body) = Z.to_nat (last - first + 1) /\
    ~ In Download.Closed body /\ ~ In Download.Connected body.
Proof.
  intros Hs He Hlast H. apply download_trace in H.
  destruct H as [(Hc & _)|[(f & text & _ & _ & [[Hn _]|[Hn _]] & _)|
                 (f & a & b & wb & body & _ & Ha & Hb & Hstep & Hcase)]];
    try congruence.
  rewrite Hs in Ha. rewrite He in Hb. injection Ha as <-. injection Hb as <-.
  destruct Hcase as [(-> & -> & Hlen & _)|(_ & _ & before & d & after & Hd & _ & Hmax & _)].
  - split; [reflexivity|]. exists body.
    destruct Hstep as [T F N D Q [O1 O2]]. repeat split; try assumption.
    + cbn. rewrite T. cbn. now rewrite <- !app_assoc.
    + now rewrite Hlen, days_length.
  - exfalso. assert (Hin : In d (Download.days first last))
      by (rewrite Hd; apply in_elt).
    apply days_In in Hin. lia.
Qed.

Lemma download_visits_every_day_witness :
  exists w body,
    Download.download_date_range (Some (fun _ _ => Download.Fails "down"))
      (fun s => if String.eqb s "a" then Some 1 else Some 3) str_of_int
      "a" "b" "SPY" {| Download.files := ∅; Download.trace := [] |} = (w, None) /\
    Download.trace w = (Download.Connected :: body ++ [Download.Closed])%list /\
    length (Download.printed body) = 3%nat.
Proof.
  destruct (Download.download_date_range (Some (fun _ _ => Download.Fails "down"))
              (fun s => if String.eqb s "a" then Some 1 else Some 3) str_of_int
              "a" "b" "SPY" {| Download.files := ∅; Download.trace := [] |})
    as [w res] eqn:E.
  destruct (download_visits_every_day _ _ _ "a" "b" "SPY" 1 3 _ w res
              eq_refl eq_refl eq_refl E) as (-> & body & Ht & Hl & _).
  exists w, body. auto.
Defined.

(** X22.  When the connection opens and the start date or the end date
    does not parse, [download_date_range] raises ValueError for the first
    bad date with the connection still open: nothing is queried or
    written, and the trace gains the connection but no close. *)
Theorem download_bad_date_leaves_connection_open
    (strptime : string -> option Z) (strftime : Z -> string)
    (fetch : string -> string -> Download.outcome)
    (start_date end_date ticker : string)
    (w0 w : Download.world) (res : option Download.failure) :
  strptime start_date = None \/ strptime end_date = None ->
  Download.download_date_range (Some fetch) strptime strftime
    start_date end_date ticker w0 = (w, res) ->
  (res = Some (Download.BadDate start_date) \/
   res = Some (Download.BadDate end_date) /\ is_Some (strptime start_date)) /\
  Download.trace w = (Download.trace w0 ++ [Download.Connected])%list /\
  Download.files w = Download.files w0.
Proof.
  intros Hbad. unfold Download.download_date_range.
  destruct (strptime start_date) as [first|] eqn:Es.
  - destruct (strptime end_date) as [last|] eqn:Ee.
    + destruct Hbad; discriminate.
    + intros [= <- <-]. cbn. split; [right; eauto|auto].
  - intros [= <- <-]. cbn. auto.
Qed.

Lemma download_bad_date_leaves_connection_open_witness :
  exists w,
    Download.download_date_range (Some (fun _ _ => Download.Rows 3))
      (fun _ => None) str_of_int "2023/12/01" "2023/12/05" "SPY"
      {| Download.files := ∅; Download.trace := [] |}
      = (w, Some (Download.BadDate "2023/12/01")) /\
    Download.trace w = [Download.Connected].
Proof.
  eexists. split; [reflexivity|].
  exact (proj1 (proj2 (download_bad_date_leaves_connection_open
                         (fun _ => None) str_of_int (fun _ _ => Download.Rows 3)
                         "2023/12/01" "2023/12/05" "SPY"
                         {| Download.files := ∅; Download.trace := [] |} _ _
                         (or_introl eq_refl) eq_refl))).
Defined.

Lemma visits_last_day (strftime : Z -> string)
    (fetch : string -> string -> Download.outcome) (ticker : string)
    (n : nat) (first : Z) (w w' : Download.world) (res : option Download.failure) :
  first + Z.of_nat n = Download.max_day ->
  Download.visits strftime fetch ticker (zrange first (S n)) w = (w', res) ->
  res = Some Download.OverflowError /\
  exists body,
    Download.step ticker w w' body /\
    length (Download.printed body) = S n.
Proof.
  revert first w. induction n as [|n IH]; intros first w Hn.
  - rewrite zrange_cons. cbn [Download.visits zrange seq map].
    replace (Download.max_day <=? first) with true by (symmetry; apply Z.leb_le; lia).
    intros [= <- <-]. split; [reflexivity|].
    destruct (DownloadFacts.visit_step strftime fetch ticker w first) as (a & Ha & La).
    eauto.
  - rewrite zrange_cons. cbn [Download.visits].
    replace (Download.max_day <=? first) with false by (symmetry; apply Z.leb_gt; lia).
    intros H. apply IH in H; [|lia].
    destruct H as (-> & b & Hb & Lb). split; [reflexivity|].
    destruct (DownloadFacts.visit_step strftime fetch ticker w first) as (a & Ha & La).
    exists (a ++ b)%list. split.
    + eapply DownloadFacts.step_compose; eassumption.
    + rewrite DownloadFacts.printed_app, length_app, La, Lb. reflexivity.
Qed.

(** X23.  When the end date is 9999-12-31, the last day a [datetime]
    holds, [download_date_range] does not return: after the pass for
    that day the increment of the current day raises OverflowError
    outside the [try].  Every day from the start date on has had its
    message, and the connection is left open: the trace has no close. *)
Theorem download_last_day_overflows
    (strptime : string -> option Z) (strftime : Z -> string)
    (fetch : string -> string -> Download.outcome)
    (start_date end_date ticker : string) (first : Z)
    (w0 w : Download.world) (res : option Download.failure) :
  strptime start_date = Some first ->
  strptime end_date = Some Download.max_day ->
  first <= Download.max_day ->
  Download.download_date_range (Some fetch) strptime strftime
    start_date end_date ticker w0 = (w, res) ->
  res = Some Download.OverflowError /\
  exists body,
    Download.trace w = (Download.trace w0 ++ Download.Connected :: body)%list /\
    length (Download.printed body) = Z.to_nat (Download.max_day - first + 1) /\
    ~ In Download.Closed body /\ ~ In Download.Connected body.
Proof.
  intros Hs He Hle. unfold Download.download_date_range. rewrite Hs, He.
  unfold Download.days.
  replace (Z.to_nat (Download.max_day - first + 1))
    with (S (Z.to_nat (Download.max_day - first))) by lia.
  intros H. apply visits_last_day in H; [|lia].
  destruct H as (-> & body & [T F N D Q [O1 O2]] & Hlen).
  split; [reflexivity|]. exists body. repeat split; try assumption.
  rewrite T. cbn. now rewrite <- !app_assoc.
Qed.

Lemma download_last_day_overflows_witness :
  exists w body,
    Download.download_date_range (Some (fun _ _ => Download.Rows 0))
      (fun s => if String.eqb s "a" then Some (Download.max_day - 1)
                else Some Download.max_day) str_of_int
      "a" "b" "SPY" {| Download.files := ∅; Download.trace := [] |}
      = (w, Some Download.OverflowError) /\
    Download.trace w = (Download.Connected :: body)%list /\
    length (Download.printed body) = 2%nat /\
    ~ In Download.Closed body.
Proof.
  destruct (Download.download_date_range (Some (fun _ _ => Download.Rows 0))
              (fun s => if String.eqb s "a" then Some (Download.max_day - 1)
                        else Some Download.max_day) str_of_int
              "a" "b" "SPY" {| Download.files := ∅; Download.trace := [] |})
    as [w res] eqn:E.
  destruct (download_last_day_overflows _ _ _ "a" "b" "SPY" (Download.max_day - 1)
              _ w res eq_refl eq_refl ltac:(unfold Download.max_day; lia) E)
    as (-> & body & Ht & Hl & Hc & _).
  exists w, body. auto.
Defined.
